(** * SentinelShield: the alert pipeline of the weapon detection system

    A shallow embedding of [src/alert_system.py] (class [AlertSystem]) and of
    [src/detector.py] (method [WeaponDetector.detect]), with the properties of
    the cooldown gate, the bounded alert log and the detector boundary.

    Conventions of the embedding:
    - Python numbers that hold seconds ([time.time()], [last_alert_time])
      are exact rationals [Q]; only subtraction and comparison are ever
      applied to them.  Rounding of binary floats is outside the model.
      The [cooldown] comes from the caller, so it is a [pyfloat]: a finite
      number, an infinity or NaN; and what the caller passes to [__init__]
      is a [py_value], which need not be a number at all.
    - Everything the outside world answers during a call (clock readings,
      formatted dates, whether [cv2.imwrite] worked) is an explicit argument
      of the call, and everything the call does to the outside world is
      recorded in a trace of events.
    - A Python method is a function in a monad that threads the object's
      fields, may raise, and keeps the fields as they were mutated when it
      raises. *)

From Stdlib Require Import ZArith QArith Lqa Lia.
From stdpp Require Import base list strings gmap pretty.


(** ** Python values and slices *)

(** [l[i:]] for a Python list [l] and an integer [i]: a negative [i] counts
    from the end, and the start is clamped to [0 .. len l]. *)
Definition py_slice_from {A : Type} (i : Z) (l : list A) : list A :=
  let n := Z.of_nat (length l) in
  let start := if (i <? 0)%Z then Z.max (i + n) 0 else Z.min i n in
  drop (Z.to_nat start) l.

(** An exception object; only its message is kept. *)
Inductive exn : Type := Exception (msg : string).

Inductive outcome (A : Type) : Type :=
| Ret (a : A)
| Raise (e : exn).
Arguments Ret {A} a.
Arguments Raise {A} e.

(** ** Effects *)

Inductive log_level : Type := INFO | WARNING | ERROR.

(** What a call does to, or reads from, the world outside the object. *)
Inductive event : Type :=
| EvTime (now : Q)                 (* time.time() was read and gave [now] *)
| EvLog (lvl : log_level)          (* logger.info / warning / error *)
| EvImwrite (path : string)        (* cv2.imwrite(path, frame) was called *)
| EvThreadStart.                   (* threading.Thread(...).start() *)

Section Monad.
Context {S : Type}.

(** A method body: from the fields before to an outcome, the fields after
    and the events it caused. *)
Definition M (A : Type) : Type := S -> outcome A * S * list event.

Definition ret {A} (a : A) : M A := fun s => (Ret a, s, []).

Definition bind {A B} (m : M A) (k : A -> M B) : M B := fun s =>
  match m s with
  | (Ret a, s1, tr1) =>
      match k a s1 with (r, s2, tr2) => (r, s2, tr1 ++ tr2) end
  | (Raise e, s1, tr1) => (Raise e, s1, tr1)
  end.

(** [try: m except Exception as e: h e] *)
Definition try_except {A} (m : M A) (h : exn -> M A) : M A := fun s =>
  match m s with
  | (Ret a, s1, tr1) => (Ret a, s1, tr1)
  | (Raise e, s1, tr1) =>
      match h e s1 with (r, s2, tr2) => (r, s2, tr1 ++ tr2) end
  end.

Definition get : M S := fun s => (Ret s, s, []).
Definition modify (f : S -> S) : M unit := fun s => (Ret tt, f s, []).
Definition emit (e : event) : M unit := fun s => (Ret tt, s, [e]).

(** A call into a library whose outcome the world decides. *)
Definition lift {A} (o : outcome A) : M A := fun s => (o, s, []).

(** [with self._lock: m].  In a single thread the lock changes nothing;
    the interleaving model below takes these blocks as its atomic steps. *)
Definition with_lock {A} (m : M A) : M A := m.
End Monad.

Notation "x <- m ;; k" := (bind m (fun x => k))
  (at level 100, m at next level, right associativity).
Notation "m ;;; k" := (bind m (fun _ => k))
  (at level 100, right associativity).

Definition logger {S} (lvl : log_level) : M (S:=S) unit := emit (EvLog lvl).

(** The three components of a run. *)
Definition result_of {S A} (r : outcome A * S * list event) : outcome A := r.1.1.
Definition state_of {S A} (r : outcome A * S * list event) : S := r.1.2.
Definition events_of {S A} (r : outcome A * S * list event) : list event := r.2.

(** ** Frames *)

(** A numpy array: its shape and its elements.  [frame.size] is the product
    of the shape. *)
Record ndarray : Type := { shape : list nat; data : list Z }.

Definition size (a : ndarray) : nat := foldr Nat.mul 1%nat (shape a).

(** What a caller can pass as [frame]. *)
Inductive py_frame : Type :=
| PyNone
| PyObject (repr : string)   (* any object that is not a numpy array *)
| PyArray (a : ndarray).

(** ** alert_system.py *)

(** The dict built at lines 141-146. *)
Record AlertInfo : Type := {
  timestamp : string;
  detections : list string;
  confidence_scores : list Q;
  screenshot : option string
}.

(** [x < y] on finite numbers, as a boolean. *)
Definition Qltb (x y : Q) : bool := negb (Qle_bool y x).

(** A Python [float]; an [int] is a finite one. *)
Inductive pyfloat : Type :=
| Finite (q : Q)
| PosInf                       (* float('inf') *)
| NegInf                       (* float('-inf') *)
| NaN.                         (* float('nan') *)
Coercion Finite : Q >-> pyfloat.
Bind Scope Q_scope with pyfloat.

(** [x <= y] and [x < y] as Python evaluates them on floats: a comparison
    with NaN on either side is [False]. *)
Definition float_leb (x y : pyfloat) : bool :=
  match x, y with
  | NaN, _ | _, NaN => false
  | NegInf, _ | _, PosInf => true
  | Finite a, Finite b => Qle_bool a b
  | PosInf, _ | _, NegInf => false
  end.

Definition float_ltb (x y : pyfloat) : bool :=
  match x, y with
  | NaN, _ | _, NaN => false
  | Finite a, Finite b => Qltb a b
  | NegInf, NegInf | PosInf, _ | _, NegInf => false
  | NegInf, _ | _, PosInf => true
  end.

Definition float_le (x y : pyfloat) : Prop := float_leb x y = true.
Definition float_lt (x y : pyfloat) : Prop := float_ltb x y = true.

(** What a caller can pass as [cooldown]. *)
Inductive py_value : Type :=
| PyFloat (x : pyfloat)        (* an int or a float *)
| PyNonNumber (repr : string). (* None, a str, a list: [v < 0] raises *)

Record AlertSystem : Type := {
  alert_folder : string;
  sound_file : string;
  cooldown : pyfloat;
  last_alert_time : Q;
  sound : bool;                  (* [self.sound] is not [None] *)
  alert_log : list AlertInfo
}.

Definition set_last_alert_time (t : Q) (s : AlertSystem) : AlertSystem :=
  {| alert_folder := alert_folder s; sound_file := sound_file s;
     cooldown := cooldown s; last_alert_time := t;
     sound := sound s; alert_log := alert_log s |}.

Definition set_alert_log (l : list AlertInfo) (s : AlertSystem) : AlertSystem :=
  {| alert_folder := alert_folder s; sound_file := sound_file s;
     cooldown := cooldown s; last_alert_time := last_alert_time s;
     sound := sound s; alert_log := l |}.


(** What the world answers while [__init__] runs. *)
Record init_env : Type := {
  mkdir : outcome unit;            (* self.alert_folder.mkdir(...) *)
  pygame_available : bool;         (* PYGAME_AVAILABLE *)
  sound_file_exists : outcome bool;(* self.sound_file.exists() *)
  mixer_init : outcome unit;       (* pygame.mixer.init() *)
  mixer_sound : outcome unit       (* pygame.mixer.Sound(...) *)
}.

(** The default of the [cooldown] parameter and the value a negative one is
    replaced with. *)
Definition default_cooldown : Q := 5.

(** The fields being built by [__init__]; [None] fields start as below. *)
Definition blank : AlertSystem :=
  {| alert_folder := ""; sound_file := ""; cooldown := 0; last_alert_time := 0;
     sound := false; alert_log := [] |}.

Definition set_alert_folder (p : string) (s : AlertSystem) : AlertSystem :=
  {| alert_folder := p; sound_file := sound_file s;
     cooldown := cooldown s; last_alert_time := last_alert_time s;
     sound := sound s; alert_log := alert_log s |}.

Definition set_sound_file (p : string) (s : AlertSystem) : AlertSystem :=
  {| alert_folder := alert_folder s; sound_file := p;
     cooldown := cooldown s; last_alert_time := last_alert_time s;
     sound := sound s; alert_log := alert_log s |}.

Definition set_cooldown (c : pyfloat) (s : AlertSystem) : AlertSystem :=
  {| alert_folder := alert_folder s; sound_file := sound_file s;
     cooldown := c; last_alert_time := last_alert_time s;
     sound := sound s; alert_log := alert_log s |}.

Definition set_sound (b : bool) (s : AlertSystem) : AlertSystem :=
  {| alert_folder := alert_folder s; sound_file := sound_file s;
     cooldown := cooldown s; last_alert_time := last_alert_time s;
     sound := b; alert_log := alert_log s |}.

(** [AlertSystem.__init__], lines 40-73.  The test [cooldown < 0] of line 41
    is outside every [try]: on a value that is not a number it raises
    [TypeError], and a number is stored as it is unless the test said
    [True]. *)
Definition init (folder file : string) (cooldown0 : py_value) (env : init_env)
  : M (S:=AlertSystem) unit :=
  cooldown1 <- match cooldown0 with
               | PyNonNumber _ => lift (Raise (Exception "TypeError"))
               | PyFloat x =>
                   if float_ltb x 0
                   then logger WARNING ;;; ret (Finite default_cooldown)
                   else ret x
               end ;;
  modify (set_alert_folder folder) ;;;
  try_except
    (lift (mkdir env) ;;; logger INFO)
    (fun _ => logger ERROR ;;; modify (set_alert_folder ".")) ;;;
  modify (set_sound_file file) ;;;
  modify (set_cooldown cooldown1) ;;;
  modify (set_last_alert_time 0) ;;;
  modify (set_sound false) ;;;
  (if pygame_available env
   then try_except
          (ex <- lift (sound_file_exists env) ;;
           if ex : bool
           then lift (mixer_init env) ;;;
                lift (mixer_sound env) ;;;
                modify (set_sound true) ;;;
                logger INFO
           else logger WARNING)
          (fun _ => logger ERROR ;;; modify (set_sound false))
   else ret tt) ;;;
  modify (set_alert_log []).

(** [AlertSystem(folder, file, cooldown)]: the object after [__init__], or
    the exception [__init__] let through. *)
Definition new (folder file : string) (cooldown0 : py_value) (env : init_env)
  : outcome AlertSystem :=
  match init folder file cooldown0 env blank with
  | (Ret _, s, _) => Ret s
  | (Raise e, _, _) => Raise e
  end.

(** [can_alert], lines 75-81. *)
Definition can_alert (now : Q) : M (S:=AlertSystem) bool :=
  with_lock
    (emit (EvTime now) ;;;
     let current_time := now in
     self <- get ;;
     if float_leb (cooldown self) (current_time - last_alert_time self)
     then ret true
     else ret false).

(** What the world answers while one [trigger_alert] call runs.  A field is
    only looked at when the call reaches the line that asks for it. *)
Record trigger_env : Type := {
  t_gate : Q;                  (* time.time() inside can_alert, line 78 *)
  t_accept : Q;                (* time.time() at line 115 *)
  stamp_file : string;         (* datetime.now().strftime("%Y%m%d_%H%M%S") *)
  imwrite : outcome bool;      (* cv2.imwrite(...), line 123 *)
  thread_start : outcome unit; (* threading.Thread(...).start(), line 136 *)
  stamp_info : string          (* datetime.now().strftime("%Y-%m-%d %H:%M:%S") *)
}.

(** [str(folder / name)] for a folder that is already in normal form. *)
Definition path_div (folder name : string) : string :=
  if String.eqb folder "." then name
  else String.append folder (String.append "/" name).

(** Lines 114-115: the accepted call stamps the gate. *)
Definition update_last_alert_time (now : Q) : M (S:=AlertSystem) unit :=
  with_lock
    (emit (EvTime now) ;;;
     modify (set_last_alert_time now)).

(** Lines 118-131: the screenshot; [None] when it could not be written. *)
Definition save_screenshot (env : trigger_env) : M (S:=AlertSystem) (option string) :=
  let timestamp := stamp_file env in
  self <- get ;;
  let screenshot_path :=
    path_div (alert_folder self)
             (String.append "alert_" (String.append timestamp ".jpg")) in
  try_except
    (emit (EvImwrite screenshot_path) ;;;
     success <- lift (imwrite env) ;;
     if negb success
     then logger ERROR ;;; ret None
     else logger INFO ;;; ret (Some screenshot_path))
    (fun save_error => logger ERROR ;;; ret None).

(** Lines 134-138: the sound is played by a thread of its own. *)
Definition start_sound (env : trigger_env) : M (S:=AlertSystem) unit :=
  self <- get ;;
  if sound self
  then try_except
         (emit EvThreadStart ;;; lift (thread_start env))
         (fun sound_error => logger ERROR)
  else ret tt.

(** Lines 149-154: append, then keep the last 100. *)
Definition log_alert (alert_info : AlertInfo) : M (S:=AlertSystem) unit :=
  with_lock
    (modify (fun self => set_alert_log (alert_log self ++ [alert_info]) self) ;;;
     self <- get ;;
     if (100 <? length (alert_log self))%nat
     then modify (set_alert_log (py_slice_from (-100) (alert_log self)))
     else ret tt).

(** [not detections] for a list. *)
Definition is_empty {A} (l : list A) : bool :=
  match l with [] => true | _ => false end.

(** [trigger_alert], lines 83-160. *)
Definition trigger_alert (frame : py_frame) (dets : list string)
    (scores : list Q) (env : trigger_env) : M (S:=AlertSystem) (option AlertInfo) :=
  match frame with
  | PyNone | PyObject _ => logger ERROR ;;; ret None
  | PyArray a =>
      if (size a =? 0)%nat then logger ERROR ;;; ret None
      else if is_empty dets then logger WARNING ;;; ret None
      else
        ok <- can_alert (t_gate env) ;;
        if negb ok then ret None
        else
          try_except
            (update_last_alert_time (t_accept env) ;;;
             screenshot_path <- save_screenshot env ;;
             start_sound env ;;;
             let alert_info :=
               {| timestamp := stamp_info env;
                  detections := dets;
                  confidence_scores := scores;
                  screenshot := screenshot_path |} in
             log_alert alert_info ;;;
             ret (Some alert_info))
            (fun e => logger ERROR ;;; ret None)
  end.

(** [get_recent_alerts], lines 170-173. *)
Definition get_recent_alerts (count : Z) : M (S:=AlertSystem) (list AlertInfo) :=
  with_lock
    (self <- get ;;
     if is_empty (alert_log self) then ret []
     else ret (py_slice_from (- count) (alert_log self))).

(** [clear_alerts], lines 175-179. *)
Definition clear_alerts : M (S:=AlertSystem) unit :=
  with_lock
    (modify (set_alert_log []) ;;;
     logger INFO).

(** [get_alert_count], lines 181-184. *)
Definition get_alert_count : M (S:=AlertSystem) nat :=
  with_lock
    (self <- get ;;
     ret (length (alert_log self))).


(** ** Sequences of calls on one [AlertSystem] *)

Inductive call : Type :=
| CanAlert (now : Q)
| TriggerAlert (frame : py_frame) (dets : list string) (scores : list Q)
               (env : trigger_env)
| GetRecentAlerts (count : Z)
| ClearAlerts
| GetAlertCount.

Inductive reply : Type :=
| RBool (b : bool)
| RAlert (r : option AlertInfo)
| RAlerts (l : list AlertInfo)
| RNone
| RInt (n : nat).

Definition perform (c : call) : M (S:=AlertSystem) reply :=
  match c with
  | CanAlert now => b <- can_alert now ;; ret (RBool b)
  | TriggerAlert frame dets scores env =>
      r <- trigger_alert frame dets scores env ;; ret (RAlert r)
  | GetRecentAlerts count => l <- get_recent_alerts count ;; ret (RAlerts l)
  | ClearAlerts => clear_alerts ;;; ret RNone
  | GetAlertCount => n <- get_alert_count ;; ret (RInt n)
  end.

(** A caller that makes the calls one after the other. *)
Fixpoint perform_all (cs : list call) : M (S:=AlertSystem) (list reply) :=
  match cs with
  | [] => ret []
  | c :: cs' =>
      r <- perform c ;;
      rs <- perform_all cs' ;;
      ret (r :: rs)
  end.

(** The alert record a reply carries, if the call was accepted. *)
Definition accepted_record (r : outcome reply) : option AlertInfo :=
  match r with
  | Ret (RAlert (Some info)) => Some info
  | _ => None
  end.

(** The acceptance timestamps of a run: the value of [last_alert_time] right
    after each call that returned an alert record, in call order. *)
Fixpoint acceptance_times (cs : list call) (s : AlertSystem) : list Q :=
  match cs with
  | [] => []
  | c :: cs' =>
      let r := perform c s in
      match accepted_record (result_of r) with
      | Some _ => last_alert_time (state_of r) :: acceptance_times cs' (state_of r)
      | None => acceptance_times cs' (state_of r)
      end
  end.

(** The clock readings among the events of a run. *)
Fixpoint clock_readings (evs : list event) : list Q :=
  match evs with
  | [] => []
  | EvTime t :: evs' => t :: clock_readings evs'
  | _ :: evs' => clock_readings evs'
  end.

(** A clock that never runs backwards. *)
Fixpoint nondecreasing (ts : list Q) : Prop :=
  match ts with
  | [] => True
  | t :: ts' => Forall (fun u => t <= u)%Q ts' /\ nondecreasing ts'
  end.

(** During no single call of the run does the clock run backwards: the
    readings one call takes (at line 78, and at line 115 when it gets there)
    do not decrease.  Between two calls the clock may do anything. *)
Fixpoint steady_within_calls (cs : list call) (s : AlertSystem) : Prop :=
  match cs with
  | [] => True
  | c :: cs' =>
      nondecreasing (clock_readings (events_of (perform c s)))
      /\ steady_within_calls cs' (state_of (perform c s))
  end.

(** The last [n] elements of a list. *)
Definition keep_last {A} (n : nat) (l : list A) : list A :=
  drop (length l - n) l.

(** The frame and the detections pass the checks of lines 96-106. *)
Definition valid_input (frame : py_frame) (dets : list string) : bool :=
  match frame with
  | PyArray a => negb (size a =? 0)%nat && negb (is_empty dets)
  | _ => false
  end.

(** The gate condition of line 79. *)
Definition gate_open (now : Q) (s : AlertSystem) : Prop :=
  float_le (cooldown s) (now - last_alert_time s).

(** ** Several threads calling [trigger_alert] on one [AlertSystem]

    [self._lock] makes every [with self._lock:] block atomic and nothing
    else: between two such blocks of one call, blocks of other calls may run.
    A call in progress is therefore at one of the points below, and a step
    of the system runs one thread up to its next point. *)

Inductive thread : Type :=
| AtValidate (frame : py_frame) (dets : list string) (scores : list Q)
             (env : trigger_env)                     (* before line 96 *)
| AtGate (dets : list string) (scores : list Q)
         (env : trigger_env)                         (* before line 109 *)
| AtStamp (dets : list string) (scores : list Q)
          (env : trigger_env)                        (* before line 114 *)
| AtSideEffects (dets : list string) (scores : list Q)
                (env : trigger_env)                  (* before line 118 *)
| AtLog (alert_info : AlertInfo)                     (* before line 149 *)
| Returned (r : option AlertInfo).

(** The handler of lines 158-160, which covers lines 113-156. *)
Definition guarded (m : M (S:=AlertSystem) thread) : M (S:=AlertSystem) thread :=
  try_except m (fun e => logger ERROR ;;; ret (Returned None)).

(** One thread runs to its next point. *)
Definition thread_step (t : thread) : M (S:=AlertSystem) thread :=
  match t with
  | AtValidate frame dets scores env =>
      match frame with
      | PyNone | PyObject _ => logger ERROR ;;; ret (Returned None)
      | PyArray a =>
          if (size a =? 0)%nat then logger ERROR ;;; ret (Returned None)
          else if is_empty dets then logger WARNING ;;; ret (Returned None)
          else ret (AtGate dets scores env)
      end
  | AtGate dets scores env =>
      ok <- can_alert (t_gate env) ;;
      if negb ok then ret (Returned None)
      else ret (AtStamp dets scores env)
  | AtStamp dets scores env =>
      guarded (update_last_alert_time (t_accept env) ;;;
               ret (AtSideEffects dets scores env))
  | AtSideEffects dets scores env =>
      guarded (screenshot_path <- save_screenshot env ;;
               start_sound env ;;;
               ret (AtLog {| timestamp := stamp_info env;
                             detections := dets;
                             confidence_scores := scores;
                             screenshot := screenshot_path |}))
  | AtLog alert_info =>
      guarded (log_alert alert_info ;;;
               ret (Returned (Some alert_info)))
  | Returned r => ret (Returned r)
  end.

(** The threads, the shared object and the events so far. *)
Definition config : Type := list thread * AlertSystem * list event.

(** The scheduler lets thread [i] run one step. *)
Definition sched_step (cfg : config) (i : nat) : config :=
  match cfg with
  | (pool, s, evs) =>
      match pool !! i with
      | None => cfg
      | Some t =>
          match thread_step t s with
          | (Ret t', s', evs') => (<[i := t']> pool, s', evs ++ evs')
          | (Raise _, s', evs') => (pool, s', evs ++ evs')
          end
      end
  end.

Definition interleave (schedule : list nat) (cfg : config) : config :=
  foldl sched_step cfg schedule.

(** What the call of thread [i] returned, once it has. *)
Definition returned (cfg : config) (i : nat) : option (option AlertInfo) :=
  match cfg.1.1 !! i with
  | Some (Returned r) => Some r
  | _ => None
  end.

(** ** detector.py *)

(** [l[i]] for a Python list: a negative index counts from the end, and an
    index out of range raises [IndexError]. *)
Definition py_index {A : Type} (l : list A) (i : Z) : outcome A :=
  let n := Z.of_nat (length l) in
  let j := if (i <? 0)%Z then (i + n)%Z else i in
  match (if (0 <=? j)%Z then l !! Z.to_nat j else None) with
  | Some x => Ret x
  | None => Raise (Exception "IndexError")
  end.

Fixpoint map_ascii (f : nat -> nat) (s : string) : string :=
  match s with
  | EmptyString => EmptyString
  | String c s' =>
      String (Ascii.ascii_of_nat (f (Ascii.nat_of_ascii c))) (map_ascii f s')
  end.

(** [str.lower] and [str.upper] on ASCII text. *)
Definition lower : string -> string :=
  map_ascii (fun n => if ((65 <=? n) && (n <=? 90))%nat then (n + 32)%nat else n).
Definition upper : string -> string :=
  map_ascii (fun n => if ((97 <=? n) && (n <=? 122))%nat then (n - 32)%nat else n).

Module Detector.

Definition color : Type := Z * Z * Z.
Definition point : Type := Z * Z.

(** The functions of OpenCV that [detect] draws with, and the formatting
    of a float as a percentage.  A drawing function returns the image it
    was given with the drawing on it, or raises. *)
Record cv2_api : Type := {
  rectangle : ndarray -> point -> point -> color -> Z -> outcome ndarray;
  getTextSize : string -> outcome (Z * Z);
  putText : ndarray -> string -> point -> color -> Z -> outcome ndarray;
  format_percent : Q -> string
}.

(** One element of [result.boxes], as [detect] reads it. *)
Record yolo_box : Type := {
  xyxy : outcome (Z * Z * Z * Z);   (* map(int, box.xyxy[0]), unpacked *)
  conf : outcome Q;                 (* float(box.conf[0]) *)
  cls : outcome Z                   (* int(box.cls[0]) *)
}.

Record yolo_result : Type := {
  boxes : outcome (option (list yolo_box))
}.

(** The loaded model: [names] when it has that attribute. *)
Record yolo_model : Type := {
  names : option (gmap Z string)
}.

Record WeaponDetector : Type := {
  model_path : string;
  confidence_threshold : Q;
  device : string;
  model : option yolo_model;
  model_loaded : bool;
  class_names : list string;
  colors : gmap string color;
  total_detections : nat;
  frame_count : nat;
  error_count : nat
}.

(** The colours set at lines 52-56. *)
Definition default_colors : gmap string color :=
  <["pistol" := (0, 0, 255)%Z]>
    (<["knife" := (0, 165, 255)%Z]>
       (<["default" := (0, 255, 255)%Z]> ∅)).

(** The local variables of [detect] that are updated in place. *)
Record locals : Type := {
  detections : list string;
  confidence_scores : list Q;
  has_detection : bool;
  annotated_frame : ndarray
}.

(** What the model answers for this frame. *)
Record detect_env : Type := {
  inference : outcome (list yolo_result)
}.

Definition add_frame_count (self : WeaponDetector) : WeaponDetector :=
  {| model_path := model_path self;
     confidence_threshold := confidence_threshold self;
     device := device self; model := model self;
     model_loaded := model_loaded self; class_names := class_names self;
     colors := colors self; total_detections := total_detections self;
     frame_count := frame_count self + 1; error_count := error_count self |}.

Definition add_total_detections (self : WeaponDetector) : WeaponDetector :=
  {| model_path := model_path self;
     confidence_threshold := confidence_threshold self;
     device := device self; model := model self;
     model_loaded := model_loaded self; class_names := class_names self;
     colors := colors self; total_detections := total_detections self + 1;
     frame_count := frame_count self; error_count := error_count self |}.

Definition add_error_count (self : WeaponDetector) : WeaponDetector :=
  {| model_path := model_path self;
     confidence_threshold := confidence_threshold self;
     device := device self; model := model self;
     model_loaded := model_loaded self; class_names := class_names self;
     colors := colors self; total_detections := total_detections self;
     frame_count := frame_count self; error_count := error_count self + 1 |}.

Definition append_detection (class_name : string) (confidence : Q)
    (l : locals) : locals :=
  {| detections := detections l ++ [class_name];
     confidence_scores := confidence_scores l ++ [confidence];
     has_detection := has_detection l;
     annotated_frame := annotated_frame l |}.

Definition set_has_detection (b : bool) (l : locals) : locals :=
  {| detections := detections l; confidence_scores := confidence_scores l;
     has_detection := b; annotated_frame := annotated_frame l |}.

Definition set_annotated_frame (a : ndarray) (l : locals) : locals :=
  {| detections := detections l; confidence_scores := confidence_scores l;
     has_detection := has_detection l; annotated_frame := a |}.

(** Inside the [try] of [detect] the state is the object and the locals. *)
Definition body (A : Type) : Type := M (S := WeaponDetector * locals) A.

Definition on_self (f : WeaponDetector -> WeaponDetector) : body unit :=
  modify (fun st => (f st.1, st.2)).
Definition on_locals (f : locals -> locals) : body unit :=
  modify (fun st => (st.1, f st.2)).

(** A drawing call: it changes [annotated_frame] in place. *)
Definition draw (f : ndarray -> outcome ndarray) : body unit :=
  st <- get ;;
  a <- lift (f (annotated_frame st.2)) ;;
  on_locals (set_annotated_frame a).

(** [h, w = a.shape[:2]] *)
Definition shape_hw (a : ndarray) : outcome (Z * Z) :=
  match shape a with
  | h :: w :: _ => Ret (Z.of_nat h, Z.of_nat w)
  | _ => Raise (Exception "ValueError")
  end.

(** [np.zeros((480, 640, 3), dtype=np.uint8)] *)
Definition zeros : ndarray :=
  {| shape := [480; 640; 3]%nat; data := replicate (480 * 640 * 3) 0%Z |}.

(** [a.copy()]: an array with the same shape and elements. *)
Definition copy (a : ndarray) : ndarray := a.

(** [self.model.names[class_id]] when the model has [names] and the key
    is in it (line 176). *)
Definition model_name (self : WeaponDetector) (class_id : Z) : option string :=
  match model self with
  | Some m =>
      match names m with
      | Some d => d !! class_id
      | None => None
      end
  | None => None
  end.

(** Lines 176-181. *)
Definition class_name_of (self : WeaponDetector) (class_id : Z) : outcome string :=
  match model_name self class_id with
  | Some n => Ret n
  | None =>
      if (class_id <? Z.of_nat (length (class_names self)))%Z
      then py_index (class_names self) class_id
      else Ret (String.append "Object_" (pretty class_id))
  end.

(** Lines 159-219: one box. *)
Definition process_box (cv : cv2_api) (frame : ndarray) (box : yolo_box)
  : body unit :=
  c <- lift (xyxy box) ;;
  let '(x1, y1, x2, y2) := c in
  hw <- lift (shape_hw frame) ;;
  let '(h, w) := hw in
  let '(x1, y1) := (Z.max 0 x1, Z.max 0 y1) in
  let '(x2, y2) := (Z.min w x2, Z.min h y2) in
  confidence <- lift (conf box) ;;
  class_id <- lift (cls box) ;;
  st <- get ;;
  class_name <- lift (class_name_of st.1 class_id) ;;
  on_locals (append_detection class_name confidence) ;;;
  on_self add_total_detections ;;;
  let color :=
    default (default (0, 255, 255)%Z (colors st.1 !! "default"))
            (colors st.1 !! lower class_name) in
  draw (fun a => rectangle cv a (x1, y1) (x2, y2) color 3) ;;;
  let label :=
    String.append (upper class_name)
                  (String.append ": " (format_percent cv confidence)) in
  sz <- lift (getTextSize cv label) ;;
  let '(label_w, label_h) := sz in
  let label_y := Z.max (label_h + 10) y1 in
  draw (fun a => rectangle cv a (x1, label_y - label_h - 10)%Z
                           (Z.min (x1 + label_w) w, label_y) color (-1)) ;;;
  draw (fun a => putText cv a label (x1, label_y - 5)%Z (255, 255, 255)%Z 2).

(** [for x in l: f x] *)
Fixpoint for_each {S A : Type} (l : list A) (f : A -> M (S:=S) unit)
  : M (S:=S) unit :=
  match l with
  | [] => ret tt
  | x :: l' => f x ;;; for_each l' f
  end.

(** Lines 149-227: one result. *)
Definition process_result (cv : cv2_api) (frame : ndarray)
    (result : yolo_result) : body unit :=
  try_except
    (bs <- lift (boxes result) ;;
     match bs with
     | None => ret tt
     | Some bs =>
         if (length bs =? 0)%nat then ret tt
         else
           on_locals (set_has_detection true) ;;;
           for_each bs (fun box =>
             try_except (process_box cv frame box)
                        (fun box_error => logger ERROR))
     end)
    (fun result_error => logger ERROR).

(** The value [detect] returns. *)
Definition detection : Type := ndarray * list string * list Q * bool.

(** Lines 139-232 and 240: the body of the [try] block, then the final
    [return]. *)
Definition annotate (cv : cv2_api) (frame : ndarray) (env : detect_env)
  : body detection :=
  results <- lift (inference env) ;;
  for_each results (process_result cv frame) ;;;
  st <- get ;;
  (if has_detection st.2
   then hw <- lift (shape_hw (annotated_frame st.2)) ;;
        let '(h, w) := hw in
        draw (fun a => rectangle cv a (0, 0)%Z (w - 1, h - 1)%Z
                                 (0, 0, 255)%Z 10)
   else ret tt) ;;;
  st <- get ;;
  ret (annotated_frame st.2, detections st.2, confidence_scores st.2,
       has_detection st.2).

(** Lines 138-240: the [try] block with its handler, lines 234-238. *)
Definition infer_and_annotate (cv : cv2_api) (frame : ndarray)
    (env : detect_env) : body detection :=
  try_except
    (annotate cv frame env)
    (fun e =>
       logger ERROR ;;;
       on_self add_error_count ;;;
       ret (copy frame, [], [], false)).

(** The locals as lines 133-136 set them. *)
Definition fresh_locals (frame : ndarray) : locals :=
  {| detections := []; confidence_scores := [];
     has_detection := false; annotated_frame := copy frame |}.

(** The locals of a call live as long as the call. *)
Definition with_locals {A} (l : locals) (m : body A) : M (S:=WeaponDetector) A :=
  fun self =>
    match m (self, l) with
    | (r, (self', _), evs) => (r, self', evs)
    end.

(** [WeaponDetector.detect], lines 100-240. *)
Definition detect (cv : cv2_api) (frame : py_frame) (env : detect_env)
  : M (S:=WeaponDetector) detection :=
  match frame with
  | PyNone => logger ERROR ;;; ret (zeros, [], [], false)
  | PyObject _ => logger ERROR ;;; ret (zeros, [], [], false)
  | PyArray a =>
      if (size a =? 0)%nat then logger ERROR ;;; ret (zeros, [], [], false)
      else
        self <- get ;;
        if negb (model_loaded self) || negb (bool_decide (is_Some (model self)))
        then logger WARNING ;;; ret (copy a, [], [], false)
        else
          modify add_frame_count ;;;
          with_locals (fresh_locals a) (infer_and_annotate cv a env)
  end.

(** ** A concrete detector for the examples *)

(** An OpenCV whose drawing calls succeed and leave the image alone. *)
Definition plain_cv : cv2_api :=
  {| rectangle := fun a _ _ _ _ => Ret a;
     getTextSize := fun _ => Ret (10, 10)%Z;
     putText := fun a _ _ _ _ => Ret a;
     format_percent := fun _ => "95.00%" |}.

(** A detector whose model is loaded. *)
Definition loaded_detector : WeaponDetector :=
  {| model_path := "../models/weights/best.pt";
     confidence_threshold := (1 # 2)%Q;
     device := "cpu";
     model := Some {| names := Some (<[0%Z := "pistol"]> (<[1%Z := "knife"]> ∅)) |};
     model_loaded := true;
     class_names := ["pistol"; "knife"];
     colors := default_colors;
     total_detections := 0; frame_count := 0; error_count := 0 |}.

(** The model raises on this frame. *)
Definition failing_inference : detect_env :=
  {| inference := Raise (Exception "RuntimeError") |}.

(** The model finds one pistol; the second box cannot be read. *)
Definition one_pistol : detect_env :=
  {| inference :=
       Ret [{| boxes :=
                 Ret (Some [{| xyxy := Ret (0, 0, 1, 1)%Z;
                               conf := Ret (95 # 100)%Q;
                               cls := Ret 0%Z |};
                            {| xyxy := Raise (Exception "ValueError");
                               conf := Ret (50 # 100)%Q;
                               cls := Ret 1%Z |}]) |}] |}.

End Detector.

(** ** Vocabulary of the statements *)

(** The [screenshot] entry of the record of an accepted call: the path when
    [cv2.imwrite] returned [True], and [None] when it returned [False] or
    raised. *)
Definition screenshot_entry (env : trigger_env) (s : AlertSystem) : option string :=
  match imwrite env with
  | Ret true =>
      Some (path_div (alert_folder s)
                     (String.append "alert_"
                                    (String.append (stamp_file env) ".jpg")))
  | _ => None
  end.

(** The screenshot write failed: [cv2.imwrite] returned [False] or raised. *)
Definition screenshot_fails (env : trigger_env) : Prop :=
  match imwrite env with
  | Ret true => False
  | _ => True
  end.

(** The same world, except that [cv2.imwrite] answers [w]. *)
Definition with_imwrite (w : outcome bool) (env : trigger_env) : trigger_env :=
  {| t_gate := t_gate env; t_accept := t_accept env;
     stamp_file := stamp_file env; imwrite := w;
     thread_start := thread_start env; stamp_info := stamp_info env |}.

(** A record with its [screenshot] entry blanked. *)
Definition without_screenshot (r : AlertInfo) : AlertInfo :=
  {| timestamp := timestamp r; detections := detections r;
     confidence_scores := confidence_scores r; screenshot := None |}.

(** Timestamps in which every later one is at least [c] after every earlier
    one. *)
Fixpoint spaced (c : Q) (ts : list Q) : Prop :=
  match ts with
  | [] => True
  | t :: ts' => Forall (fun u => t + c <= u)%Q ts' /\ spaced c ts'
  end.

(** ** Concrete worlds and objects for the examples *)

(** A machine on which the folder can be made and there is no sound. *)
Definition quiet_world : init_env :=
  {| mkdir := Ret (); pygame_available := false;
     sound_file_exists := Ret false;
     mixer_init := Ret (); mixer_sound := Ret () |}.

(** One BGR pixel. *)
Definition pixel : ndarray := {| shape := [1; 1; 3]%nat; data := [0; 0; 0]%Z |}.

(** A call during which the clock reads [t1] at the gate and [t2] at
    acceptance, and [cv2.imwrite] answers [w]. *)
Definition world_at (t1 t2 : Q) (w : outcome bool) : trigger_env :=
  {| t_gate := t1; t_accept := t2; stamp_file := "20240101_000000";
     imwrite := w; thread_start := Ret ();
     stamp_info := "2024-01-01 00:00:00" |}.

(** [AlertSystem()] on the quiet machine. *)
Definition fresh_system : AlertSystem :=
  {| alert_folder := "alerts"; sound_file := "assets/alert.wav";
     cooldown := 5; last_alert_time := 0; sound := false; alert_log := [] |}.

Definition pistol_alert (t1 t2 : Q) : call :=
  TriggerAlert (PyArray pixel) ["pistol"] [(95 # 100)%Q] (world_at t1 t2 (Ret true)).

(** Two calls; during the second the clock is set back by four seconds
    between the reading at the gate and the reading at acceptance. *)
Definition clock_set_back : list call :=
  [pistol_alert 100 100; pistol_alert 105 101].

(** Three calls, at 100 s, 102 s and 106 s. *)
Definition three_calls : list call :=
  [pistol_alert 100 100; pistol_alert 102 102; pistol_alert 106 106].

(** The records appended to the log since it was last cleared, oldest
    first: [acc] holds them for the calls already made. *)
Fixpoint ledger_history (cs : list call) (s : AlertSystem)
    (acc : list AlertInfo) : list AlertInfo :=
  match cs with
  | [] => acc
  | c :: cs' =>
      let r := perform c s in
      let acc' :=
        match c with
        | ClearAlerts => []
        | _ =>
            match accepted_record (result_of r) with
            | Some info => acc ++ [info]
            | None => acc
            end
        end in
      ledger_history cs' (state_of r) acc'
  end.

(** A call that is accepted whatever the state: a valid frame, one
    detection, and a clock far beyond any cooldown in use here. *)
Definition nth_alert (n : nat) : call :=
  TriggerAlert (PyArray pixel) [pretty n] [1%Q]
               (world_at (1000 * inject_Z (Z.of_nat (S n)))
                         (1000 * inject_Z (Z.of_nat (S n))) (Ret true)).

(** The state after one accepted alert at 100 s. *)
Definition one_alert_system : AlertSystem :=
  state_of (perform (pistol_alert 100 100) fresh_system).

(** Two threads that call [trigger_alert] at about the same time: the
    first reads the clock at 1000 s and 1002 s, the second at 1001 s and
    1003 s. *)
Definition two_threads : list thread :=
  [AtValidate (PyArray pixel) ["pistol"] [(95 # 100)%Q]
              (world_at 1000 1002 (Ret true));
   AtValidate (PyArray pixel) ["knife"] [(90 # 100)%Q]
              (world_at 1001 1003 (Ret true))].

(** The scheduler switches thread after every step. *)
Definition alternating : list nat := [0; 1; 0; 1; 0; 1; 0; 1; 0; 1]%nat.

(** The scheduler lets the first call finish before the second starts. *)
Definition one_after_the_other : list nat := [0; 0; 0; 0; 0; 1; 1; 1; 1; 1]%nat.

(** The events of lines 118-138 of an accepted call: the screenshot and the
    sound. *)
Definition side_events (env : trigger_env) (s : AlertSystem) : list event :=
  let s1 := set_last_alert_time (t_accept env) s in
  events_of (save_screenshot env s1) ++ events_of (start_sound env s1).

(** A method body that leaves the observation [f] of the state as it was. *)
Definition keeps {S A V : Type} (f : S -> V) (m : M (S:=S) A) : Prop :=
  forall s, f (state_of (m s)) = f s.



(** ** Further vocabulary *)



(** The same world, except that starting the sound thread answers [o]. *)
Definition with_thread_start (o : outcome unit) (env : trigger_env) : trigger_env :=
  {| t_gate := t_gate env; t_accept := t_accept env;
     stamp_file := stamp_file env; imwrite := imwrite env;
     thread_start := o; stamp_info := stamp_info env |}.

(** The sound system came up: pygame is there, the file exists, and both
    [pygame.mixer.init()] and [pygame.mixer.Sound(...)] returned. *)
Definition sound_comes_up (env : init_env) : bool :=
  pygame_available env &&
  match sound_file_exists env, mixer_init env, mixer_sound env with
  | Ret true, Ret _, Ret _ => true
  | _, _, _ => false
  end.

(** ** detector.py: construction, model loading and statistics *)

(** What the world answers while [load_model] runs. *)
Record load_env : Type := {
  model_exists : outcome bool;            (* self.model_path.exists() *)
  yolo : outcome Detector.yolo_model;     (* YOLO(str(self.model_path)) *)
  to_device : outcome unit;               (* self.model.to(self.device) *)
  names_values : outcome (list string)    (* list(self.model.names.values()) *)
}.

Definition set_model (m : option Detector.yolo_model)
    (self : Detector.WeaponDetector) : Detector.WeaponDetector :=
  {| Detector.model_path := Detector.model_path self;
     Detector.confidence_threshold := Detector.confidence_threshold self;
     Detector.device := Detector.device self;
     Detector.model := m;
     Detector.model_loaded := Detector.model_loaded self;
     Detector.class_names := Detector.class_names self;
     Detector.colors := Detector.colors self;
     Detector.total_detections := Detector.total_detections self;
     Detector.frame_count := Detector.frame_count self;
     Detector.error_count := Detector.error_count self |}.

Definition set_model_loaded (b : bool)
    (self : Detector.WeaponDetector) : Detector.WeaponDetector :=
  {| Detector.model_path := Detector.model_path self;
     Detector.confidence_threshold := Detector.confidence_threshold self;
     Detector.device := Detector.device self;
     Detector.model := Detector.model self;
     Detector.model_loaded := b;
     Detector.class_names := Detector.class_names self;
     Detector.colors := Detector.colors self;
     Detector.total_detections := Detector.total_detections self;
     Detector.frame_count := Detector.frame_count self;
     Detector.error_count := Detector.error_count self |}.

Definition set_class_names (l : list string)
    (self : Detector.WeaponDetector) : Detector.WeaponDetector :=
  {| Detector.model_path := Detector.model_path self;
     Detector.confidence_threshold := Detector.confidence_threshold self;
     Detector.device := Detector.device self;
     Detector.model := Detector.model self;
     Detector.model_loaded := Detector.model_loaded self;
     Detector.class_names := l;
     Detector.colors := Detector.colors self;
     Detector.total_detections := Detector.total_detections self;
     Detector.frame_count := Detector.frame_count self;
     Detector.error_count := Detector.error_count self |}.

Definition set_counters (total frames errors : nat)
    (self : Detector.WeaponDetector) : Detector.WeaponDetector :=
  {| Detector.model_path := Detector.model_path self;
     Detector.confidence_threshold := Detector.confidence_threshold self;
     Detector.device := Detector.device self;
     Detector.model := Detector.model self;
     Detector.model_loaded := Detector.model_loaded self;
     Detector.class_names := Detector.class_names self;
     Detector.colors := Detector.colors self;
     Detector.total_detections := total;
     Detector.frame_count := frames;
     Detector.error_count := errors |}.

(** [WeaponDetector.load_model], lines 63-98. *)
Definition load_model (env : load_env) : M (S:=Detector.WeaponDetector) unit :=
  try_except
    (ex <- lift (model_exists env) ;;
     if ex : bool
     then
       logger INFO ;;;
       try_except
         (m <- lift (yolo env) ;;
          modify (set_model (Some m)) ;;;
          lift (to_device env) ;;;
          logger INFO ;;;
          modify (set_model_loaded true) ;;;
          match Detector.names m with
          | Some _ =>
              l <- lift (names_values env) ;;
              modify (set_class_names l) ;;;
              logger INFO
          | None => ret tt
          end)
         (fun e =>
            logger ERROR ;;;
            modify (set_model None) ;;;
            modify (set_model_loaded false) ;;;
            logger ERROR)
     else
       logger ERROR ;;;
       logger ERROR ;;;
       modify (set_model None) ;;;
       modify (set_model_loaded false))
    (fun e =>
       logger ERROR ;;;
       modify (set_model None) ;;;
       modify (set_model_loaded false) ;;;
       logger ERROR).

(** [not 0.0 <= c <= 1.0], line 32. *)
Definition out_of_unit_range (c : Q) : bool :=
  negb (Qle_bool 0 c && Qle_bool c 1).

(** The fields before [__init__] has set them. *)
Definition blank_detector : Detector.WeaponDetector :=
  {| Detector.model_path := ""; Detector.confidence_threshold := 0;
     Detector.device := ""; Detector.model := None;
     Detector.model_loaded := false; Detector.class_names := [];
     Detector.colors := ∅; Detector.total_detections := 0;
     Detector.frame_count := 0; Detector.error_count := 0 |}.

(** [WeaponDetector.__init__], lines 31-61. *)
Definition detector_init (path : string) (confidence_threshold0 : Q)
    (env : load_env) : M (S:=Detector.WeaponDetector) unit :=
  confidence_threshold1 <-
    (if out_of_unit_range confidence_threshold0
     then logger WARNING ;;; ret (1 # 2)%Q
     else ret confidence_threshold0) ;;
  modify (fun self =>
    {| Detector.model_path := path;
       Detector.confidence_threshold := confidence_threshold1;
       Detector.device := "cpu";
       Detector.model := Detector.model self;
       Detector.model_loaded := Detector.model_loaded self;
       Detector.class_names := Detector.class_names self;
       Detector.colors := Detector.colors self;
       Detector.total_detections := Detector.total_detections self;
       Detector.frame_count := Detector.frame_count self;
       Detector.error_count := Detector.error_count self |}) ;;;
  logger INFO ;;;
  modify (set_model None) ;;;
  modify (set_model_loaded false) ;;;
  load_model env ;;;
  modify (set_class_names ["pistol"; "knife"]) ;;;
  modify (fun self =>
    {| Detector.model_path := Detector.model_path self;
       Detector.confidence_threshold := Detector.confidence_threshold self;
       Detector.device := Detector.device self;
       Detector.model := Detector.model self;
       Detector.model_loaded := Detector.model_loaded self;
       Detector.class_names := Detector.class_names self;
       Detector.colors := Detector.default_colors;
       Detector.total_detections := Detector.total_detections self;
       Detector.frame_count := Detector.frame_count self;
       Detector.error_count := Detector.error_count self |}) ;;;
  modify (set_counters 0 0 0).

(** [WeaponDetector(path, confidence_threshold)]. *)
Definition new_detector (path : string) (confidence_threshold0 : Q)
    (env : load_env) : outcome Detector.WeaponDetector :=
  match detector_init path confidence_threshold0 env blank_detector with
  | (Ret _, self, _) => Ret self
  | (Raise e, _, _) => Raise e
  end.

(** The dict [get_stats] returns. *)
Record stats : Type := {
  stats_total_detections : nat;
  stats_frames_processed : nat;
  stats_device : string
}.

(** [get_stats], lines 242-248. *)
Definition get_stats : M (S:=Detector.WeaponDetector) stats :=
  self <- get ;;
  ret {| stats_total_detections := Detector.total_detections self;
         stats_frames_processed := Detector.frame_count self;
         stats_device := Detector.device self |}.

(** [reset_stats], lines 250-253. *)
Definition reset_stats : M (S:=Detector.WeaponDetector) unit :=
  modify (fun self => set_counters 0 0 (Detector.error_count self) self).

(** A block whose every run takes the state [s] to a state related to it by
    [R]. *)
Definition within {S A : Type} (R : S -> S -> Prop) (m : M (S:=S) A) : Prop :=
  forall s, R s (state_of (m s)).

(** What the [try] block of [detect] may do to the object and the locals:
    append as many names as scores, count each appended name once, and
    leave the other counters and fields alone. *)
Definition grows (st st' : Detector.WeaponDetector * Detector.locals) : Prop :=
  exists (ds : list string) (cs : list Q),
    Detector.detections st'.2 = Detector.detections st.2 ++ ds
    /\ Detector.confidence_scores st'.2 = Detector.confidence_scores st.2 ++ cs
    /\ length ds = length cs
    /\ Detector.total_detections st'.1
       = (Detector.total_detections st.1 + length ds)%nat
    /\ Detector.frame_count st'.1 = Detector.frame_count st.1
    /\ Detector.error_count st'.1 = Detector.error_count st.1
    /\ Detector.model st'.1 = Detector.model st.1
    /\ Detector.model_loaded st'.1 = Detector.model_loaded st.1
    /\ Detector.class_names st'.1 = Detector.class_names st.1.

(** Either nothing was detected so far and the locals are untouched, or
    [has_detection] is set. *)
Definition quiet_or_flagged (l0 : Detector.locals)
    (st : Detector.WeaponDetector * Detector.locals) : Prop :=
  Detector.has_detection st.2 = true \/ st.2 = l0.

(** The model [load_model] ends up with: the one [YOLO(...)] returned, when
    the file exists, the model could be moved to the device and (if it has
    [names]) its names could be listed; otherwise none. *)
Definition model_comes_up (env : load_env) : option Detector.yolo_model :=
  match model_exists env, yolo env, to_device env with
  | Ret true, Ret m, Ret _ =>
      match Detector.names m, names_values env with
      | Some _, Raise _ => None
      | _, _ => Some m
      end
  | _, _, _ => None
  end.

(** A machine without the weights file. *)
Definition no_weights : load_env :=
  {| model_exists := Ret false;
     yolo := Raise (Exception "FileNotFoundError");
     to_device := Ret ();
     names_values := Ret [] |}.

(** A machine with a model that knows three classes. *)
Definition three_class_weights : load_env :=
  {| model_exists := Ret true;
     yolo := Ret {| Detector.names :=
                      Some (<[0%Z := "gun"]> (<[1%Z := "blade"]>
                              (<[2%Z := "rifle"]> ∅))) |};
     to_device := Ret ();
     names_values := Ret ["gun"; "blade"; "rifle"] |}.

(** [detect] gets as far as the model: the frame passes the checks of lines
    114-124 and a model is loaded (line 127). *)
Definition reaches_model (frame : py_frame) (self : Detector.WeaponDetector) : bool :=
  match frame with
  | PyArray a =>
      negb (size a =? 0)%nat
      && Detector.model_loaded self
      && bool_decide (is_Some (Detector.model self))
  | _ => false
  end.

(** The [try] block of [detect] (lines 138-232) is entered and raises: the
    call gets as far as the model, and the body of the block, run on the
    object with the frame counted and on fresh locals, ends in an
    exception. *)
Definition try_block_fails (cv : Detector.cv2_api) (frame : py_frame)
    (env : Detector.detect_env) (self : Detector.WeaponDetector) : bool :=
  match frame with
  | PyArray a =>
      reaches_model frame self
      && match result_of (Detector.annotate cv a env
                            (Detector.add_frame_count self,
                             Detector.fresh_locals a)) with
         | Raise _ => true
         | Ret _ => false
         end
  | _ => false
  end.

(** The model looks at the frame and finds nothing. *)
Definition nothing_found : Detector.detect_env :=
  {| Detector.inference := Ret [{| Detector.boxes := Ret None |}] |}.

(** A caller that runs [detect] on one frame after the other; each frame
    comes with what the model answers for it. *)
Fixpoint detect_all (cv : Detector.cv2_api)
    (inputs : list (py_frame * Detector.detect_env))
  : M (S:=Detector.WeaponDetector) (list Detector.detection) :=
  match inputs with
  | [] => ret []
  | (frame, env) :: rest =>
      r <- Detector.detect cv frame env ;;
      rs <- detect_all cv rest ;;
      ret (r :: rs)
  end.

(** The number of names in a list of [detect] results. *)
Fixpoint names_reported (rs : list Detector.detection) : nat :=
  match rs with
  | [] => 0
  | (_, d, _, _) :: rs' => length d + names_reported rs'
  end.

(** The number of frames of a run that reach the model. *)
Fixpoint frames_reaching_model (self : Detector.WeaponDetector)
    (inputs : list (py_frame * Detector.detect_env)) : nat :=
  match inputs with
  | [] => 0
  | (frame, _) :: rest =>
      (if reaches_model frame self then 1 else 0)
      + frames_reaching_model self rest
  end.

(** ** terminal_detection.py *)

Module Terminal.

(** What [print] writes; the text of a line is kept only where it carries
    data. *)
Inductive message : Type :=
| Text (s : string)
| DetectedAt (stamp : string)                   (* line 86 *)
| DetectionLine (name : string) (score : Q)     (* line 88 *)
| ScreenshotSaved (path : option string)        (* line 96 *)
| FpsLine (fps : Q) (frames detections : nat)   (* line 102 *)
| FrameSaved (filename : string)                (* line 117 *)
| TotalFrames (n : nat)                         (* line 132 *)
| TotalDetections (n : nat)                     (* line 133 *)
| TotalAlerts (n : nat)                         (* line 134 *)
| Runtime (elapsed : Q)                         (* line 135 *)
| AverageFps (fps : Q).                         (* line 136 *)

(** The fields of a [TerminalDetection] object. *)
Record TerminalDetection : Type := {
  source : Z + string;            (* a camera index or an RTSP URL *)
  detector : Detector.WeaponDetector;
  alert_system : AlertSystem;
  running : bool
}.

(** The object, the locals of [start], and what [start] has done so far to
    the capture, the windows, the disk and the terminal. *)
Record machine : Type := {
  self : TerminalDetection;
  frame_count : nat;
  detection_count : nat;
  start_time : Q;
  releases : nat;                 (* calls of cap.release() *)
  windows_closed : nat;           (* calls of cv2.destroyAllWindows() *)
  frames_shown : list ndarray;    (* frames passed to cv2.imshow *)
  files_saved : list string;      (* names passed to cv2.imwrite, line 116 *)
  stdout : list message
}.

Definition set_source (x : Z + string) (t : TerminalDetection) : TerminalDetection :=
  {| source := x;
     detector := detector t;
     alert_system := alert_system t;
     running := running t |}.

Definition set_detector (x : Detector.WeaponDetector) (t : TerminalDetection) : TerminalDetection :=
  {| source := source t;
     detector := x;
     alert_system := alert_system t;
     running := running t |}.

Definition set_alert_system (x : AlertSystem) (t : TerminalDetection) : TerminalDetection :=
  {| source := source t;
     detector := detector t;
     alert_system := x;
     running := running t |}.

Definition set_running (x : bool) (t : TerminalDetection) : TerminalDetection :=
  {| source := source t;
     detector := detector t;
     alert_system := alert_system t;
     running := x |}.

Definition set_self (x : TerminalDetection) (st : machine) : machine :=
  {| self := x;
     frame_count := frame_count st;
     detection_count := detection_count st;
     start_time := start_time st;
     releases := releases st;
     windows_closed := windows_closed st;
     frames_shown := frames_shown st;
     files_saved := files_saved st;
     stdout := stdout st |}.

Definition set_frame_count (x : nat) (st : machine) : machine :=
  {| self := self st;
     frame_count := x;
     detection_count := detection_count st;
     start_time := start_time st;
     releases := releases st;
     windows_closed := windows_closed st;
     frames_shown := frames_shown st;
     files_saved := files_saved st;
     stdout := stdout st |}.

Definition set_detection_count (x : nat) (st : machine) : machine :=
  {| self := self st;
     frame_count := frame_count st;
     detection_count := x;
     start_time := start_time st;
     releases := releases st;
     windows_closed := windows_closed st;
     frames_shown := frames_shown st;
     files_saved := files_saved st;
     stdout := stdout st |}.

Definition set_start_time (x : Q) (st : machine) : machine :=
  {| self := self st;
     frame_count := frame_count st;
     detection_count := detection_count st;
     start_time := x;
     releases := releases st;
     windows_closed := windows_closed st;
     frames_shown := frames_shown st;
     files_saved := files_saved st;
     stdout := stdout st |}.

Definition set_releases (x : nat) (st : machine) : machine :=
  {| self := self st;
     frame_count := frame_count st;
     detection_count := detection_count st;
     start_time := start_time st;
     releases := x;
     windows_closed := windows_closed st;
     frames_shown := frames_shown st;
     files_saved := files_saved st;
     stdout := stdout st |}.

Definition set_windows_closed (x : nat) (st : machine) : machine :=
  {| self := self st;
     frame_count := frame_count st;
     detection_count := detection_count st;
     start_time := start_time st;
     releases := releases st;
     windows_closed := x;
     frames_shown := frames_shown st;
     files_saved := files_saved st;
     stdout := stdout st |}.

Definition set_frames_shown (x : list ndarray) (st : machine) : machine :=
  {| self := self st;
     frame_count := frame_count st;
     detection_count := detection_count st;
     start_time := start_time st;
     releases := releases st;
     windows_closed := windows_closed st;
     frames_shown := x;
     files_saved := files_saved st;
     stdout := stdout st |}.

Definition set_files_saved (x : list string) (st : machine) : machine :=
  {| self := self st;
     frame_count := frame_count st;
     detection_count := detection_count st;
     start_time := start_time st;
     releases := releases st;
     windows_closed := windows_closed st;
     frames_shown := frames_shown st;
     files_saved := x;
     stdout := stdout st |}.

Definition set_stdout (x : list message) (st : machine) : machine :=
  {| self := self st;
     frame_count := frame_count st;
     detection_count := detection_count st;
     start_time := start_time st;
     releases := releases st;
     windows_closed := windows_closed st;
     frames_shown := frames_shown st;
     files_saved := files_saved st;
     stdout := x |}.

(** [print(m)] *)
Definition print (m : message) : M (S:=machine) unit :=
  modify (fun st => set_stdout (stdout st ++ [m]) st).

(** A method of the detector, called on [self.detector]. *)
Definition on_detector {A} (m : M (S:=Detector.WeaponDetector) A)
  : M (S:=machine) A :=
  fun st =>
    match m (detector (self st)) with
    | (r, d, evs) => (r, set_self (set_detector d (self st)) st, evs)
    end.

(** A method of the alert system, called on [self.alert_system]. *)
Definition on_alert_system {A} (m : M (S:=AlertSystem) A) : M (S:=machine) A :=
  fun st =>
    match m (alert_system (self st)) with
    | (r, a, evs) => (r, set_self (set_alert_system a (self st)) st, evs)
    end.

(** [a / b] on floats: dividing by zero raises. *)
Definition py_truediv (a b : Q) : outcome Q :=
  if Qeq_bool b 0 then Raise (Exception "ZeroDivisionError") else Ret (a / b)%Q.

Definition is_keyboard_interrupt (e : exn) : bool :=
  match e with Exception msg => String.eqb msg "KeyboardInterrupt" end.

(** [try: body / except KeyboardInterrupt: handler / finally: final].  The
    [finally] block runs on every path; an exception it raises replaces the
    one under way. *)
Definition try_except_finally {S : Type} (body handler final : M (S:=S) unit)
  : M (S:=S) unit :=
  fun s =>
    match body s with
    | (o1, s1, evs1) =>
        match (match o1 with
               | Raise e =>
                   if is_keyboard_interrupt e then handler s1
                   else (Raise e, s1, [])
               | Ret a => (Ret a, s1, [])
               end) with
        | (o2, s2, evs2) =>
            match final s2 with
            | (Ret _, s3, evs3) => (o2, s3, evs1 ++ evs2 ++ evs3)
            | (Raise e, s3, evs3) => (Raise e, s3, evs1 ++ evs2 ++ evs3)
            end
        end
    end.

(** What the world answers during one pass of the loop. *)
Record iteration : Type := {
  read : outcome (bool * py_frame);     (* cap.read(), line 69 *)
  model_answer : Detector.detect_env;   (* the model, inside detect *)
  stamp_print : string;                 (* strftime("%H:%M:%S"), line 85 *)
  alert_world : trigger_env;            (* inside trigger_alert *)
  fps_clock : Q;                        (* time.time(), line 100 *)
  imshow : outcome unit;                (* cv2.imshow, line 105 *)
  waitKey : outcome Z;                  (* cv2.waitKey(1), line 108 *)
  save_stamp : string;                  (* strftime, line 114 *)
  save_imwrite : outcome bool           (* cv2.imwrite, line 116 *)
}.

(** What the world answers during [start].  The source delivers the frames
    of [iterations] and then ends: a [cap.read()] after the last one
    returns [(False, None)].  An answer that raises [KeyboardInterrupt] is
    a Ctrl+C that arrives during that call of the loop.  Opening the
    capture, [cap.release()] and [cv2.destroyAllWindows()] are taken to
    return. *)
Record world : Type := {
  is_opened : bool;                     (* cap.isOpened(), line 52 *)
  start_clock : Q;                      (* time.time(), line 65 *)
  iterations : list iteration;
  end_clock : Q                         (* time.time(), line 128 *)
}.

(** [ord('q')] and [ord('s')]. *)
Definition ord_q : Z := 113.
Definition ord_s : Z := 115.

(** Lines 81-96: what is done with the result of [detect]. *)
Definition handle_result (it : iteration) (d : Detector.detection)
  : M (S:=machine) unit :=
  let '(annotated_frame, detections, confidence_scores, has_detection) := d in
  if has_detection && negb (is_empty detections)
  then
    modify (fun st => set_detection_count (detection_count st + 1) st) ;;;
    let timestamp := stamp_print it in
    print (DetectedAt timestamp) ;;;
    Detector.for_each (zip detections confidence_scores)
      (fun dc => print (DetectionLine (upper dc.1) dc.2)) ;;;
    alert_info <- on_alert_system
                    (trigger_alert (PyArray annotated_frame) detections
                                   confidence_scores (alert_world it)) ;;
    match alert_info with
    | Some info => print (ScreenshotSaved (screenshot info))
    | None => ret tt
    end
  else ret tt.

(** Lines 69-117: one pass of the loop.  The answer is [false] when the
    pass ends in [break]. *)
Definition pass (cv : Detector.cv2_api) (it : iteration) : M (S:=machine) bool :=
  r <- lift (read it) ;;
  let '(ret_, frame) := r in
  if negb ret_
  then print (Text "ERROR: Cannot read frame") ;;; ret false
  else
    modify (fun st => set_frame_count (frame_count st + 1) st) ;;;
    d <- on_detector (Detector.detect cv frame (model_answer it)) ;;
    handle_result it d ;;;
    st <- get ;;
    (if (frame_count st mod 30 =? 0)%nat
     then
       emit (EvTime (fps_clock it)) ;;;
       let elapsed := (fps_clock it - start_time st)%Q in
       fps <- lift (py_truediv (inject_Z (Z.of_nat (frame_count st))) elapsed) ;;
       print (FpsLine fps (frame_count st) (detection_count st))
     else ret tt) ;;;
    lift (imshow it) ;;;
    modify (fun st => set_frames_shown (frames_shown st ++ [d.1.1.1]) st) ;;;
    k <- lift (waitKey it) ;;
    let key := Z.land k 255 in
    if (key =? ord_q)%Z
    then print (Text "Stopping detection...") ;;; ret false
    else if (key =? ord_s)%Z
    then
      let timestamp := save_stamp it in
      let filename :=
        String.append "manual_save_" (String.append timestamp ".jpg") in
      lift (save_imwrite it) ;;;
      modify (fun st => set_files_saved (files_saved st ++ [filename]) st) ;;;
      print (FrameSaved filename) ;;;
      ret true
    else ret true.

(** Lines 68-117: [while self.running: ...]. *)
Fixpoint loop (cv : Detector.cv2_api) (its : list iteration)
  : M (S:=machine) unit :=
  st <- get ;;
  if negb (running (self st)) then ret tt
  else
    match its with
    | [] => print (Text "ERROR: Cannot read frame")
    | it :: its' =>
        go_on <- pass cv it ;;
        if go_on : bool then loop cv its' else ret tt
    end.

(** Lines 122-137: the [finally] block. *)
Definition summary (w : world) : M (S:=machine) unit :=
  modify (fun st => set_releases (releases st + 1) st) ;;;
  modify (fun st => set_windows_closed (windows_closed st + 1) st) ;;;
  emit (EvTime (end_clock w)) ;;;
  st <- get ;;
  let elapsed := (end_clock w - start_time st)%Q in
  print (Text "============================================================") ;;;
  print (Text "Detection Summary") ;;;
  print (Text "============================================================") ;;;
  print (TotalFrames (frame_count st)) ;;;
  print (TotalDetections (detection_count st)) ;;;
  n <- on_alert_system get_alert_count ;;
  print (TotalAlerts n) ;;;
  print (Runtime elapsed) ;;;
  fps <- lift (py_truediv (inject_Z (Z.of_nat (frame_count st))) elapsed) ;;
  print (AverageFps fps) ;;;
  print (Text "============================================================").

(** [TerminalDetection.start], lines 40-137. *)
Definition start (cv : Detector.cv2_api) (w : world) : M (S:=machine) unit :=
  st <- get ;;
  match source (self st) with
  | inl i => print (Text "Opening webcam")
  | inr url => print (Text "Opening RTSP stream")
  end ;;;
  if negb (is_opened w)
  then print (Text "ERROR: Cannot open video source")
  else
    print (Text "Video source opened successfully!") ;;;
    print (Text "Controls:") ;;;
    print (Text "  - Press 'q' to quit") ;;;
    print (Text "  - Press 's' to save current frame") ;;;
    print (Text "  - Detection window will show live feed") ;;;
    modify (fun st => set_self (set_running true (self st)) st) ;;;
    modify (set_frame_count 0) ;;;
    modify (set_detection_count 0) ;;;
    emit (EvTime (start_clock w)) ;;;
    modify (set_start_time (start_clock w)) ;;;
    try_except_finally
      (loop cv (iterations w))
      (print (Text "Detection interrupted by user (Ctrl+C)"))
      (summary w).

(** [TerminalDetection(source, confidence)], lines 27-38, on a machine where
    nothing has been captured, shown, saved or printed yet. *)
Definition new_terminal (src : Z + string) (confidence : Q)
    (lenv : load_env) (ienv : init_env) : outcome machine :=
  match new_detector "../models/weights/best.pt" confidence lenv with
  | Raise e => Raise e
  | Ret d =>
      match new "alerts" "assets/alert.wav" (PyFloat default_cooldown) ienv with
      | Raise e => Raise e
      | Ret a =>
          Ret {| self := {| source := src; detector := d; alert_system := a;
                            running := false |};
                 frame_count := 0; detection_count := 0; start_time := 0;
                 releases := 0; windows_closed := 0;
                 frames_shown := []; files_saved := [];
                 stdout :=
                   [Text "============================================================";
                    Text "SentinelShield AI - Weapon Detection System (Terminal Mode)";
                    Text "============================================================";
                    Text "Source";
                    Text "Confidence Threshold";
                    Text (upper (Detector.device d));
                    Text "============================================================"] |}
      end
  end.

End Terminal.

(** ** Vocabulary for the terminal loop *)

(** The state in which [start] enters its [try] block: lines 56-65 done. *)
Definition armed (w : Terminal.world) (st : Terminal.machine) : Terminal.machine :=
  let st1 :=
    Terminal.set_stdout
      (Terminal.stdout st ++
       [Terminal.Text match Terminal.source (Terminal.self st) with
                      | inl _ => "Opening webcam"
                      | inr _ => "Opening RTSP stream"
                      end;
        Terminal.Text "Video source opened successfully!";
        Terminal.Text "Controls:";
        Terminal.Text "  - Press 'q' to quit";
        Terminal.Text "  - Press 's' to save current frame";
        Terminal.Text "  - Detection window will show live feed"]) st in
  Terminal.set_start_time (Terminal.start_clock w)
    (Terminal.set_detection_count 0
       (Terminal.set_frame_count 0
          (Terminal.set_self
             (Terminal.set_running true (Terminal.self st1)) st1))).

(** What [start] lets out of its [try] statement, given how the loop ended
    and whether the clock moved between lines 65 and 128. *)
Definition start_outcome (loop_result : outcome unit) (elapsed : Q) : outcome unit :=
  if Qeq_bool elapsed 0 then Raise (Exception "ZeroDivisionError")
  else
    match loop_result with
    | Ret _ => Ret ()
    | Raise e => if Terminal.is_keyboard_interrupt e then Ret () else Raise e
    end.

(** What no pass of the loop writes: the capture and the windows are left
    alone, and so are [start_time], [running] and [source]. *)
Definition loop_frame (st : Terminal.machine) : nat * nat * Q * bool * (Z + string) :=
  (Terminal.releases st, Terminal.windows_closed st, Terminal.start_time st,
   Terminal.running (Terminal.self st), Terminal.source (Terminal.self st)).

(** A machine on which [start] has not run yet, with the loaded detector
    and a fresh alert system. *)
Definition idle_machine : Terminal.machine :=
  {| Terminal.self :=
       {| Terminal.source := inl 0%Z;
          Terminal.detector := Detector.loaded_detector;
          Terminal.alert_system := fresh_system;
          Terminal.running := false |};
     Terminal.frame_count := 0; Terminal.detection_count := 0;
     Terminal.start_time := 0; Terminal.releases := 0;
     Terminal.windows_closed := 0; Terminal.frames_shown := [];
     Terminal.files_saved := []; Terminal.stdout := [] |}.

(** A source that opens and ends at once, on a clock that reads [t0] when
    the loop starts and [t1] when the summary is printed. *)
Definition empty_stream (t0 t1 : Q) : Terminal.world :=
  {| Terminal.is_opened := true; Terminal.start_clock := t0;
     Terminal.iterations := []; Terminal.end_clock := t1 |}.

(** The condition of line 81: [has_detection and detections]. *)
Definition reports_detection (d : Detector.detection) : bool :=
  d.2 && negb (is_empty d.1.1.2).

(** What a pass of the loop shows of the machine to the counting
    arguments: the two counters and the two sub-objects. *)
Definition pass_view (st : Terminal.machine)
  : nat * nat * Detector.WeaponDetector * AlertSystem :=
  (Terminal.frame_count st, Terminal.detection_count st,
   Terminal.detector (Terminal.self st),
   Terminal.alert_system (Terminal.self st)).

(** How the counters and the log may have moved between two states of a
    run: counters only go up, a detection is counted at most once per frame
    counted, and the log grows by at most one record per detection
    counted. *)
Definition counted (st st' : Terminal.machine) : Prop :=
  (Terminal.frame_count st <= Terminal.frame_count st')%nat
  /\ (Terminal.detection_count st <= Terminal.detection_count st')%nat
  /\ (Terminal.detection_count st' + Terminal.frame_count st
        <= Terminal.detection_count st + Terminal.frame_count st')%nat
  /\ (length (alert_log (Terminal.alert_system (Terminal.self st')))
        + Terminal.detection_count st
        <= length (alert_log (Terminal.alert_system (Terminal.self st)))
           + Terminal.detection_count st')%nat.

(** How many passes the [while] loop of lines 68-117 takes: none when
    [running] is not set; and after a pass, another one only when that pass
    ended without [break] and without an exception.  The pass in which the
    source has ended ([its] is used up) is the last. *)
Fixpoint passes_taken (cv : Detector.cv2_api) (its : list Terminal.iteration)
    (st : Terminal.machine) : nat :=
  match its with
  | [] => if negb (Terminal.running (Terminal.self st)) then 0 else 1
  | it :: its' =>
      if negb (Terminal.running (Terminal.self st)) then 0
      else
        match Terminal.pass cv it st with
        | (Ret true, st', _) => S (passes_taken cv its' st')
        | _ => 1
        end
  end.

(** One pass in which the camera delivers a frame, the model finds a
    pistol, no key is pressed and the clock reads [t]. *)
Definition pistol_pass (t : Q) : Terminal.iteration :=
  {| Terminal.read := Ret (true, PyArray pixel);
     Terminal.model_answer := Detector.one_pistol;
     Terminal.stamp_print := "00:00:00";
     Terminal.alert_world := world_at t t (Ret true);
     Terminal.fps_clock := t;
     Terminal.imshow := Ret ();
     Terminal.waitKey := Ret (-1)%Z;
     Terminal.save_stamp := "20240101_000000";
     Terminal.save_imwrite := Ret true |}.

(** A camera that delivers three frames with a pistol, at 100 s, 102 s and
    106 s, and then ends. *)
Definition three_pistol_frames : Terminal.world :=
  {| Terminal.is_opened := true; Terminal.start_clock := 99;
     Terminal.iterations := [pistol_pass 100; pistol_pass 102; pistol_pass 106];
     Terminal.end_clock := 107 |}.
(** ** Basic facts *)

Lemma py_slice_from_neg {A} (n : nat) (l : list A) :
  (0 < n)%nat -> py_slice_from (- Z.of_nat n) l = keep_last n l.
Proof.
  intros Hn. unfold py_slice_from, keep_last.
  destruct (Z.ltb_spec (- Z.of_nat n) 0) as [_|H]; [|lia].
  f_equal. lia.
Qed.

Lemma length_keep_last {A} (n : nat) (l : list A) :
  length (keep_last n l) = min n (length l).
Proof. unfold keep_last. rewrite length_drop. lia. Qed.

Lemma keep_last_all {A} (n : nat) (l : list A) :
  (length l <= n)%nat -> keep_last n l = l.
Proof.
  intros H. unfold keep_last. replace (length l - n)%nat with 0%nat by lia.
  reflexivity.
Qed.

Lemma keep_last_suffix {A} (n : nat) (l : list A) : keep_last n l `suffix_of` l.
Proof. apply suffix_drop. Qed.

Lemma keep_last_app {A} (n : nat) (l k : list A) :
  (length k <= n)%nat -> keep_last n (l ++ k) = keep_last (n - length k) l ++ k.
Proof.
  intros H. unfold keep_last. rewrite length_app, drop_app.
  replace (length l + length k - n - length l)%nat with 0%nat by lia.
  simpl. f_equal. f_equal. lia.
Qed.

Lemma keep_last_keep_last {A} (n m : nat) (l : list A) :
  (n <= m)%nat -> keep_last n (keep_last m l) = keep_last n l.
Proof.
  intros H. unfold keep_last. rewrite length_drop, drop_drop. f_equal. lia.
Qed.

Lemma clock_readings_app (e1 e2 : list event) :
  clock_readings (e1 ++ e2) = clock_readings e1 ++ clock_readings e2.
Proof.
  induction e1 as [|[] e1 IH]; simpl; rewrite ?IH; reflexivity.
Qed.

Lemma nondecreasing_app (l k : list Q) :
  nondecreasing (l ++ k) -> nondecreasing l /\ nondecreasing k.
Proof.
  induction l as [|t l IH]; simpl; [tauto|].
  intros [Hall Hnd]. apply Forall_app in Hall as [Hl _].
  destruct (IH Hnd). tauto.
Qed.

Lemma Qle_bool_false (x y : Q) : Qle_bool x y = false <-> (y < x)%Q.
Proof.
  split; intros H.
  - apply Qnot_le_lt. intros Hle. apply Qle_bool_iff in Hle. congruence.
  - destruct (Qle_bool x y) eqn:E; [|reflexivity].
    apply Qle_bool_iff in E. apply Qlt_not_le in H. contradiction.
Qed.

(** ** Comparisons of floats *)

Lemma float_le_Finite (a b : Q) : float_le (Finite a) (Finite b) <-> (a <= b)%Q.
Proof. unfold float_le. cbn. apply Qle_bool_iff. Qed.

Lemma float_lt_Finite (a b : Q) : float_lt (Finite a) (Finite b) <-> (a < b)%Q.
Proof.
  unfold float_lt, float_ltb, Qltb. rewrite negb_true_iff. apply Qle_bool_false.
Qed.

Lemma not_float_le (x y : pyfloat) : ~ float_le x y <-> float_leb x y = false.
Proof. unfold float_le. destruct (float_leb x y); intuition congruence. Qed.

(** [x < y] rules out [y <= x]; the converse fails when one is NaN. *)
Lemma float_lt_not_le (x y : pyfloat) : float_lt x y -> ~ float_le y x.
Proof.
  unfold float_lt, float_le.
  destruct x as [a| | |], y as [b| | |]; cbn; try discriminate.
  unfold Qltb. intros H. apply negb_true_iff in H. congruence.
Qed.


Lemma gate_open_dec now s : {gate_open now s} + {~ gate_open now s}.
Proof.
  unfold gate_open, float_le.
  destruct (float_leb _ _); [left; reflexivity|right; discriminate].
Qed.

(** With a cooldown of NaN or of infinity the gate never opens. *)
Lemma gate_stays_shut now s :
  cooldown s = NaN \/ cooldown s = PosInf -> ~ gate_open now s.
Proof.
  unfold gate_open, float_le. intros [-> | ->]; cbn; discriminate.
Qed.

(** ** [trigger_alert] case by case *)

Ltac run :=
  unfold perform, trigger_alert, can_alert, update_last_alert_time,
    save_screenshot, start_sound, log_alert, get_recent_alerts, clear_alerts,
    get_alert_count, logger, with_lock, try_except, bind, ret, get, emit,
    lift, modify, result_of, state_of, events_of in *;
  cbn in *.

Lemma valid_input_inv frame dets :
  valid_input frame dets = true ->
  exists a d dets', frame = PyArray a /\ (size a =? 0)%nat = false /\ dets = d :: dets'.
Proof.
  unfold valid_input. destruct frame as [| |a]; try discriminate.
  destruct (size a =? 0)%nat eqn:E; try discriminate.
  destruct dets as [|d dets']; try discriminate.
  intros _. exists a, d, dets'. auto.
Qed.

(** Lines 96-106: an input that fails a check is turned away at once. *)
Lemma trigger_alert_invalid frame dets scores env s :
  valid_input frame dets = false ->
  exists lvl, trigger_alert frame dets scores env s = (Ret None, s, [EvLog lvl]).
Proof.
  intros H. destruct frame as [| |a]; run; eauto.
  destruct (size a =? 0)%nat; run; eauto.
  destruct dets; run; eauto. discriminate.
Qed.

(** Lines 75-81: the gate, as one equation. *)
Lemma can_alert_run now s :
  can_alert now s =
    (Ret (float_leb (cooldown s) (now - last_alert_time s)), s, [EvTime now]).
Proof.
  unfold can_alert, with_lock, bind, emit, get, ret. cbv beta iota.
  destruct (float_leb _ _); reflexivity.
Qed.

(** Line 109: the gate is closed. *)
Lemma trigger_alert_closed frame dets scores env s :
  valid_input frame dets = true ->
  ~ gate_open (t_gate env) s ->
  trigger_alert frame dets scores env s = (Ret None, s, [EvTime (t_gate env)]).
Proof.
  intros Hv Hg. apply valid_input_inv in Hv as (a & d & dets' & -> & Ha & ->).
  apply not_float_le in Hg. unfold trigger_alert. rewrite Ha. cbv iota.
  unfold is_empty, bind at 1. rewrite can_alert_run, Hg. reflexivity.
Qed.

(** The blocks of [trigger_alert], each as one equation. *)
Lemma update_last_alert_time_run now s :
  update_last_alert_time now s = (Ret (), set_last_alert_time now s, [EvTime now]).
Proof. reflexivity. Qed.

Lemma save_screenshot_run env s :
  save_screenshot env s =
    (Ret (screenshot_entry env s), s, events_of (save_screenshot env s))
  /\ clock_readings (events_of (save_screenshot env s)) = [].
Proof.
  unfold screenshot_entry. run. destruct (imwrite env) as [[|]|e]; cbn; auto.
Qed.

Lemma start_sound_run env s :
  start_sound env s = (Ret (), s, events_of (start_sound env s))
  /\ clock_readings (events_of (start_sound env s)) = [].
Proof.
  run. destruct (sound s); cbn; auto.
  destruct (thread_start env) as [[]|e]; cbn; auto.
Qed.

Lemma log_alert_run info s :
  log_alert info s =
    (Ret (), set_alert_log (keep_last 100 (alert_log s ++ [info])) s, []).
Proof.
  unfold log_alert, with_lock, bind, modify, get, ret.
  cbv beta iota. change (alert_log (set_alert_log ?l _)) with l.
  destruct (Nat.ltb_spec 100 (length (alert_log s ++ [info]))) as [Hn|Hn].
  - rewrite (py_slice_from_neg 100) by lia. reflexivity.
  - rewrite keep_last_all by assumption. reflexivity.
Qed.

Lemma get_recent_alerts_run count s :
  get_recent_alerts count s =
    (Ret (if is_empty (alert_log s) then []
          else py_slice_from (- count) (alert_log s)), s, []).
Proof. run. destruct (alert_log s); reflexivity. Qed.

(** Lines 112-156: the gate is open. *)
Lemma trigger_alert_open_eq frame dets scores env s :
  valid_input frame dets = true ->
  gate_open (t_gate env) s ->
  let info := {| timestamp := stamp_info env; detections := dets;
                 confidence_scores := scores;
                 screenshot := screenshot_entry env s |} in
  trigger_alert frame dets scores env s =
    (Ret (Some info),
     set_alert_log (keep_last 100 (alert_log s ++ [info]))
                   (set_last_alert_time (t_accept env) s),
     EvTime (t_gate env) :: EvTime (t_accept env) :: side_events env s).
Proof.
  intros Hv Hg info. apply valid_input_inv in Hv as (a & d & dets' & -> & Ha & ->).
  unfold gate_open, float_le in Hg.
  unfold trigger_alert. rewrite Ha. cbv iota. unfold is_empty.
  unfold bind at 1. rewrite can_alert_run, Hg. cbv iota beta. unfold negb.
  unfold try_except, bind. rewrite update_last_alert_time_run.
  unfold side_events.
  set (s1 := set_last_alert_time (t_accept env) s).
  destruct (save_screenshot_run env s1) as [E1 Hc1]. rewrite E1 at 1.
  destruct (start_sound_run env s1) as [E2 Hc2]. rewrite E2 at 1.
  rewrite log_alert_run. unfold ret.
  rewrite !app_nil_r. reflexivity.
Qed.

Lemma side_events_no_clock env s : clock_readings (side_events env s) = [].
Proof.
  unfold side_events. rewrite clock_readings_app.
  rewrite (proj2 (save_screenshot_run _ _)), (proj2 (start_sound_run _ _)).
  reflexivity.
Qed.

Lemma trigger_alert_open frame dets scores env s :
  valid_input frame dets = true ->
  gate_open (t_gate env) s ->
  let info := {| timestamp := stamp_info env; detections := dets;
                 confidence_scores := scores;
                 screenshot := screenshot_entry env s |} in
  exists evs,
    trigger_alert frame dets scores env s =
      (Ret (Some info),
       set_alert_log (keep_last 100 (alert_log s ++ [info]))
                     (set_last_alert_time (t_accept env) s),
       EvTime (t_gate env) :: EvTime (t_accept env) :: evs)
    /\ clock_readings evs = [].
Proof.
  intros Hv Hg info. exists (side_events env s). split.
  - apply trigger_alert_open_eq; assumption.
  - apply side_events_no_clock.
Qed.

(** Every [trigger_alert] call falls in one of the three cases. *)
Lemma trigger_alert_cases frame dets scores env s :
  (valid_input frame dets = false /\
   exists lvl, trigger_alert frame dets scores env s = (Ret None, s, [EvLog lvl]))
  \/
  (valid_input frame dets = true /\ ~ gate_open (t_gate env) s /\
   trigger_alert frame dets scores env s = (Ret None, s, [EvTime (t_gate env)]))
  \/
  (valid_input frame dets = true /\ gate_open (t_gate env) s /\
   exists info evs,
     screenshot info = screenshot_entry env s /\
     detections info = dets /\ confidence_scores info = scores /\
     trigger_alert frame dets scores env s =
       (Ret (Some info),
        set_alert_log (keep_last 100 (alert_log s ++ [info]))
                      (set_last_alert_time (t_accept env) s),
        EvTime (t_gate env) :: EvTime (t_accept env) :: evs)
     /\ clock_readings evs = []).
Proof.
  destruct (valid_input frame dets) eqn:Hv.
  - right.
    destruct (gate_open_dec (t_gate env) s) as [Hg|Hg].
    + right. split; [reflexivity|]. split; [exact Hg|].
      destruct (trigger_alert_open frame dets scores env s Hv Hg) as (evs & E & Hc).
      eexists _, evs. split; [|split; [|split; [|split; [exact E|exact Hc]]]];
        reflexivity.
    + left. split; [reflexivity|]. split; [exact Hg|].
      apply trigger_alert_closed; assumption.
  - left. split; [reflexivity|]. apply trigger_alert_invalid. exact Hv.
Qed.

(** ** Calls one after the other *)

(** No method lets an exception through. *)
Lemma perform_returns c s : exists r, result_of (perform c s) = Ret r.
Proof.
  destruct c as [now|frame dets scores env|count| |].
  - unfold perform, bind. rewrite can_alert_run. eexists. reflexivity.
  - unfold perform, bind.
    destruct (trigger_alert_cases frame dets scores env s)
      as [(_ & lvl & E)|[(_ & _ & E)|(_ & _ & info & evs & _ & _ & _ & E & _)]];
      rewrite E; eexists; reflexivity.
  - unfold perform, bind. rewrite get_recent_alerts_run. eexists. reflexivity.
  - eexists. reflexivity.
  - eexists. reflexivity.
Qed.

Lemma perform_all_cons c cs s :
  events_of (perform_all (c :: cs) s) =
    events_of (perform c s) ++ events_of (perform_all cs (state_of (perform c s)))
  /\ state_of (perform_all (c :: cs) s) =
       state_of (perform_all cs (state_of (perform c s))).
Proof.
  destruct (perform_returns c s) as [r Hr].
  cbn [perform_all]. unfold bind, ret, result_of, state_of, events_of in *.
  destruct (perform c s) as [[o s1] evs1]. cbn in Hr. subst o. cbn.
  destruct (perform_all cs s1) as [[[rs|e] s2] evs2]; cbn;
    rewrite ?app_nil_r; auto.
Qed.

(** Only [trigger_alert] writes [last_alert_time], and no method writes
    [cooldown]. *)
Lemma perform_cooldown c s : cooldown (state_of (perform c s)) = cooldown s.
Proof.
  destruct c as [now|frame dets scores env|count| |].
  - unfold perform, bind. rewrite can_alert_run. reflexivity.
  - unfold perform, bind.
    destruct (trigger_alert_cases frame dets scores env s)
      as [(_ & lvl & E)|[(_ & _ & E)|(_ & _ & info & evs & _ & _ & _ & E & _)]];
      rewrite E; reflexivity.
  - unfold perform, bind. rewrite get_recent_alerts_run. reflexivity.
  - reflexivity.
  - reflexivity.
Qed.

(** What one call contributes to the run: either it is not accepted and
    leaves the gate alone, or it is an accepted [trigger_alert]. *)
Lemma perform_gate c s :
  (accepted_record (result_of (perform c s)) = None /\
   last_alert_time (state_of (perform c s)) = last_alert_time s)
  \/
  (exists frame dets scores env info,
     c = TriggerAlert frame dets scores env /\
     valid_input frame dets = true /\
     gate_open (t_gate env) s /\
     accepted_record (result_of (perform c s)) = Some info /\
     last_alert_time (state_of (perform c s)) = t_accept env /\
     alert_log (state_of (perform c s)) = keep_last 100 (alert_log s ++ [info]) /\
     clock_readings (events_of (perform c s)) = [t_gate env; t_accept env]).
Proof.
  destruct c as [now|frame dets scores env|count| |].
  - left. unfold perform, bind. rewrite can_alert_run. auto.
  - unfold perform, bind.
    destruct (trigger_alert_cases frame dets scores env s)
      as [(_ & lvl & E)|[(_ & _ & E)|(Hv & Hg & info & evs & _ & _ & _ & E & Hc)]];
      rewrite E.
    + left. auto.
    + left. auto.
    + right. exists frame, dets, scores, env, info.
      repeat (split; [solve [auto]|]).
      cbn. rewrite app_nil_r, Hc. reflexivity.
  - left. unfold perform, bind. rewrite get_recent_alerts_run. auto.
  - left. auto.
  - left. auto.
Qed.

Lemma Forall_Qle_weaken (a b : Q) (l : list Q) :
  (a <= b)%Q -> Forall (fun u => b <= u)%Q l -> Forall (fun u => a <= u)%Q l.
Proof.
  intros Hab H. eapply Forall_impl; [exact H|].
  intros u Hu. simpl in Hu. eapply Qle_trans; eassumption.
Qed.

(** A clock that never runs backwards during the run does not run backwards
    during any of its calls. *)
Lemma steady_clock_within_calls cs : forall s,
  nondecreasing (clock_readings (events_of (perform_all cs s))) ->
  steady_within_calls cs s.
Proof.
  induction cs as [|c cs IH]; intros s Hnd; [exact I|].
  destruct (perform_all_cons c cs s) as [Hev _]. rewrite Hev in Hnd.
  rewrite clock_readings_app in Hnd.
  apply nondecreasing_app in Hnd as [Hnd1 Hnd2].
  split; [exact Hnd1|]. apply IH. exact Hnd2.
Qed.

(** The heart of the cooldown invariant, from any state with a finite
    cooldown that is not negative. *)
Lemma acceptance_times_spaced cs : forall s (c : Q),
  cooldown s = Finite c ->
  (0 <= c)%Q ->
  steady_within_calls cs s ->
  spaced c (acceptance_times cs s) /\
  Forall (fun u => last_alert_time s + c <= u)%Q (acceptance_times cs s).
Proof.
  induction cs as [|c0 cs IH]; intros s c Hcd Hc Hst.
  - simpl. auto.
  - destruct Hst as [Hnd1 Hst].
    specialize (IH (state_of (perform c0 s)) c).
    rewrite perform_cooldown in IH. specialize (IH Hcd Hc Hst).
    destruct IH as [IHs IHf].
    cbn [acceptance_times].
    destruct (perform_gate c0 s)
      as [[Hrec Hlast]|(frame & dets & scores & env & info & -> & Hv & Hg
                        & Hrec & Hlast & _ & Hclk)].
    + rewrite Hrec. rewrite Hlast in IHf. auto.
    + rewrite Hrec. rewrite Hlast in *. rewrite Hclk in Hnd1.
      simpl in Hnd1. destruct Hnd1 as [Hga _].
      apply Forall_cons in Hga as [Hga _].
      unfold gate_open in Hg. rewrite Hcd in Hg. apply float_le_Finite in Hg.
      assert (Hle : (last_alert_time s + c <= t_accept env)%Q) by lra.
      split.
      * simpl. split; assumption.
      * constructor; [exact Hle|].
        eapply Forall_Qle_weaken; [|exact IHf]. lra.
Qed.

(** With a cooldown of NaN or of infinity no call is ever accepted. *)
Lemma acceptance_times_shut cs : forall s,
  cooldown s = NaN \/ cooldown s = PosInf -> acceptance_times cs s = [].
Proof.
  induction cs as [|c0 cs IH]; intros s H; [reflexivity|].
  cbn [acceptance_times].
  destruct (perform_gate c0 s)
    as [[Hrec _]|(frame & dets & scores & env & info & _ & _ & Hg & _)].
  - rewrite Hrec. apply IH. rewrite perform_cooldown. exact H.
  - exfalso. exact (gate_stays_shut _ _ H Hg).
Qed.

Lemma spaced_lookup (c : Q) (ts : list Q) (i j : nat) (a b : Q) :
  spaced c ts -> (i < j)%nat -> ts !! i = Some a -> ts !! j = Some b ->
  (c <= b - a)%Q.
Proof.
  revert i j. induction ts as [|t ts IH]; intros i j Hs Hij Hi Hj.
  - discriminate.
  - destruct Hs as [Hall Hs]. destruct j as [|j]; [lia|].
    destruct i as [|i].
    + simpl in Hi, Hj. injection Hi as ->.
      rewrite Forall_forall in Hall.
      assert (Hb : (a + c <= b)%Q).
      { apply Hall. apply list_elem_of_lookup. eauto. }
      lra.
    + simpl in Hi, Hj. apply (IH i j); auto. lia.
Qed.

(** ** Construction *)

Lemma Qltb_true (x y : Q) : Qltb x y = true <-> (x < y)%Q.
Proof.
  unfold Qltb. rewrite negb_true_iff. apply Qle_bool_false.
Qed.

Lemma Qltb_false (x y : Q) : Qltb x y = false <-> (y <= x)%Q.
Proof.
  unfold Qltb. rewrite negb_false_iff. apply Qle_bool_iff.
Qed.

(** [__init__] catches whatever the folder and the sound system raise, and
    stores the number it was given unless the test of line 41 found it
    negative. *)
Lemma new_spec folder file (x : pyfloat) env :
  exists s,
    new folder file (PyFloat x) env = Ret s /\
    cooldown s = (if float_ltb x 0 then Finite default_cooldown else x) /\
    last_alert_time s = 0%Q /\
    alert_log s = [].
Proof.
  unfold new, init, logger, try_except, bind, ret, emit, lift, modify.
  destruct (float_ltb x 0); cbn;
    destruct (mkdir env) as [[]|e1]; cbn;
    destruct (pygame_available env); cbn;
    try (destruct (sound_file_exists env) as [[|]|e2]; cbn);
    try (destruct (mixer_init env) as [[]|e3]; cbn);
    try (destruct (mixer_sound env) as [[]|e4]; cbn);
    eexists; repeat split.
Qed.

(** Line 41 is outside every [try]: a value that is not a number makes
    [__init__] raise. *)
Lemma new_non_number folder file repr env :
  new folder file (PyNonNumber repr) env = Raise (Exception "TypeError").
Proof. reflexivity. Qed.

(** An object that was constructed starts with the gate at 0 and an empty
    log. *)
Lemma new_fresh folder file v env s :
  new folder file v env = Ret s -> last_alert_time s = 0%Q /\ alert_log s = [].
Proof.
  intros H. destruct v as [x|repr]; [|rewrite new_non_number in H; discriminate].
  destruct (new_spec folder file x env) as (s' & E & _ & Hl & Hlog).
  rewrite E in H. injection H as <-. auto.
Qed.

(** What an object that was constructed holds as its cooldown: 5 for a
    negative number, and else the number it was given, which is a finite
    number that is not negative, or infinity, or NaN. *)
Lemma new_cooldown folder file v env s :
  new folder file v env = Ret s ->
  exists x : pyfloat,
    v = PyFloat x /\
    cooldown s = (if float_ltb x 0 then Finite default_cooldown else x) /\
    ((exists c : Q, cooldown s = Finite c /\ (0 <= c)%Q /\ float_le x c)
     \/ (x = PosInf /\ cooldown s = PosInf)
     \/ (x = NaN /\ cooldown s = NaN)).
Proof.
  intros H. destruct v as [x|repr]; [|rewrite new_non_number in H; discriminate].
  destruct (new_spec folder file x env) as (s' & E & Hc & _).
  rewrite E in H. injection H as <-. exists x. split; [reflexivity|].
  split; [exact Hc|]. rewrite Hc.
  destruct x as [q| | |]; cbn.
  - left. destruct (Qltb q 0) eqn:Hlt.
    + apply Qltb_true in Hlt. exists default_cooldown. unfold default_cooldown.
      split; [reflexivity|]. split; [lra|]. apply float_le_Finite. lra.
    + apply Qltb_false in Hlt. exists q.
      split; [reflexivity|]. split; [lra|]. apply float_le_Finite. lra.
  - right. left. auto.
  - left. exists default_cooldown. unfold default_cooldown.
    split; [reflexivity|]. split; [lra|reflexivity].
  - right. right. auto.
Qed.


(** ** The cooldown gate *)

(** C1, as the code has it.  Take an [AlertSystem] constructed with any
    cooldown argument, and any sequence of calls on it such that during no
    single call the clock runs backwards (a clock that never runs backwards
    is one such).  Any two calls that returned an alert record have
    acceptance timestamps (the values they stored in [last_alert_time]) at
    least the stored cooldown apart, and at least the cooldown argument
    apart.  Moreover a [trigger_alert] call that returns a record has
    stored its own clock reading in [last_alert_time], and returned it only
    because its reading of the clock minus the previous [last_alert_time]
    was at least the cooldown; that part needs nothing of the clock. *)
Theorem accepted_alerts_are_a_cooldown_apart
    folder file (c0 : py_value) ienv (s : AlertSystem) (cs : list call) :
  new folder file c0 ienv = Ret s ->
  steady_within_calls cs s ->
  (forall (i j : nat) (a b : Q),
      (i < j)%nat ->
      acceptance_times cs s !! i = Some a ->
      acceptance_times cs s !! j = Some b ->
      float_le (cooldown s) (b - a)
      /\ forall x : pyfloat, c0 = PyFloat x -> float_le x (b - a))
  /\
  (forall frame dets scores env (s1 : AlertSystem) info,
      result_of (trigger_alert frame dets scores env s1) = Ret (Some info) ->
      last_alert_time (state_of (trigger_alert frame dets scores env s1))
        = t_accept env
      /\ float_le (cooldown s1) (t_gate env - last_alert_time s1)).
Proof.
  intros Hnew Hclock. split.
  - intros i j a b Hij Hi Hj.
    destruct (new_cooldown _ _ _ _ _ Hnew)
      as (x & -> & _ & [(c & Hcd & H0 & Hx)|[[_ Hcd]|[_ Hcd]]]).
    + destruct (acceptance_times_spaced cs s c Hcd H0 Hclock) as [Hsp _].
      pose proof (spaced_lookup _ _ _ _ _ _ Hsp Hij Hi Hj) as Hba.
      rewrite Hcd. split; [apply float_le_Finite; exact Hba|].
      intros x' [= <-]. unfold float_le in *.
      destruct x as [q| | |]; cbn in *; try discriminate; try reflexivity.
      apply Qle_bool_iff. apply Qle_bool_iff in Hx. lra.
    + rewrite acceptance_times_shut in Hi by auto. discriminate.
    + rewrite acceptance_times_shut in Hi by auto. discriminate.
  - intros frame dets scores env s1 info H.
    destruct (trigger_alert_cases frame dets scores env s1)
      as [(_ & lvl & E)|[(_ & _ & E)|(_ & Hg & info' & evs & _ & _ & _ & E & _)]];
      rewrite E in *; try discriminate.
    split; [reflexivity|exact Hg].
Qed.

Lemma accepted_alerts_are_a_cooldown_apart_witness :
  float_le (cooldown fresh_system) (106 - 100).
Proof.
  refine (proj1 (proj1 (accepted_alerts_are_a_cooldown_apart
                   "alerts" "assets/alert.wav" (PyFloat 5) quiet_world
                   fresh_system three_calls _ _) 0%nat 1%nat 100%Q 106%Q _ _ _)).
  - reflexivity.
  - vm_compute. repeat split; repeat constructor; discriminate.
  - lia.
  - reflexivity.
  - reflexivity.
Defined.

(** C1 as the claim states it, for every sequence of calls, fails: line 78
    and line 115 read the clock separately.  On [AlertSystem(cooldown=5)],
    a first call is accepted at 100 s; a second call reads 105 s at the
    gate, which lets it pass, and 101 s when it stamps [last_alert_time].
    Both calls return a record, and their acceptance timestamps are one
    second apart. *)
Lemma clock_set_back_breaks_the_spacing :
  new "alerts" "assets/alert.wav" (PyFloat 5) quiet_world = Ret fresh_system
  /\ clock_readings (events_of (perform_all clock_set_back fresh_system))
     = [100; 100; 105; 101]%Q
  /\ (exists r1 r2,
        result_of (perform_all clock_set_back fresh_system)
          = Ret [RAlert (Some r1); RAlert (Some r2)])
  /\ acceptance_times clock_set_back fresh_system = [100; 101]%Q
  /\ cooldown fresh_system = 5%Q
  /\ float_lt (101 - 100) (cooldown fresh_system)
  /\ float_leb (cooldown fresh_system) (101 - 100) = false.
Proof.
  vm_compute. split; [reflexivity|]. split; [reflexivity|].
  split; [eexists _, _; reflexivity|]. repeat split.
Qed.

(** ** The bounded log *)

Lemma perform_log c s :
  alert_log (state_of (perform c s)) =
    match c with
    | ClearAlerts => []
    | _ =>
        match accepted_record (result_of (perform c s)) with
        | Some info => keep_last 100 (alert_log s ++ [info])
        | None => alert_log s
        end
    end.
Proof.
  destruct c as [now|frame dets scores env|count| |].
  - unfold perform, bind. rewrite can_alert_run. reflexivity.
  - unfold perform, bind.
    destruct (trigger_alert_cases frame dets scores env s)
      as [(_ & lvl & E)|[(_ & _ & E)|(_ & _ & info & evs & _ & _ & _ & E & _)]];
      rewrite E; reflexivity.
  - unfold perform, bind. rewrite get_recent_alerts_run. reflexivity.
  - reflexivity.
  - reflexivity.
Qed.

Lemma keep_last_snoc {A} (n : nat) (l : list A) (x : A) :
  (0 < n)%nat -> keep_last n (keep_last n l ++ [x]) = keep_last n (l ++ [x]).
Proof.
  intros Hn. rewrite !keep_last_app by (simpl; lia).
  rewrite keep_last_keep_last by lia. reflexivity.
Qed.

(** The log is always the last 100 entries of its history. *)
Lemma alert_log_history cs : forall s acc,
  alert_log s = keep_last 100 acc ->
  alert_log (state_of (perform_all cs s)) = keep_last 100 (ledger_history cs s acc).
Proof.
  induction cs as [|c cs IH]; intros s acc Hacc; [exact Hacc|].
  destruct (perform_all_cons c cs s) as [_ ->].
  cbn [ledger_history]. apply IH. rewrite perform_log.
  assert (Hstep : forall o : option AlertInfo,
             match o with
             | Some info => keep_last 100 (alert_log s ++ [info])
             | None => alert_log s
             end
             = keep_last 100 match o with
                             | Some info => acc ++ [info]
                             | None => acc
                             end).
  { intros [info|]; [|exact Hacc]. rewrite Hacc. apply keep_last_snoc. lia. }
  destruct c; try apply Hstep. reflexivity.
Qed.

(** C3.  On an [AlertSystem] that was constructed, after any sequence of
    [trigger_alert], [can_alert], [get_recent_alerts], [clear_alerts] and
    [get_alert_count] calls the log holds at most 100 records, and it is
    exactly the last 100 (or all, if fewer) of the records appended since it
    was last cleared, oldest first; an accepted call on a full log drops the
    oldest record and puts its own record last. *)
Theorem alert_log_keeps_the_last_100
    folder file c0 ienv (s : AlertSystem) (cs : list call) :
  new folder file c0 ienv = Ret s ->
  let s' := state_of (perform_all cs s) in
  (length (alert_log s') <= 100)%nat
  /\ alert_log s' = keep_last 100 (ledger_history cs s [])
  /\ alert_log s' `suffix_of` ledger_history cs s []
  /\ (forall frame dets scores env info,
        length (alert_log s') = 100%nat ->
        result_of (trigger_alert frame dets scores env s') = Ret (Some info) ->
        alert_log (state_of (trigger_alert frame dets scores env s'))
          = drop 1 (alert_log s') ++ [info]).
Proof.
  intros Hnew s'.
  assert (Hlog : alert_log s' = keep_last 100 (ledger_history cs s [])).
  { apply alert_log_history.
    destruct (new_fresh _ _ _ _ _ Hnew) as [_ Hl]. rewrite Hl. reflexivity. }
  split; [|split; [exact Hlog|split]].
  - rewrite Hlog, length_keep_last. lia.
  - rewrite Hlog. apply keep_last_suffix.
  - intros frame dets scores env info Hfull H.
    destruct (trigger_alert_cases frame dets scores env s')
      as [(_ & lvl & E)|[(_ & _ & E)|(_ & _ & info' & evs & _ & _ & _ & E & _)]];
      rewrite E in *; try discriminate.
    injection H as ->. cbn.
    rewrite keep_last_app by (simpl; lia). unfold keep_last.
    rewrite Hfull. reflexivity.
Qed.

Lemma alert_log_keeps_the_last_100_witness :
  (length (alert_log (state_of (perform_all (map nth_alert (seq 0 150)) fresh_system)))
     <= 100)%nat.
Proof.
  exact (proj1 (alert_log_keeps_the_last_100
                  "alerts" "assets/alert.wav" (PyFloat 5) quiet_world fresh_system
                  (map nth_alert (seq 0 150)) eq_refl)).
Defined.

(** After 150 accepted alerts the log holds the last 100 of them, oldest
    first. *)
Example alert_log_after_150 :
  let s' := state_of (perform_all (map nth_alert (seq 0 150)) fresh_system) in
  map detections (alert_log s') = map (fun n => [pretty n]) (seq 50 100).
Proof. vm_compute. reflexivity. Qed.

(** ** Reading the log *)

(** For a positive [count] the answer is the last [count] records, newest
    last, and the log is left as it was. *)
Lemma get_recent_alerts_positive (count : Z) (s : AlertSystem) :
  (0 < count)%Z ->
  get_recent_alerts count s =
    (Ret (keep_last (Z.to_nat count) (alert_log s)), s, []).
Proof.
  intros Hc. rewrite get_recent_alerts_run.
  replace (- count)%Z with (- Z.of_nat (Z.to_nat count))%Z by lia.
  rewrite py_slice_from_neg by lia.
  destruct (alert_log s); reflexivity.
Qed.

(** [l[-0:]] is [l[0:]]: all of [l]. *)
Lemma py_slice_from_zero {A} (l : list A) : py_slice_from (- 0) l = l.
Proof. unfold py_slice_from. simpl. rewrite Z.min_l by lia. reflexivity. Qed.

(** C4, where the code departs from it.  [get_recent_alerts(0)] on a log
    that holds one record returns that record: one record, not at most
    zero.  The slice [self.alert_log[-count:]] is the whole list when
    [count] is 0. *)
Theorem get_recent_alerts_zero_returns_the_log :
  alert_log one_alert_system <> [] /\
  result_of (get_recent_alerts 0 one_alert_system)
    = Ret (alert_log one_alert_system) /\
  length (alert_log one_alert_system) = 1%nat.
Proof. vm_compute. repeat split. discriminate. Qed.

(** The same for every log that is not empty. *)
Lemma get_recent_alerts_zero (s : AlertSystem) :
  get_recent_alerts 0 s = (Ret (alert_log s), s, []).
Proof.
  rewrite get_recent_alerts_run. change (- 0)%Z with (- (0))%Z.
  rewrite py_slice_from_zero. destruct (alert_log s); reflexivity.
Qed.

(** ** Inputs that are turned away *)

(** C5.  Whatever the state, a [trigger_alert] call whose detections are
    empty, or whose frame is [None], is not a numpy array, or is an array of
    size zero, returns [None] and leaves every field as it was, in
    particular [last_alert_time] and the log; it does not read the clock and
    writes no screenshot: all it does is log one message. *)
Theorem invalid_input_is_rejected_without_effect
    (frame : py_frame) (dets : list string) (scores : list Q)
    (env : trigger_env) (s : AlertSystem) :
  dets = [] \/ frame = PyNone \/ (exists r, frame = PyObject r)
    \/ (exists a, frame = PyArray a /\ size a = 0%nat) ->
  let run := trigger_alert frame dets scores env s in
  result_of run = Ret None
  /\ state_of run = s
  /\ last_alert_time (state_of run) = last_alert_time s
  /\ alert_log (state_of run) = alert_log s
  /\ exists lvl, events_of run = [EvLog lvl].
Proof.
  intros H run.
  assert (Hv : valid_input frame dets = false).
  { destruct H as [->|[->|[[r ->]|(a & -> & Ha)]]]; try reflexivity.
    - destruct frame as [| |a]; try reflexivity. simpl.
      apply andb_false_r.
    - simpl. rewrite Ha. reflexivity. }
  destruct (trigger_alert_invalid frame dets scores env s Hv) as [lvl E].
  subst run. rewrite E. cbn. eauto 6.
Qed.

Lemma invalid_input_is_rejected_without_effect_witness :
  result_of (trigger_alert (PyArray pixel) [] [] (world_at 100 100 (Ret true))
                           fresh_system) = Ret None.
Proof.
  exact (proj1 (invalid_input_is_rejected_without_effect
                  (PyArray pixel) [] [] (world_at 100 100 (Ret true))
                  fresh_system (or_introl eq_refl))).
Defined.

(** ** A screenshot that cannot be written *)

(** C6.  Let the input be valid and the gate open.  When [cv2.imwrite]
    returns [False] or raises, [trigger_alert] still returns an alert
    record, with [screenshot] set to [None]; and compared with the same call
    in a world where the write succeeds, [last_alert_time] is the same, the
    log has the same length and the same records up to the [screenshot]
    entry of the new one, and the returned records agree up to that
    entry. *)
Theorem screenshot_failure_does_not_abort_the_alert
    (frame : py_frame) (dets : list string) (scores : list Q)
    (env : trigger_env) (s : AlertSystem) :
  valid_input frame dets = true ->
  gate_open (t_gate env) s ->
  screenshot_fails env ->
  let failed := trigger_alert frame dets scores env s in
  let written := trigger_alert frame dets scores (with_imwrite (Ret true) env) s in
  exists info info_w,
    result_of failed = Ret (Some info)
    /\ screenshot info = None
    /\ result_of written = Ret (Some info_w)
    /\ without_screenshot info_w = info
    /\ last_alert_time (state_of failed) = t_accept env
    /\ last_alert_time (state_of failed) = last_alert_time (state_of written)
    /\ cooldown (state_of failed) = cooldown (state_of written)
    /\ alert_log (state_of failed) = keep_last 100 (alert_log s ++ [info])
    /\ alert_log (state_of written) = keep_last 100 (alert_log s ++ [info_w])
    /\ length (alert_log (state_of failed)) = length (alert_log (state_of written))
    /\ map without_screenshot (alert_log (state_of failed))
       = map without_screenshot (alert_log (state_of written)).
Proof.
  intros Hv Hg Hf failed written.
  destruct (trigger_alert_open frame dets scores env s Hv Hg) as (evs & E & _).
  destruct (trigger_alert_open frame dets scores (with_imwrite (Ret true) env) s Hv Hg)
    as (evs' & E' & _).
  subst failed written. rewrite E, E'. cbn.
  assert (Hnone : screenshot_entry env s = None).
  { unfold screenshot_entry. unfold screenshot_fails in Hf.
    destruct (imwrite env) as [[|]|e]; [contradiction|reflexivity|reflexivity]. }
  rewrite Hnone.
  eexists _, _. repeat (split; [reflexivity|]).
  unfold keep_last. rewrite !length_drop, !length_app. simpl.
  split; [reflexivity|].
  rewrite <- !List.skipn_map, !List.map_app. reflexivity.
Qed.

Lemma screenshot_failure_does_not_abort_the_alert_witness :
  exists info,
    result_of (trigger_alert (PyArray pixel) ["knife"] [(9 # 10)%Q]
                             (world_at 100 100 (Ret false)) fresh_system)
      = Ret (Some info)
    /\ screenshot info = None.
Proof.
  destruct (screenshot_failure_does_not_abort_the_alert
              (PyArray pixel) ["knife"] [(9 # 10)%Q]
              (world_at 100 100 (Ret false)) fresh_system)
    as (info & info_w & H1 & H2 & _).
  - reflexivity.
  - vm_compute. reflexivity.
  - exact I.
  - exists info. split; assumption.
Defined.

(** ** Two calls in a row *)

(** C7.  For calls with a valid frame and detections that are not empty:
    after a call that returned a record, a second call whose clock reading
    is less than the cooldown after the first one's acceptance returns
    [None] and changes nothing; and a call whose clock reading is at least
    the cooldown after [last_alert_time] returns a record of its own
    detections and scores. *)
Theorem second_call_waits_for_the_cooldown
    (f1 f2 : py_frame) (d1 d2 : list string) (sc1 sc2 : list Q)
    (e1 e2 : trigger_env) (s : AlertSystem) (info1 : AlertInfo) :
  valid_input f2 d2 = true ->
  result_of (trigger_alert f1 d1 sc1 e1 s) = Ret (Some info1) ->
  let s1 := state_of (trigger_alert f1 d1 sc1 e1 s) in
  (float_lt (t_gate e2 - t_accept e1) (cooldown s) ->
     result_of (trigger_alert f2 d2 sc2 e2 s1) = Ret None
     /\ state_of (trigger_alert f2 d2 sc2 e2 s1) = s1)
  /\
  (float_le (cooldown s) (t_gate e2 - t_accept e1) ->
     exists info2,
       result_of (trigger_alert f2 d2 sc2 e2 s1) = Ret (Some info2)
       /\ detections info2 = d2 /\ confidence_scores info2 = sc2
       /\ last_alert_time (state_of (trigger_alert f2 d2 sc2 e2 s1)) = t_accept e2)
  /\
  (forall s' : AlertSystem,
     float_le (cooldown s') (t_gate e2 - last_alert_time s') ->
     exists info2,
       result_of (trigger_alert f2 d2 sc2 e2 s') = Ret (Some info2)
       /\ detections info2 = d2 /\ confidence_scores info2 = sc2).
Proof.
  intros Hv2 H1 s1.
  assert (Hs1 : last_alert_time s1 = t_accept e1 /\ cooldown s1 = cooldown s).
  { subst s1.
    destruct (trigger_alert_cases f1 d1 sc1 e1 s)
      as [(_ & lvl & E)|[(_ & _ & E)|(_ & _ & info' & evs & _ & _ & _ & E & _)]];
      rewrite E in *; try discriminate.
    split; reflexivity. }
  destruct Hs1 as [Hlast Hcd].
  assert (Hopen : forall s' : AlertSystem,
            float_le (cooldown s') (t_gate e2 - last_alert_time s') ->
            exists info2,
              result_of (trigger_alert f2 d2 sc2 e2 s') = Ret (Some info2)
              /\ detections info2 = d2 /\ confidence_scores info2 = sc2
              /\ last_alert_time (state_of (trigger_alert f2 d2 sc2 e2 s'))
                 = t_accept e2).
  { intros s' Hg.
    destruct (trigger_alert_open f2 d2 sc2 e2 s' Hv2 Hg) as (evs & E & _).
    rewrite E. eexists. repeat split. }
  split; [|split].
  - intros Hlt.
    rewrite (trigger_alert_closed f2 d2 sc2 e2 s1 Hv2).
    + split; reflexivity.
    + unfold gate_open. rewrite Hlast, Hcd. apply float_lt_not_le. exact Hlt.
  - intros Hge. apply Hopen. rewrite Hlast, Hcd. exact Hge.
  - intros s' Hg. destruct (Hopen s' Hg) as (info2 & H & Hd & Hc & _). eauto.
Qed.

Lemma second_call_waits_for_the_cooldown_witness :
  result_of (trigger_alert (PyArray pixel) ["pistol"] [(95 # 100)%Q]
               (world_at 102 102 (Ret true)) one_alert_system) = Ret None.
Proof.
  refine (proj1 (proj1 (second_call_waits_for_the_cooldown
            (PyArray pixel) (PyArray pixel) ["pistol"] ["pistol"]
            [(95 # 100)%Q] [(95 # 100)%Q]
            (world_at 100 100 (Ret true)) (world_at 102 102 (Ret true))
            fresh_system _ _ _) _)).
  - reflexivity.
  - reflexivity.
  - vm_compute. reflexivity.
Defined.

(** ** The gate as a query *)

(** C10.  [can_alert] returns [True] exactly when the clock reading minus
    [last_alert_time] is at least [cooldown], and leaves every field as it
    was.  So asking twice at the same instant gives the same answer, and a
    [True] answer does not use up the cooldown: a [trigger_alert] call made
    after it at the same instant is still accepted, and it is that call that
    sets [last_alert_time]. *)
Theorem can_alert_is_a_pure_query (now : Q) (s : AlertSystem) :
  (exists b, result_of (can_alert now s) = Ret b
             /\ (b = true <-> float_le (cooldown s) (now - last_alert_time s)))
  /\ state_of (can_alert now s) = s
  /\ result_of (can_alert now (state_of (can_alert now s)))
     = result_of (can_alert now s)
  /\ (forall frame dets scores env,
        result_of (can_alert now s) = Ret true ->
        valid_input frame dets = true ->
        t_gate env = now ->
        let s1 := state_of (can_alert now s) in
        last_alert_time s1 = last_alert_time s
        /\ exists info,
             result_of (trigger_alert frame dets scores env s1) = Ret (Some info)
             /\ last_alert_time (state_of (trigger_alert frame dets scores env s1))
                = t_accept env).
Proof.
  assert (Hs : state_of (can_alert now s) = s)
    by (rewrite can_alert_run; reflexivity).
  rewrite Hs, can_alert_run. unfold result_of. cbn [fst snd].
  split; [|split; [reflexivity|split; [reflexivity|]]].
  - eexists. split; [reflexivity|]. reflexivity.
  - intros frame dets scores env Hb Hv Ht. split; [reflexivity|].
    injection Hb as Hb.
    assert (Hg : gate_open (t_gate env) s) by (rewrite Ht; exact Hb).
    destruct (trigger_alert_open frame dets scores env s Hv Hg) as (evs & E & _).
    rewrite E. eexists. split; reflexivity.
Qed.

Lemma can_alert_is_a_pure_query_witness :
  exists info,
    result_of (trigger_alert (PyArray pixel) ["pistol"] [(95 # 100)%Q]
                 (world_at 100 100 (Ret true))
                 (state_of (can_alert 100 fresh_system))) = Ret (Some info)
    /\ last_alert_time
         (state_of (trigger_alert (PyArray pixel) ["pistol"] [(95 # 100)%Q]
                      (world_at 100 100 (Ret true))
                      (state_of (can_alert 100 fresh_system)))) = 100%Q.
Proof.
  refine (proj2 (proj2 (proj2 (proj2 (can_alert_is_a_pure_query 100 fresh_system)))
                  (PyArray pixel) ["pistol"] [(95 # 100)%Q]
                  (world_at 100 100 (Ret true)) _ _ _)).
  - reflexivity.
  - reflexivity.
  - reflexivity.
Defined.

(** ** Several threads *)

(** The steps of a thread, each as one equation. *)
Lemma sched_step_single t s evs :
  sched_step ([t], s, evs) 0 =
    match thread_step t s with
    | (Ret t', s', evs') => ([t'], s', evs ++ evs')
    | (Raise _, s', evs') => ([t], s', evs ++ evs')
    end.
Proof. reflexivity. Qed.

Lemma step_validate frame dets scores env s :
  valid_input frame dets = true ->
  thread_step (AtValidate frame dets scores env) s = (Ret (AtGate dets scores env), s, []).
Proof.
  intros Hv. apply valid_input_inv in Hv as (a & d & dets' & -> & Ha & ->).
  unfold thread_step. rewrite Ha. reflexivity.
Qed.

Lemma step_validate_invalid frame dets scores env s :
  valid_input frame dets = false ->
  thread_step (AtValidate frame dets scores env) s
    = (Ret (Returned None), s, events_of (trigger_alert frame dets scores env s)).
Proof.
  intros Hv. destruct frame as [| |a]; try reflexivity.
  unfold thread_step, trigger_alert. simpl in Hv.
  destruct (size a =? 0)%nat; [reflexivity|].
  destruct dets; [reflexivity|discriminate].
Qed.

Lemma step_gate dets scores env s :
  thread_step (AtGate dets scores env) s =
    (Ret (if float_leb (cooldown s) (t_gate env - last_alert_time s)
          then AtStamp dets scores env else Returned None),
     s, [EvTime (t_gate env)]).
Proof.
  unfold thread_step, bind. rewrite can_alert_run.
  destruct (float_leb _ _); reflexivity.
Qed.

Lemma step_stamp dets scores env s :
  thread_step (AtStamp dets scores env) s =
    (Ret (AtSideEffects dets scores env),
     set_last_alert_time (t_accept env) s, [EvTime (t_accept env)]).
Proof. reflexivity. Qed.

Lemma step_side_effects dets scores env s :
  thread_step (AtSideEffects dets scores env) s =
    (Ret (AtLog {| timestamp := stamp_info env; detections := dets;
                   confidence_scores := scores;
                   screenshot := screenshot_entry env s |}),
     s, events_of (save_screenshot env s) ++ events_of (start_sound env s)).
Proof.
  unfold thread_step, guarded, try_except, bind.
  destruct (save_screenshot_run env s) as [E1 _]. rewrite E1 at 1.
  destruct (start_sound_run env s) as [E2 _]. rewrite E2 at 1.
  unfold ret. rewrite app_nil_r. reflexivity.
Qed.

Lemma step_log info s :
  thread_step (AtLog info) s =
    (Ret (Returned (Some info)),
     set_alert_log (keep_last 100 (alert_log s ++ [info])) s, []).
Proof.
  unfold thread_step, guarded, try_except, bind. rewrite log_alert_run.
  reflexivity.
Qed.

Lemma step_returned r s : thread_step (Returned r) s = (Ret (Returned r), s, []).
Proof. reflexivity. Qed.

(** A thread that is never interrupted does what [trigger_alert] does: the
    points of [thread] cut the method and leave nothing out. *)
Lemma uninterrupted_thread frame dets scores env s :
  exists r,
    result_of (trigger_alert frame dets scores env s) = Ret r /\
    interleave [0; 0; 0; 0; 0]%nat ([AtValidate frame dets scores env], s, [])
      = ([Returned r],
         state_of (trigger_alert frame dets scores env s),
         events_of (trigger_alert frame dets scores env s)).
Proof.
  unfold interleave, foldl.
  destruct (valid_input frame dets) eqn:Hv.
  - rewrite sched_step_single, step_validate by exact Hv.
    rewrite sched_step_single, step_gate.
    destruct (float_leb _ _) eqn:Hg.
    + rewrite (trigger_alert_open_eq frame dets scores env s Hv Hg).
      rewrite sched_step_single, step_stamp.
      rewrite sched_step_single, step_side_effects.
      rewrite sched_step_single, step_log.
      eexists. split; [reflexivity|].
      unfold state_of, events_of, side_events. cbn [fst snd app].
      rewrite app_nil_r. reflexivity.
    + rewrite (trigger_alert_closed frame dets scores env s Hv)
        by (apply not_float_le; exact Hg).
      rewrite !sched_step_single, !step_returned.
      eexists. split; reflexivity.
  - rewrite sched_step_single, step_validate_invalid by exact Hv.
    destruct (trigger_alert_invalid frame dets scores env s Hv) as [lvl E].
    rewrite E. rewrite !sched_step_single, !step_returned.
    eexists. split; reflexivity.
Qed.

(** C2, where the code departs from it.  Two threads call [trigger_alert]
    on a fresh [AlertSystem] with cooldown 5, one second apart.  When the
    scheduler switches thread after every step, both calls read the gate
    (at 1000 s and 1001 s) before either has written [last_alert_time] (at
    1002 s and 1003 s): both get [True] from [can_alert], both return an
    alert record and the log holds two records accepted one second apart.
    The check of lines 77-81 and the write of lines 114-115 hold the lock
    one after the other, not together.  When the first call finishes before
    the second starts, the second returns [None]. *)
Theorem two_threads_both_pass_the_gate :
  let race := interleave alternating (two_threads, fresh_system, []) in
  let calm := interleave one_after_the_other (two_threads, fresh_system, []) in
  clock_readings race.2 = [1000; 1001; 1002; 1003]%Q
  /\ nondecreasing (clock_readings race.2)
  /\ (exists r0 r1,
        returned race 0 = Some (Some r0) /\ returned race 1 = Some (Some r1)
        /\ alert_log race.1.2 = [r0; r1])
  /\ last_alert_time race.1.2 = 1003%Q
  /\ float_lt (1003 - 1002) (cooldown race.1.2)
  /\ (exists r0,
        returned calm 0 = Some (Some r0) /\ returned calm 1 = Some None
        /\ alert_log calm.1.2 = [r0]).
Proof.
  vm_compute.
  split; [reflexivity|].
  split; [repeat split; repeat constructor; discriminate|].
  split; [eexists _, _; repeat split|].
  split; [reflexivity|].
  split; [reflexivity|].
  eexists; repeat split.
Qed.

(** ** Construction and the lifetime of [cooldown] *)




(** ** The detector boundary *)

(** Frame rules: what a block leaves alone, from what its parts leave
    alone. *)
Section Keeps.
Context {S V : Type} (f : S -> V).

Lemma keeps_ret {A} (a : A) : keeps f (ret a).
Proof. intros s. reflexivity. Qed.

Lemma keeps_lift {A} (o : outcome A) : keeps f (lift o).
Proof. intros s. reflexivity. Qed.

Lemma keeps_get : keeps f get.
Proof. intros s. reflexivity. Qed.

Lemma keeps_emit (e : event) : keeps f (emit e).
Proof. intros s. reflexivity. Qed.

Lemma keeps_modify (g : S -> S) : (forall s, f (g s) = f s) -> keeps f (modify g).
Proof. intros H s. apply H. Qed.

Lemma keeps_bind {A B} (m : M A) (k : A -> M B) :
  keeps f m -> (forall a, keeps f (k a)) -> keeps f (bind m k).
Proof.
  intros Hm Hk s. specialize (Hm s). unfold bind, state_of in *.
  destruct (m s) as [[[a|e] s1] evs1]; cbn in *; [|exact Hm].
  specialize (Hk a s1). unfold state_of in Hk.
  destruct (k a s1) as [[r s2] evs2]. cbn in *. congruence.
Qed.

Lemma keeps_try_except {A} (m : M A) (h : exn -> M A) :
  keeps f m -> (forall e, keeps f (h e)) -> keeps f (try_except m h).
Proof.
  intros Hm Hh s. specialize (Hm s). unfold try_except, state_of in *.
  destruct (m s) as [[[a|e] s1] evs1]; cbn in *; [exact Hm|].
  specialize (Hh e s1). unfold state_of in Hh.
  destruct (h e s1) as [[r s2] evs2]. cbn in *. congruence.
Qed.

Lemma keeps_for_each {A} (l : list A) (k : A -> M unit) :
  (forall a, keeps f (k a)) -> keeps f (Detector.for_each l k).
Proof.
  intros Hk. induction l as [|x l IH]; simpl.
  - apply keeps_ret.
  - apply keeps_bind; [apply Hk|]. intros _. exact IH.
Qed.
End Keeps.

Ltac keeps_step :=
  first
    [ apply keeps_ret | apply keeps_lift | apply keeps_get | apply keeps_emit
    | apply keeps_modify; intros [? ?]; reflexivity
    | apply keeps_for_each; intros ?
    | apply keeps_bind; [|intros ?]
    | apply keeps_try_except; [|intros ?]
    | match goal with
      | |- keeps _ (let '(_, _) := ?x in _) => destruct x
      | |- keeps _ (if ?b then _ else _) => destruct b
      | |- keeps _ (match ?x with Some _ => _ | None => _ end) => destruct x
      end ].

(** Inside the [try] block of [detect], [error_count] is not written. *)
Lemma annotate_keeps_error_count cv frame env :
  keeps (fun st : Detector.WeaponDetector * Detector.locals =>
           Detector.error_count st.1)
        (Detector.annotate cv frame env).
Proof.
  unfold Detector.annotate, Detector.process_result, Detector.process_box,
    Detector.draw, Detector.on_self, Detector.on_locals, logger.
  repeat keeps_step.
Qed.

(** A [try] whose handler returns, returns. *)
Lemma try_except_returns {S A} (m : M (S:=S) A) (h : exn -> M (S:=S) A) (s : S) :
  (forall e s1, exists a, result_of (h e s1) = Ret a) ->
  exists a, result_of (try_except m h s) = Ret a.
Proof.
  intros Hh. unfold try_except, result_of.
  destruct (m s) as [[[a|e] s1] evs1]; cbn.
  - eauto.
  - destruct (Hh e s1) as [a Ha]. unfold result_of in Ha.
    destruct (h e s1) as [[r s2] evs2]. cbn in *. eauto.
Qed.

(** When the [try] block of [detect] raises, the handler answers with the
    frame it was given and nothing detected, and counts the error. *)
Lemma infer_and_annotate_fallback cv frame env st e :
  result_of (Detector.annotate cv frame env st) = Raise e ->
  exists st1,
    Detector.infer_and_annotate cv frame env st
      = (Ret (frame, [], [], false),
         (Detector.add_error_count st1.1, st1.2),
         events_of (Detector.annotate cv frame env st) ++ [EvLog ERROR])
    /\ st1 = state_of (Detector.annotate cv frame env st).
Proof.
  unfold Detector.infer_and_annotate, try_except, result_of, state_of, events_of.
  destruct (Detector.annotate cv frame env st) as [[[d|e'] st1] evs]; cbn;
    intros H; [discriminate|].
  exists st1. split; reflexivity.
Qed.

Lemma infer_and_annotate_returns cv frame env st :
  exists d, result_of (Detector.infer_and_annotate cv frame env st) = Ret d.
Proof.
  apply try_except_returns. intros e s1. eexists. reflexivity.
Qed.

(** [detect] on a frame that passes the checks, with a loaded model. *)
Lemma detect_loaded cv a env (self : Detector.WeaponDetector) :
  size a <> 0%nat ->
  Detector.model_loaded self = true ->
  is_Some (Detector.model self) ->
  Detector.detect cv (PyArray a) env self =
    Detector.with_locals (Detector.fresh_locals a)
      (Detector.infer_and_annotate cv a env) (Detector.add_frame_count self).
Proof.
  intros Ha Hl Hm. unfold Detector.detect.
  destruct (Nat.eqb_spec (size a) 0) as [|_]; [contradiction|].
  unfold bind at 1, get. rewrite Hl.
  rewrite bool_decide_eq_true_2 by exact Hm. cbn [negb orb].
  unfold bind, modify.
  destruct (Detector.with_locals _ _ _) as [[r s2] evs]. reflexivity.
Qed.

(** C8.  [detect] returns for every frame, whatever the model and OpenCV
    do: no exception reaches its caller.  On a frame that passes the checks,
    with a model loaded, when the [try] block raises (the inference call
    raises, or anything else not caught per box or per result), [detect]
    returns the frame it was given with an empty list of detections, an
    empty list of scores and [has_detection = False], and [error_count] has
    gone up by one. *)
Theorem detect_never_raises_and_falls_back
    (cv : Detector.cv2_api) (frame : py_frame) (env : Detector.detect_env)
    (self : Detector.WeaponDetector) :
  (exists d, result_of (Detector.detect cv frame env self) = Ret d)
  /\
  (forall a,
     frame = PyArray a -> size a <> 0%nat ->
     Detector.model_loaded self = true -> is_Some (Detector.model self) ->
     ((exists e, Detector.inference env = Raise e) \/
      (exists e, result_of (Detector.annotate cv a env
                   (Detector.add_frame_count self, Detector.fresh_locals a))
                 = Raise e)) ->
     result_of (Detector.detect cv frame env self) = Ret (a, [], [], false)
     /\ Detector.error_count (state_of (Detector.detect cv frame env self))
        = (Detector.error_count self + 1)%nat).
Proof.
  split.
  - destruct frame as [|repr|a]; [eexists; reflexivity ..|].
    unfold Detector.detect.
    destruct (size a =? 0)%nat; [eexists; reflexivity|].
    unfold bind at 1, get.
    destruct (negb _ || negb _); [eexists; reflexivity|].
    unfold bind, modify, Detector.with_locals.
    destruct (infer_and_annotate_returns cv a env
                (Detector.add_frame_count self, Detector.fresh_locals a))
      as [d Hd].
    unfold result_of in *.
    destruct (Detector.infer_and_annotate _ _ _ _) as [[r [self' l']] evs].
    cbn in *. subst r. eexists. reflexivity.
  - intros a -> Ha Hl Hm Hfail.
    assert (Hraise : exists e,
              result_of (Detector.annotate cv a env
                (Detector.add_frame_count self, Detector.fresh_locals a))
              = Raise e).
    { destruct Hfail as [[e He]|H]; [|exact H].
      exists e. unfold Detector.annotate, bind, lift. rewrite He. reflexivity. }
    destruct Hraise as [e He].
    rewrite detect_loaded by assumption.
    destruct (infer_and_annotate_fallback _ _ _ _ _ He) as (st1 & E & Hst1).
    unfold Detector.with_locals. rewrite E.
    destruct st1 as [self1 l1]. cbn. split; [reflexivity|].
    (* only [on_self] writes the object inside the block, and it only
       counts detections *)
    pose proof (annotate_keeps_error_count cv a env
                  (Detector.add_frame_count self, Detector.fresh_locals a)) as Hk.
    rewrite <- Hst1 in Hk. cbn in Hk. rewrite Hk. reflexivity.
Qed.

Lemma detect_never_raises_and_falls_back_witness :
  result_of (Detector.detect Detector.plain_cv (PyArray pixel)
               Detector.failing_inference Detector.loaded_detector)
    = Ret (pixel, [], [], false).
Proof.
  refine (proj1 (proj2 (detect_never_raises_and_falls_back
            Detector.plain_cv (PyArray pixel) Detector.failing_inference
            Detector.loaded_detector) pixel eq_refl _ eq_refl _ _)).
  - discriminate.
  - eexists. reflexivity.
  - left. eexists. reflexivity.
Defined.

(** A failure inside one box is caught at that box: the boxes read before
    and after it still count. *)
Example detect_one_pistol :
  result_of (Detector.detect Detector.plain_cv (PyArray pixel)
               Detector.one_pistol Detector.loaded_detector)
    = Ret (pixel, ["pistol"], [(95 # 100)%Q], true).
Proof. vm_compute. reflexivity. Qed.


(** * Further properties of the code *)

(** ** Reading the log: every [count] *)

(** [l[k:]] for [k] that is not negative drops the first [k] elements. *)
Lemma py_slice_from_nonneg {A} (k : Z) (l : list A) :
  (0 <= k)%Z -> py_slice_from k l = drop (Z.to_nat k) l.
Proof.
  intros Hk. unfold py_slice_from.
  destruct (Z.ltb_spec k 0) as [H|_]; [lia|].
  destruct (Z.le_gt_cases k (Z.of_nat (length l))) as [H|H].
  - rewrite Z.min_l by lia. reflexivity.
  - rewrite Z.min_r by lia. rewrite Nat2Z.id, drop_all.
    symmetry. apply drop_ge. lia.
Qed.

(** For a negative [count] the slice [self.alert_log[-count:]] starts at
    index [-count] from the front: the answer is the log without its
    [-count] oldest records. *)
Theorem get_recent_alerts_negative_count (count : Z) (s : AlertSystem) :
  (count < 0)%Z ->
  get_recent_alerts count s =
    (Ret (drop (Z.to_nat (- count)) (alert_log s)), s, []).
Proof.
  intros Hc. rewrite get_recent_alerts_run.
  rewrite py_slice_from_nonneg by lia.
  destruct (alert_log s) eqn:El; [|reflexivity].
  simpl. rewrite drop_nil. reflexivity.
Qed.

Lemma get_recent_alerts_negative_count_witness :
  result_of (get_recent_alerts (-1) one_alert_system) = Ret [].
Proof.
  rewrite (get_recent_alerts_negative_count (-1) one_alert_system); [|lia].
  reflexivity.
Defined.

(** Whatever [count] is, [get_recent_alerts] answers with an end piece of
    the log, in log order, changes no field and does nothing to the world;
    for a positive [count] the answer has [min count (len log)] records, so
    a [count] of at least the length gives the whole log. *)
Theorem get_recent_alerts_is_a_suffix (count : Z) (s : AlertSystem) :
  exists l,
    get_recent_alerts count s = (Ret l, s, [])
    /\ l `suffix_of` alert_log s
    /\ ((0 < count)%Z -> length l = min (Z.to_nat count) (length (alert_log s)))
    /\ ((Z.of_nat (length (alert_log s)) <= count)%Z -> l = alert_log s).
Proof.
  destruct (Z.lt_trichotomy count 0) as [Hc|[->|Hc]].
  - rewrite get_recent_alerts_run, py_slice_from_nonneg by lia.
    exists (drop (Z.to_nat (- count)) (alert_log s)).
    split; [destruct (alert_log s); [rewrite drop_nil|]; reflexivity|].
    split; [apply suffix_drop|].
    split; [lia|]. intros H. lia.
  - rewrite get_recent_alerts_zero.
    eexists. split; [reflexivity|]. split; [reflexivity|].
    split; [lia|]. reflexivity.
  - rewrite get_recent_alerts_positive by exact Hc.
    eexists. split; [reflexivity|]. split; [apply keep_last_suffix|].
    split; [intros _; apply length_keep_last|].
    intros H. apply keep_last_all. lia.
Qed.

Lemma get_recent_alerts_is_a_suffix_witness :
  exists l,
    result_of (get_recent_alerts 10 one_alert_system) = Ret l
    /\ l = alert_log one_alert_system.
Proof.
  destruct (get_recent_alerts_is_a_suffix 10 one_alert_system)
    as (l & E & _ & _ & Hall).
  exists l. split.
  - rewrite E. reflexivity.
  - apply Hall. vm_compute. discriminate.
Defined.

(** ** An accepted alert, read back *)

(** The record an accepted [trigger_alert] returns is the newest record of
    the log: [get_recent_alerts(1)] right after it returns exactly that
    record, and [get_alert_count()] is one more than before, or stays at 100
    when the log was full. *)
Theorem accepted_alert_reads_back
    (frame : py_frame) (dets : list string) (scores : list Q)
    (env : trigger_env) (s : AlertSystem) (info : AlertInfo) :
  result_of (trigger_alert frame dets scores env s) = Ret (Some info) ->
  let s' := state_of (trigger_alert frame dets scores env s) in
  result_of (get_recent_alerts 1 s') = Ret [info]
  /\ last (alert_log s') = Some info
  /\ result_of (get_alert_count s') = Ret (min 100 (length (alert_log s) + 1))
  /\ detections info = dets /\ confidence_scores info = scores
  /\ timestamp info = stamp_info env.
Proof.
  intros H s'. subst s'.
  assert (Hopen : valid_input frame dets = true /\ gate_open (t_gate env) s).
  { destruct (trigger_alert_cases frame dets scores env s)
      as [(_ & lvl & E)|[(_ & _ & E)|(Hv & Hg & _)]];
      [rewrite E in H; discriminate ..|auto]. }
  destruct Hopen as [Hv Hg].
  rewrite (trigger_alert_open_eq frame dets scores env s Hv Hg) in *.
  injection H as <-.
  unfold state_of. cbn [fst snd].
  rewrite get_recent_alerts_positive by lia.
  unfold result_of. cbn [fst snd alert_log set_alert_log].
  split; [|split; [|split]].
  - change (Z.to_nat 1) with 1%nat.
    rewrite keep_last_keep_last by lia.
    rewrite keep_last_app by (simpl; lia). simpl.
    unfold keep_last. rewrite Nat.sub_0_r, drop_all. reflexivity.
  - rewrite keep_last_app by (simpl; lia). apply last_snoc.
  - unfold get_alert_count, with_lock, bind, get, ret. cbn.
    rewrite length_keep_last, length_app. simpl. reflexivity.
  - auto.
Qed.

Lemma accepted_alert_reads_back_witness :
  exists info,
    result_of (get_recent_alerts 1 one_alert_system) = Ret [info]
    /\ detections info = ["pistol"].
Proof.
  destruct (accepted_alert_reads_back
              (PyArray pixel) ["pistol"] [(95 # 100)%Q]
              (world_at 100 100 (Ret true)) fresh_system
              {| timestamp := "2024-01-01 00:00:00"; detections := ["pistol"];
                 confidence_scores := [(95 # 100)%Q];
                 screenshot := Some "alerts/alert_20240101_000000.jpg" |})
    as (H1 & _ & _ & H4 & _).
  - reflexivity.
  - eexists. split; [exact H1|exact H4].
Defined.

(** ** Clearing the log *)

(** [clear_alerts] empties the log and nothing else: afterwards the count is
    0 and [get_recent_alerts] is empty for every [count], while
    [last_alert_time] and [cooldown] are as before.  So clearing does not
    reopen the gate: a valid call that the gate would have turned away
    before the clear is still turned away after it. *)
Theorem clear_alerts_keeps_the_gate
    (s : AlertSystem) (count : Z) (frame : py_frame) (dets : list string)
    (scores : list Q) (env : trigger_env) :
  let s' := state_of (clear_alerts s) in
  result_of (clear_alerts s) = Ret ()
  /\ result_of (get_alert_count s') = Ret 0%nat
  /\ result_of (get_recent_alerts count s') = Ret []
  /\ last_alert_time s' = last_alert_time s
  /\ cooldown s' = cooldown s
  /\ (valid_input frame dets = true ->
      result_of (trigger_alert frame dets scores env s) = Ret None ->
      result_of (trigger_alert frame dets scores env s') = Ret None
      /\ state_of (trigger_alert frame dets scores env s') = s').
Proof.
  intros s'. subst s'.
  change (state_of (clear_alerts s)) with (set_alert_log [] s).
  repeat (split; [reflexivity|]).
  intros Hv H.
  assert (Hg : ~ gate_open (t_gate env) s).
  { intros Hg.
    rewrite (trigger_alert_open_eq frame dets scores env s Hv Hg) in H.
    discriminate. }
  rewrite (trigger_alert_closed frame dets scores env (set_alert_log [] s) Hv Hg).
  split; reflexivity.
Qed.

Lemma clear_alerts_keeps_the_gate_witness :
  result_of (trigger_alert (PyArray pixel) ["pistol"] [(95 # 100)%Q]
               (world_at 102 102 (Ret true))
               (state_of (clear_alerts one_alert_system))) = Ret None.
Proof.
  refine (proj1 (proj2 (proj2 (proj2 (proj2 (proj2
            (clear_alerts_keeps_the_gate one_alert_system 10
               (PyArray pixel) ["pistol"] [(95 # 100)%Q]
               (world_at 102 102 (Ret true))))))) _ _)).
  - reflexivity.
  - vm_compute. reflexivity.
Defined.

(** ** The first alert *)



(** ** What a call does to the world *)





(** The sound is best effort: whether [Thread(...).start()] returns or
    raises, an accepted call returns the same record and leaves the same
    fields. *)
Theorem sound_failure_does_not_change_the_alert
    (frame : py_frame) (dets : list string) (scores : list Q)
    (env : trigger_env) (s : AlertSystem) (o : outcome unit) :
  result_of (trigger_alert frame dets scores (with_thread_start o env) s)
    = result_of (trigger_alert frame dets scores env s)
  /\ state_of (trigger_alert frame dets scores (with_thread_start o env) s)
     = state_of (trigger_alert frame dets scores env s).
Proof.
  destruct (trigger_alert_cases frame dets scores env s)
    as [(Hv & lvl & E)|[(Hv & Hg & E)|(Hv & Hg & _)]].
  - destruct (trigger_alert_invalid frame dets scores (with_thread_start o env) s Hv)
      as [lvl' E'].
    rewrite E, E'. split; reflexivity.
  - rewrite E.
    rewrite (trigger_alert_closed frame dets scores (with_thread_start o env) s Hv Hg).
    split; reflexivity.
  - rewrite (trigger_alert_open_eq frame dets scores env s Hv Hg).
    rewrite (trigger_alert_open_eq frame dets scores (with_thread_start o env) s Hv Hg).
    split; reflexivity.
Qed.

(** ** What [__init__] leaves behind *)

(** After [__init__] a sound is loaded exactly when pygame is there, the
    sound file exists and both mixer calls returned; in every other case
    construction still succeeds, without a sound.  The alert folder is the
    one given when [mkdir] returned and the current folder when it raised.
    The log is empty and [last_alert_time] is 0.  This holds for every
    number given as the cooldown. *)
Theorem construction_degrades_gracefully
    (folder file : string) (c0 : pyfloat) (ienv : init_env) :
  exists s : AlertSystem,
    new folder file (PyFloat c0) ienv = Ret s
    /\ sound s = sound_comes_up ienv
    /\ alert_folder s = match mkdir ienv with Ret _ => folder | Raise _ => "." end
    /\ sound_file s = file
    /\ alert_log s = []
    /\ last_alert_time s = 0%Q.
Proof.
  unfold new, init, sound_comes_up, logger, try_except, bind, ret, emit, lift,
    modify.
  destruct (float_ltb c0 0); cbn;
    destruct (mkdir ienv) as [[]|e1]; cbn;
    destruct (pygame_available ienv); cbn;
    try (destruct (sound_file_exists ienv) as [[|]|e2]; cbn);
    try (destruct (mixer_init ienv) as [[]|e3]; cbn);
    try (destruct (mixer_sound ienv) as [[]|e4]; cbn);
    eexists; repeat split.
Qed.

(** ** No method raises *)

(** Whatever the calls and the world's answers, every call of a sequence
    returns: the caller gets one reply per call and never an exception. *)
Theorem no_method_raises (cs : list call) (s : AlertSystem) :
  exists rs, result_of (perform_all cs s) = Ret rs /\ length rs = length cs.
Proof.
  revert s. induction cs as [|c cs IH]; intros s.
  - exists []. split; reflexivity.
  - destruct (perform_returns c s) as [r Hr].
    cbn [perform_all]. unfold bind, ret, result_of in *.
    destruct (perform c s) as [[o s1] evs1]. cbn in Hr. subst o.
    destruct (IH s1) as (rs & Hrs & Hlen).
    destruct (perform_all cs s1) as [[o2 s2] evs2]. cbn in Hrs. subst o2.
    exists (r :: rs). split; [reflexivity|]. simpl. lia.
Qed.

(** ** Threads: what every interleaving keeps, and what none prevents *)

Lemma thread_step_frame t s :
  exists t',
    result_of (thread_step t s) = Ret t'
    /\ cooldown (state_of (thread_step t s)) = cooldown s
    /\ ((length (alert_log s) <= 100)%nat ->
        (length (alert_log (state_of (thread_step t s))) <= 100)%nat).
Proof.
  destruct t as [frame dets scores env|dets scores env|dets scores env
                |dets scores env|info|r].
  - destruct (valid_input frame dets) eqn:Hv.
    + rewrite step_validate by exact Hv. eexists. repeat split. auto.
    + rewrite step_validate_invalid by exact Hv. eexists. repeat split. auto.
  - rewrite step_gate. eexists. repeat split. auto.
  - rewrite step_stamp. eexists. repeat split. auto.
  - rewrite step_side_effects. eexists. repeat split. auto.
  - rewrite step_log. eexists. repeat split.
    intros _. cbn. rewrite length_keep_last. lia.
  - rewrite step_returned. eexists. repeat split. auto.
Qed.

Lemma sched_step_frame (cfg : config) (i : nat) :
  length (sched_step cfg i).1.1 = length cfg.1.1
  /\ cooldown (sched_step cfg i).1.2 = cooldown cfg.1.2
  /\ ((length (alert_log cfg.1.2) <= 100)%nat ->
      (length (alert_log (sched_step cfg i).1.2) <= 100)%nat).
Proof.
  destruct cfg as [[pool s] evs]. unfold sched_step. cbn [fst snd].
  destruct (pool !! i) as [t|]; [|auto].
  destruct (thread_step_frame t s) as (t' & Hr & Hc & Hl).
  unfold result_of, state_of in *.
  destruct (thread_step t s) as [[o s'] evs']. cbn in *. subst o.
  cbn. rewrite length_insert. auto.
Qed.

(** Under every schedule and for every set of threads calling
    [trigger_alert], the log never holds more than 100 records, [cooldown]
    is never written, and no thread is lost: the append-and-trim of lines
    149-154 is one locked block, so the bound of the log does not depend on
    the interleaving. *)
Theorem every_interleaving_keeps_the_log_bounded
    (schedule : list nat) (pool : list thread) (s : AlertSystem)
    (evs : list event) :
  (length (alert_log s) <= 100)%nat ->
  let cfg := interleave schedule (pool, s, evs) in
  (length (alert_log cfg.1.2) <= 100)%nat
  /\ cooldown cfg.1.2 = cooldown s
  /\ length cfg.1.1 = length pool.
Proof.
  intros Hlen cfg. subst cfg. unfold interleave.
  assert (H : forall (cfg0 : config),
             (length (alert_log cfg0.1.2) <= 100)%nat ->
             (length (alert_log (foldl sched_step cfg0 schedule).1.2) <= 100)%nat
             /\ cooldown (foldl sched_step cfg0 schedule).1.2 = cooldown cfg0.1.2
             /\ length (foldl sched_step cfg0 schedule).1.1 = length cfg0.1.1).
  { induction schedule as [|i schedule IH]; intros cfg0 H0; [auto|].
    simpl. destruct (sched_step_frame cfg0 i) as (Hp & Hc & Hl).
    destruct (IH (sched_step cfg0 i) (Hl H0)) as (IH1 & IH2 & IH3).
    split; [exact IH1|]. split; congruence. }
  apply (H (pool, s, evs)). exact Hlen.
Qed.

Lemma every_interleaving_keeps_the_log_bounded_witness :
  (length (alert_log (interleave alternating (two_threads, fresh_system, [])).1.2)
     <= 100)%nat.
Proof.
  refine (proj1 (every_interleaving_keeps_the_log_bounded
                   alternating two_threads fresh_system [] _)).
  simpl. lia.
Defined.

Lemma sched_step_first t0 pool s evs :
  sched_step (t0 :: pool, s, evs) 0 =
    match thread_step t0 s with
    | (Ret t', s', evs') => (t' :: pool, s', evs ++ evs')
    | (Raise _, s', evs') => (t0 :: pool, s', evs ++ evs')
    end.
Proof. reflexivity. Qed.

Lemma sched_step_second t0 t1 pool s evs :
  sched_step (t0 :: t1 :: pool, s, evs) 1 =
    match thread_step t1 s with
    | (Ret t', s', evs') => (t0 :: t' :: pool, s', evs ++ evs')
    | (Raise _, s', evs') => (t0 :: t1 :: pool, s', evs ++ evs')
    end.
Proof. reflexivity. Qed.

(** Two threads call [trigger_alert] with valid input while the gate is
    open for the clock readings of both.  When their steps alternate, both
    calls return a record and both records are logged, whatever the time
    between the two: the second thread checked the gate before the first
    had stamped it. *)
Theorem alternating_threads_are_both_accepted
    (f1 f2 : py_frame) (d1 d2 : list string) (sc1 sc2 : list Q)
    (e1 e2 : trigger_env) (s : AlertSystem) :
  valid_input f1 d1 = true ->
  valid_input f2 d2 = true ->
  gate_open (t_gate e1) s ->
  gate_open (t_gate e2) s ->
  let race := interleave alternating
                ([AtValidate f1 d1 sc1 e1; AtValidate f2 d2 sc2 e2], s, []) in
  exists r1 r2,
    returned race 0 = Some (Some r1)
    /\ returned race 1 = Some (Some r2)
    /\ detections r1 = d1 /\ detections r2 = d2
    /\ alert_log race.1.2
       = keep_last 100 (keep_last 100 (alert_log s ++ [r1]) ++ [r2])
    /\ last_alert_time race.1.2 = t_accept e2
    /\ clock_readings race.2 = [t_gate e1; t_gate e2; t_accept e1; t_accept e2].
Proof.
  intros Hv1 Hv2 Hg1 Hg2 race. subst race.
  unfold gate_open, float_le in Hg1, Hg2.
  unfold interleave, alternating, foldl.
  rewrite sched_step_first, step_validate by exact Hv1.
  rewrite sched_step_second, step_validate by exact Hv2.
  rewrite sched_step_first, step_gate, Hg1.
  rewrite sched_step_second, step_gate, Hg2.
  rewrite sched_step_first, step_stamp.
  rewrite sched_step_second, step_stamp.
  rewrite sched_step_first, step_side_effects.
  rewrite sched_step_second, step_side_effects.
  rewrite sched_step_first, step_log.
  rewrite sched_step_second, step_log.
  eexists _, _. unfold returned. cbn [fst snd lookup list_lookup].
  repeat (split; [reflexivity|]).
  unfold snd. rewrite !clock_readings_app.
  rewrite !(proj2 (save_screenshot_run _ _)), !(proj2 (start_sound_run _ _)).
  reflexivity.
Qed.

Lemma alternating_threads_are_both_accepted_witness :
  exists r1 r2,
    returned (interleave alternating (two_threads, fresh_system, [])) 0
      = Some (Some r1)
    /\ returned (interleave alternating (two_threads, fresh_system, [])) 1
       = Some (Some r2).
Proof.
  destruct (alternating_threads_are_both_accepted
              (PyArray pixel) (PyArray pixel) ["pistol"] ["knife"]
              [(95 # 100)%Q] [(90 # 100)%Q]
              (world_at 1000 1002 (Ret true)) (world_at 1001 1003 (Ret true))
              fresh_system)
    as (r1 & r2 & H1 & H2 & _).
  - reflexivity.
  - reflexivity.
  - vm_compute. reflexivity.
  - vm_compute. reflexivity.
  - exists r1, r2. split; assumption.
Defined.

(** ** The detector: loading the model *)

Lemma load_model_spec (env : load_env) (self : Detector.WeaponDetector) :
  result_of (load_model env self) = Ret ()
  /\ Detector.model (state_of (load_model env self)) = model_comes_up env
  /\ Detector.model_loaded (state_of (load_model env self))
     = bool_decide (is_Some (model_comes_up env))
  /\ Detector.confidence_threshold (state_of (load_model env self))
     = Detector.confidence_threshold self
  /\ Detector.device (state_of (load_model env self)) = Detector.device self
  /\ Detector.model_path (state_of (load_model env self))
     = Detector.model_path self
  /\ Detector.total_detections (state_of (load_model env self))
     = Detector.total_detections self
  /\ Detector.frame_count (state_of (load_model env self))
     = Detector.frame_count self
  /\ Detector.error_count (state_of (load_model env self))
     = Detector.error_count self.
Proof.
  unfold load_model, model_comes_up, logger, try_except, bind, ret, emit,
    lift, modify, result_of, state_of.
  destruct (model_exists env) as [[|]|e0]; cbn;
    [|repeat split ..].
  destruct (yolo env) as [m|e1]; cbn; [|repeat split].
  destruct (to_device env) as [[]|e2]; cbn; [|repeat split].
  destruct (Detector.names m) as [d|]; cbn; [|repeat split].
  destruct (names_values env) as [l|e3]; cbn; repeat split.
Qed.

(** [load_model] never raises.  Afterwards [model_loaded] is true exactly
    when a model is held, and a model is held exactly when the file exists,
    [YOLO(...)] and [.to(device)] returned and the names could be listed;
    the counters and the threshold are not touched. *)
Theorem load_model_loads_or_clears
    (env : load_env) (self : Detector.WeaponDetector) :
  let self' := state_of (load_model env self) in
  result_of (load_model env self) = Ret ()
  /\ Detector.model self' = model_comes_up env
  /\ Detector.model_loaded self' = bool_decide (is_Some (model_comes_up env))
  /\ (Detector.model_loaded self' = true <-> is_Some (Detector.model self'))
  /\ Detector.confidence_threshold self' = Detector.confidence_threshold self
  /\ Detector.total_detections self' = Detector.total_detections self
  /\ Detector.frame_count self' = Detector.frame_count self
  /\ Detector.error_count self' = Detector.error_count self.
Proof.
  intros self'. subst self'.
  destruct (load_model_spec env self)
    as (H1 & H2 & H3 & H4 & _ & _ & H5 & H6 & H7).
  repeat (split; [assumption|]).
  split; [|auto].
  rewrite H2, H3. apply bool_decide_eq_true.
Qed.

(** ** The detector: construction *)

Lemma new_detector_spec (path : string) (c0 : Q) (env : load_env) :
  exists self,
    new_detector path c0 env = Ret self
    /\ Detector.confidence_threshold self
       = (if out_of_unit_range c0 then (1 # 2)%Q else c0)
    /\ Detector.model self = model_comes_up env
    /\ Detector.model_loaded self = bool_decide (is_Some (model_comes_up env))
    /\ Detector.class_names self = ["pistol"; "knife"]
    /\ Detector.colors self = Detector.default_colors
    /\ Detector.device self = "cpu"
    /\ Detector.total_detections self = 0%nat
    /\ Detector.frame_count self = 0%nat
    /\ Detector.error_count self = 0%nat.
Proof.
  unfold new_detector, detector_init, bind, ret, modify, logger, emit.
  destruct (out_of_unit_range c0); cbn -[load_model];
    match goal with
    | |- context [load_model env ?s0] =>
        destruct (load_model_spec env s0) as (Hr & Hm & Hl & Hc & Hd & _);
        unfold result_of, state_of in *;
        destruct (load_model env s0) as [[r s2] evs2]
    end;
    cbn in *; subst r; cbn; eexists; repeat split; assumption.
Qed.

(** Construction never fails, and the stored confidence threshold lies
    between 0 and 1: a threshold in that range is stored as given, any other
    is replaced by 0.5. *)
Theorem detector_threshold_is_clamped
    (path : string) (c0 : Q) (env : load_env) :
  exists self,
    new_detector path c0 env = Ret self
    /\ (0 <= Detector.confidence_threshold self <= 1)%Q
    /\ ((0 <= c0 <= 1)%Q -> Detector.confidence_threshold self = c0)
    /\ ((c0 < 0 \/ 1 < c0)%Q -> Detector.confidence_threshold self = (1 # 2)%Q).
Proof.
  destruct (new_detector_spec path c0 env) as (self & E & Hc & _).
  exists self. split; [exact E|]. rewrite Hc. unfold out_of_unit_range.
  destruct (Qle_bool 0 c0) eqn:H0; destruct (Qle_bool c0 1) eqn:H1; cbn;
    rewrite ?Qle_bool_iff in *; rewrite ?Qle_bool_false in *;
    repeat split; try lra; intros; try reflexivity; lra.
Qed.

Lemma detector_threshold_is_clamped_witness :
  exists self,
    new_detector "../models/weights/best.pt" (3 # 2) no_weights = Ret self
    /\ Detector.confidence_threshold self = (1 # 2)%Q.
Proof.
  destruct (detector_threshold_is_clamped "../models/weights/best.pt" (3 # 2)
              no_weights) as (self & E & _ & _ & Hout).
  exists self. split; [exact E|]. apply Hout. right. reflexivity.
Defined.

(** [__init__] calls [load_model], which takes the class names from the
    model, and then assigns the two default names: after construction
    [class_names] is [pistol, knife] whatever names the model has.  A later
    call of [load_model] that succeeds on a model with names does store the
    model's names. *)
Theorem construction_resets_class_names
    (path : string) (c0 : Q) (env env' : load_env) :
  exists self,
    new_detector path c0 env = Ret self
    /\ Detector.class_names self = ["pistol"; "knife"]
    /\ (forall m l,
          model_comes_up env' = Some m -> is_Some (Detector.names m) ->
          names_values env' = Ret l ->
          Detector.class_names (state_of (load_model env' self)) = l).
Proof.
  destruct (new_detector_spec path c0 env) as (self & E & _ & _ & _ & Hn & _).
  exists self. split; [exact E|]. split; [exact Hn|].
  intros m l Hm [d Hd] Hl.
  unfold model_comes_up in Hm.
  unfold load_model, logger, try_except, bind, ret, emit, lift, modify, state_of.
  destruct (model_exists env') as [[|]|e0]; try discriminate.
  destruct (yolo env') as [m'|e1]; try discriminate.
  destruct (to_device env') as [[]|e2]; try discriminate.
  rewrite Hl in *. cbn in *.
  destruct (Detector.names m') as [d'|] eqn:Hd'.
  - reflexivity.
  - injection Hm as ->. congruence.
Qed.

Lemma construction_resets_class_names_witness :
  exists self,
    new_detector "../models/weights/best.pt" (9 # 10) three_class_weights = Ret self
    /\ Detector.class_names self = ["pistol"; "knife"]
    /\ Detector.class_names (state_of (load_model three_class_weights self))
       = ["gun"; "blade"; "rifle"].
Proof.
  destruct (construction_resets_class_names "../models/weights/best.pt" (9 # 10)
              three_class_weights three_class_weights)
    as (self & E & Hn & Hl).
  exists self. split; [exact E|]. split; [exact Hn|].
  eapply Hl.
  - reflexivity.
  - eexists. reflexivity.
  - reflexivity.
Defined.

(** ** The detector: what one [detect] call does *)

(** Composition rules for [within], for a relation that is reflexive and
    transitive. *)
Section Within.
Context {S : Type} (R : S -> S -> Prop).
Hypothesis R_refl : forall s, R s s.
Hypothesis R_trans : forall a b c, R a b -> R b c -> R a c.

Lemma within_ret {A} (a : A) : within R (ret a).
Proof. intros s. apply R_refl. Qed.

Lemma within_lift {A} (o : outcome A) : within R (lift o).
Proof. intros s. apply R_refl. Qed.

Lemma within_get : within R get.
Proof. intros s. apply R_refl. Qed.

Lemma within_emit (e : event) : within R (emit e).
Proof. intros s. apply R_refl. Qed.

Lemma within_modify (g : S -> S) : (forall s, R s (g s)) -> within R (modify g).
Proof. intros H s. apply H. Qed.

Lemma within_bind {A B} (m : M A) (k : A -> M B) :
  within R m -> (forall a, within R (k a)) -> within R (bind m k).
Proof.
  intros Hm Hk s. specialize (Hm s). unfold bind, state_of in *.
  destruct (m s) as [[[a|e] s1] evs1]; cbn in *; [|exact Hm].
  specialize (Hk a s1). unfold state_of in Hk.
  destruct (k a s1) as [[r s2] evs2]. cbn in *. eapply R_trans; eassumption.
Qed.

Lemma within_try_except {A} (m : M A) (h : exn -> M A) :
  within R m -> (forall e, within R (h e)) -> within R (try_except m h).
Proof.
  intros Hm Hh s. specialize (Hm s). unfold try_except, state_of in *.
  destruct (m s) as [[[a|e] s1] evs1]; cbn in *; [exact Hm|].
  specialize (Hh e s1). unfold state_of in Hh.
  destruct (h e s1) as [[r s2] evs2]. cbn in *. eapply R_trans; eassumption.
Qed.

Lemma within_for_each {A} (l : list A) (k : A -> M unit) :
  (forall a, within R (k a)) -> within R (Detector.for_each l k).
Proof.
  intros Hk. induction l as [|x l IH]; simpl.
  - apply within_ret.
  - apply within_bind; [apply Hk|]. intros _. exact IH.
Qed.
End Within.

Lemma grows_refl st : grows st st.
Proof.
  exists [], []. rewrite !app_nil_r. simpl. repeat split; lia.
Qed.

Lemma grows_trans a b c : grows a b -> grows b c -> grows a c.
Proof.
  intros (ds1 & cs1 & Hd1 & Hc1 & Hl1 & Ht1 & Hf1 & He1 & Hm1 & Hml1 & Hn1)
         (ds2 & cs2 & Hd2 & Hc2 & Hl2 & Ht2 & Hf2 & He2 & Hm2 & Hml2 & Hn2).
  exists (ds1 ++ ds2), (cs1 ++ cs2).
  rewrite Hd2, Hd1, Hc2, Hc1, !length_app, <- !app_assoc.
  repeat split; try congruence; lia.
Qed.

(** Lines 184-186: the name, the score and the count go together. *)
Lemma within_grows_append {A} class_name confidence
    (k : M (S:=Detector.WeaponDetector * Detector.locals) A) :
  within grows k ->
  within grows
    (Detector.on_locals (Detector.append_detection class_name confidence) ;;;
     Detector.on_self Detector.add_total_detections ;;;
     k).
Proof.
  intros Hk st.
  unfold bind, Detector.on_locals, Detector.on_self, modify, state_of.
  cbn. specialize (Hk (Detector.add_total_detections st.1,
                       Detector.append_detection class_name confidence st.2)).
  unfold state_of in Hk.
  destruct (k _) as [[r s2] evs2]. cbn in *.
  eapply grows_trans; [|exact Hk].
  exists [class_name], [confidence]. destruct st as [self l]. cbn.
  repeat split.
Qed.

Ltac grows_step :=
  first
    [ apply (within_ret grows grows_refl)
    | apply (within_lift grows grows_refl)
    | apply (within_get grows grows_refl)
    | apply (within_emit grows grows_refl)
    | apply within_grows_append
    | apply (within_modify grows);
      intros [? ?]; exists [], []; cbn; rewrite !app_nil_r;
      repeat split; lia
    | apply (within_for_each grows grows_refl grows_trans); intros ?
    | apply (within_bind grows grows_trans); [|intros ?]
    | apply (within_try_except grows grows_trans); [|intros ?]
    | match goal with
      | |- within _ (let '(_, _) := ?x in _) => destruct x
      | |- within _ (if ?b then _ else _) => destruct b
      | |- within _ (match ?x with Some _ => _ | None => _ end) => destruct x
      end ].

Lemma annotate_grows cv frame env : within grows (Detector.annotate cv frame env).
Proof.
  unfold Detector.annotate, Detector.process_result, Detector.process_box,
    Detector.draw, logger.
  repeat grows_step.
Qed.

(** What the [try] block returns is what its locals hold when it ends. *)
Lemma annotate_result cv frame env st f d c h :
  result_of (Detector.annotate cv frame env st) = Ret (f, d, c, h) ->
  let st' := state_of (Detector.annotate cv frame env st) in
  f = Detector.annotated_frame st'.2
  /\ d = Detector.detections st'.2
  /\ c = Detector.confidence_scores st'.2
  /\ h = Detector.has_detection st'.2.
Proof.
  unfold Detector.annotate, Detector.draw, Detector.on_locals.
  unfold bind, get, ret, lift, modify, result_of, state_of.
  destruct (Detector.inference env) as [results|e]; cbn; [|discriminate].
  destruct (Detector.for_each results _ st) as [[[[]|e] st1] evs1]; cbn;
    [|discriminate].
  destruct (Detector.has_detection st1.2) eqn:Hh; cbn.
  - destruct (Detector.shape_hw _) as [[hh ww]|e]; cbn; [|discriminate].
    destruct (Detector.rectangle cv _ _ _ _ _) as [a'|e]; cbn; [|discriminate].
    intros H. injection H as <- <- <- <-. rewrite Hh. auto.
  - intros H. injection H as <- <- <- <-. rewrite Hh. auto.
Qed.

Lemma state_of_try_logger {S A} (m : M (S:=S) A) (k : M (S:=S) A) (s : S) :
  (forall s1, state_of (k s1) = s1) ->
  state_of (try_except m (fun _ => k) s) = state_of (m s).
Proof.
  intros Hk. unfold try_except, state_of in *.
  destruct (m s) as [[[a|e] s1] evs1]; cbn; [reflexivity|].
  specialize (Hk s1). destruct (k s1) as [[r s2] evs2]. exact Hk.
Qed.

(** Inside one box nothing writes [has_detection]. *)
Lemma process_boxes_keep_flag cv frame (bs : list Detector.yolo_box) :
  keeps (fun st : Detector.WeaponDetector * Detector.locals =>
           Detector.has_detection st.2)
        (Detector.for_each bs (fun box =>
           try_except (Detector.process_box cv frame box)
                      (fun box_error => logger ERROR))).
Proof.
  unfold Detector.process_box, Detector.draw, Detector.on_self,
    Detector.on_locals, logger.
  repeat keeps_step.
Qed.

Lemma process_result_state cv frame (r : Detector.yolo_result) st :
  state_of (Detector.process_result cv frame r st) =
    match Detector.boxes r with
    | Ret (Some bs) =>
        if (length bs =? 0)%nat then st
        else state_of
               (Detector.for_each bs (fun box =>
                  try_except (Detector.process_box cv frame box)
                             (fun box_error => logger ERROR))
                  (st.1, Detector.set_has_detection true st.2))
    | _ => st
    end.
Proof.
  unfold Detector.process_result.
  rewrite state_of_try_logger by reflexivity.
  unfold bind at 1, lift.
  destruct (Detector.boxes r) as [[bs|]|e]; [|reflexivity ..].
  destruct (length bs =? 0)%nat; [reflexivity|].
  unfold bind, Detector.on_locals, modify, state_of. cbn.
  destruct (Detector.for_each bs _ _) as [[r' s2] evs2]. reflexivity.
Qed.

(** One result either changes nothing or leaves [has_detection] set. *)
Lemma process_result_quiet cv frame (r : Detector.yolo_result) st :
  state_of (Detector.process_result cv frame r st) = st
  \/ Detector.has_detection (state_of (Detector.process_result cv frame r st)).2
     = true.
Proof.
  rewrite process_result_state.
  destruct (Detector.boxes r) as [[bs|]|e]; [|left; reflexivity ..].
  destruct (length bs =? 0)%nat; [left; reflexivity|].
  right.
  apply (process_boxes_keep_flag cv frame bs
           (st.1, Detector.set_has_detection true st.2)).
Qed.

Lemma process_results_quiet cv frame (rs : list Detector.yolo_result) : forall st,
  state_of (Detector.for_each rs (Detector.process_result cv frame) st) = st
  \/ Detector.has_detection
       (state_of (Detector.for_each rs (Detector.process_result cv frame) st)).2
     = true.
Proof.
  induction rs as [|r rs IH]; intros st; [left; reflexivity|].
  cbn [Detector.for_each]. unfold bind.
  destruct (process_result_quiet cv frame r st) as [H1|H1];
    unfold state_of in *;
    destruct (Detector.process_result cv frame r st) as [[[[]|e] s1] evs1];
    cbn in *.
  - subst s1. specialize (IH st).
    destruct (Detector.for_each rs _ st) as [[r' s2] evs2]. exact IH.
  - left. exact H1.
  - specialize (IH s1).
    assert (Hmono : Detector.has_detection
              (Detector.for_each rs (Detector.process_result cv frame) s1).1.2.2
              = true).
    { destruct IH as [IH|IH]; [rewrite IH; exact H1|exact IH]. }
    destruct (Detector.for_each rs _ s1) as [[r' s2] evs2]. right. exact Hmono.
  - right. exact H1.
Qed.

(** When the [try] block returns with [has_detection] false, the locals are
    as they were when it started. *)
Lemma annotate_quiet cv frame env st f d c :
  result_of (Detector.annotate cv frame env st) = Ret (f, d, c, false) ->
  f = Detector.annotated_frame st.2
  /\ d = Detector.detections st.2
  /\ c = Detector.confidence_scores st.2.
Proof.
  unfold Detector.annotate, Detector.draw, Detector.on_locals.
  unfold bind, get, ret, lift, modify, result_of.
  destruct (Detector.inference env) as [results|e]; cbn; [|discriminate].
  pose proof (process_results_quiet cv frame results st) as Hq.
  unfold state_of in Hq.
  destruct (Detector.for_each results _ st) as [[[[]|e] st1] evs1]; cbn in *;
    [|discriminate].
  destruct (Detector.has_detection st1.2) eqn:Hh; cbn.
  - destruct (Detector.shape_hw _) as [[hh ww]|e]; cbn; [|discriminate].
    destruct (Detector.rectangle cv _ _ _ _ _) as [a'|e]; cbn; [|discriminate].
    rewrite Hh. discriminate.
  - destruct Hq as [->|Hq]; [|congruence].
    intros H. injection H as <- <- <-. auto.
Qed.

(** The three ways a [detect] call can go. *)
Lemma detect_cases cv frame env (self : Detector.WeaponDetector) :
  (reaches_model frame self = false /\
   exists f0 lvl,
     Detector.detect cv frame env self = (Ret (f0, [], [], false), self, [EvLog lvl])
     /\ (forall a, frame = PyArray a -> size a <> 0%nat -> f0 = a))
  \/
  (reaches_model frame self = true /\
   exists a, frame = PyArray a /\
   let st0 := (Detector.add_frame_count self, Detector.fresh_locals a) in
   ((exists x st1 evs,
       Detector.annotate cv a env st0 = (Ret x, st1, evs)
       /\ Detector.detect cv frame env self = (Ret x, st1.1, evs))
    \/
    (exists e st1 evs,
       Detector.annotate cv a env st0 = (Raise e, st1, evs)
       /\ Detector.detect cv frame env self
          = (Ret (a, [], [], false), Detector.add_error_count st1.1,
             evs ++ [EvLog ERROR])))).
Proof.
  destruct frame as [|repr|a].
  - left. split; [reflexivity|]. eexists _, _. split; [reflexivity|].
    intros a H; discriminate.
  - left. split; [reflexivity|]. eexists _, _. split; [reflexivity|].
    intros a H; discriminate.
  - unfold reaches_model.
    destruct (Nat.eqb_spec (size a) 0) as [Hz|Hz]; cbn [negb andb].
    + left. split; [reflexivity|]. unfold Detector.detect.
      rewrite (proj2 (Nat.eqb_eq _ _) Hz).
      eexists _, _. split; [reflexivity|].
      intros a' H Hs. injection H as <-. contradiction.
    + destruct (Detector.model_loaded self) eqn:Hl; cbn [andb].
      * destruct (bool_decide (is_Some (Detector.model self))) eqn:Hm.
        -- right. split; [reflexivity|]. exists a. split; [reflexivity|].
           apply bool_decide_eq_true in Hm.
           rewrite detect_loaded by assumption.
           unfold Detector.with_locals, Detector.infer_and_annotate, try_except.
           cbv zeta.
           destruct (Detector.annotate cv a env _) as [[[x|e] [self1 l1]] evs].
           ++ left. eexists _, _, _. split; reflexivity.
           ++ right. eexists _, _, _. split; reflexivity.
        -- left. split; [reflexivity|]. unfold Detector.detect.
           rewrite (proj2 (Nat.eqb_neq _ _) Hz).
           unfold bind at 1, get. rewrite Hl, Hm. cbn.
           eexists _, _. split; [reflexivity|].
           intros a' H _. injection H as <-. reflexivity.
      * left. split; [reflexivity|]. unfold Detector.detect.
        rewrite (proj2 (Nat.eqb_neq _ _) Hz).
        unfold bind at 1, get. rewrite Hl. cbn.
        eexists _, _. split; [reflexivity|].
        intros a' H _. injection H as <-. reflexivity.
Qed.

(** When [detect] reports no detection, it reports no names and no scores,
    and (for a frame that passed the checks) the frame it returns is the
    frame it was given, without any drawing.  Put the other way round: a
    result that names a detection has [has_detection] set. *)
Theorem quiet_frames_come_back_untouched
    (cv : Detector.cv2_api) (frame : py_frame) (env : Detector.detect_env)
    (self : Detector.WeaponDetector) f d c h :
  result_of (Detector.detect cv frame env self) = Ret (f, d, c, h) ->
  (h = false ->
     d = [] /\ c = []
     /\ (forall a, frame = PyArray a -> size a <> 0%nat -> f = a))
  /\ (d <> [] -> h = true).
Proof.
  intros H.
  assert (Hq : h = false ->
     d = [] /\ c = []
     /\ (forall a, frame = PyArray a -> size a <> 0%nat -> f = a)).
  { intros ->.
    destruct (detect_cases cv frame env self)
      as [(_ & f0 & lvl & E & Hf)
         |(_ & a & -> & [(x & st1 & evs & Ea & E)|(e & st1 & evs & Ea & E)])];
      rewrite E in H; unfold result_of in H; cbn in H.
    - injection H as <- <- <-. auto.
    - injection H as ->.
      pose proof (annotate_quiet cv a env
                    (Detector.add_frame_count self, Detector.fresh_locals a)
                    f d c) as Hqa.
      rewrite Ea in Hqa. destruct (Hqa eq_refl) as (-> & -> & ->).
      repeat split. intros a' Ha' _. injection Ha' as <-. reflexivity.
    - injection H as <- <- <-.
      repeat split. intros a' Ha' _. injection Ha' as <-. reflexivity. }
  split; [exact Hq|].
  intros Hd. destruct h; [reflexivity|].
  destruct (Hq eq_refl) as (-> & _). contradiction.
Qed.

Lemma quiet_frames_come_back_untouched_witness :
  ([] : list string) = [] /\ ([] : list Q) = [] /\ pixel = pixel.
Proof.
  destruct (proj1 (quiet_frames_come_back_untouched
                     Detector.plain_cv (PyArray pixel) nothing_found
                     Detector.loaded_detector pixel [] [] false eq_refl) eq_refl)
    as (H1 & H2 & H3).
  split; [exact H1|]. split; [exact H2|].
  apply H3; [reflexivity|discriminate].
Defined.

(** One [detect] call, from the object before to the object after. *)
Lemma detect_step
    (cv : Detector.cv2_api) (frame : py_frame) (env : Detector.detect_env)
    (self : Detector.WeaponDetector) :
  exists f d c h self' evs,
    Detector.detect cv frame env self = (Ret (f, d, c, h), self', evs)
    /\ length d = length c
    /\ Detector.frame_count self'
       = (Detector.frame_count self + if reaches_model frame self then 1 else 0)%nat
    /\ (Detector.error_count self' = Detector.error_count self
        \/ (Detector.error_count self' = (Detector.error_count self + 1)%nat
            /\ d = [] /\ h = false))
    /\ (Detector.total_detections self + length d
          <= Detector.total_detections self')%nat
    /\ (Detector.error_count self' = Detector.error_count self ->
        Detector.total_detections self'
          = (Detector.total_detections self + length d)%nat)
    /\ Detector.model self' = Detector.model self
    /\ Detector.model_loaded self' = Detector.model_loaded self
    /\ Detector.class_names self' = Detector.class_names self.
Proof.
  destruct (detect_cases cv frame env self)
    as [(Hr & f0 & lvl & E & Hf)
       |(Hr & a & -> & [(x & st1 & evs & Ea & E)|(e & st1 & evs & Ea & E)])];
    rewrite E, Hr.
  - eexists _, _, _, _, _, _. split; [reflexivity|]. simpl.
    repeat split; auto; lia.
  - destruct x as [[[f d] c] h].
    pose proof (annotate_grows cv a env
                  (Detector.add_frame_count self, Detector.fresh_locals a)) as Hg.
    pose proof (annotate_result cv a env
                  (Detector.add_frame_count self, Detector.fresh_locals a)
                  f d c h) as Hres.
    unfold result_of, state_of in *. rewrite Ea in *. cbn in Hg, Hres.
    destruct (Hres eq_refl) as (_ & Hd & Hc & _).
    destruct Hg as (ds & cs & Hds & Hcs & Hl & Ht & Hf & He & Hm & Hml & Hn).
    cbn in *. subst ds cs. rewrite <- Hd, <- Hc in *.
    eexists _, _, _, _, _, _. split; [reflexivity|].
    repeat split; try assumption; lia.
  - pose proof (annotate_grows cv a env
                  (Detector.add_frame_count self, Detector.fresh_locals a)) as Hg.
    unfold state_of in Hg. rewrite Ea in Hg. cbn in Hg.
    destruct Hg as (ds & cs & Hds & Hcs & Hl & Ht & Hf & He & Hm & Hml & Hn).
    cbn in *.
    eexists _, _, _, _, _, _. split; [reflexivity|]. cbn.
    repeat split; try assumption; try lia.
    right. repeat split. lia.
Qed.

(** [error_count] goes up by one when the [try] block of [detect] was
    entered and raised, and stays as it was on every other path; an
    inference call that raises is one way for the block to raise. *)
Lemma detect_error_count
    (cv : Detector.cv2_api) (frame : py_frame) (env : Detector.detect_env)
    (self : Detector.WeaponDetector) :
  Detector.error_count (state_of (Detector.detect cv frame env self))
    = (Detector.error_count self
       + if try_block_fails cv frame env self then 1 else 0)%nat
  /\ (try_block_fails cv frame env self = true ->
      exists a, frame = PyArray a
                /\ result_of (Detector.detect cv frame env self)
                   = Ret (a, [], [], false))
  /\ (forall e, reaches_model frame self = true ->
                Detector.inference env = Raise e ->
                try_block_fails cv frame env self = true).
Proof.
  split; [|split].
  - destruct (detect_cases cv frame env self)
      as [(Hr & f0 & lvl & E & Hf)
         |(Hr & a & -> & [(x & st1 & evs & Ea & E)|(e & st1 & evs & Ea & E)])];
      rewrite E; unfold try_block_fails, result_of, state_of; cbn [fst snd].
    + destruct frame as [|repr|a]; try lia. rewrite Hr. cbn [andb]. lia.
    + rewrite Hr, Ea. cbn [fst snd andb].
      pose proof (annotate_grows cv a env
                    (Detector.add_frame_count self, Detector.fresh_locals a)) as Hg.
      unfold state_of in Hg. rewrite Ea in Hg.
      destruct Hg as (ds & cs & _ & _ & _ & _ & _ & He & _).
      cbn in He. rewrite He. lia.
    + rewrite Hr, Ea. cbn [fst snd andb].
      pose proof (annotate_grows cv a env
                    (Detector.add_frame_count self, Detector.fresh_locals a)) as Hg.
      unfold state_of in Hg. rewrite Ea in Hg.
      destruct Hg as (ds & cs & _ & _ & _ & _ & _ & He & _).
      cbn in He |- *. rewrite He. reflexivity.
  - intros Hfail. unfold try_block_fails in Hfail.
    destruct frame as [|repr|a]; try discriminate.
    apply andb_true_iff in Hfail as [Hr Hraise].
    exists a. split; [reflexivity|].
    destruct (detect_cases cv (PyArray a) env self)
      as [(Hr' & _)
         |(_ & a' & [= <-] & [(x & st1 & evs & Ea & E)|(e & st1 & evs & Ea & E)])].
    + congruence.
    + unfold result_of in Hraise. rewrite Ea in Hraise. discriminate.
    + rewrite E. reflexivity.
  - intros e Hr He. unfold try_block_fails.
    destruct frame as [|repr|a]; try discriminate.
    rewrite Hr. cbn [andb].
    unfold Detector.annotate, bind, lift, result_of. rewrite He. reflexivity.
Qed.

(** The names and the scores [detect] returns pair up, and the counters
    follow what it did.  [frame_count] goes up by one exactly when the call
    reached the model.  [error_count] goes up by one exactly when the [try]
    block was entered and raised (as it does when the inference call
    raises), and then nothing is reported; on every other path it stays as
    it was.  [total_detections] never goes down; when no error was counted
    it went up by exactly the number of names returned (after an error it
    keeps the boxes counted before the failure).  The model, [model_loaded]
    and [class_names] are not written. *)
Theorem detect_counts_what_it_returns
    (cv : Detector.cv2_api) (frame : py_frame) (env : Detector.detect_env)
    (self : Detector.WeaponDetector) f d c h :
  result_of (Detector.detect cv frame env self) = Ret (f, d, c, h) ->
  let self' := state_of (Detector.detect cv frame env self) in
  length d = length c
  /\ Detector.frame_count self'
     = (Detector.frame_count self + if reaches_model frame self then 1 else 0)%nat
  /\ Detector.error_count self'
     = (Detector.error_count self
        + if try_block_fails cv frame env self then 1 else 0)%nat
  /\ (try_block_fails cv frame env self = true ->
      d = [] /\ c = [] /\ h = false /\ frame = PyArray f)
  /\ (forall e, reaches_model frame self = true ->
                Detector.inference env = Raise e ->
                try_block_fails cv frame env self = true)
  /\ (Detector.total_detections self + length d
        <= Detector.total_detections self')%nat
  /\ (try_block_fails cv frame env self = false ->
      Detector.total_detections self'
        = (Detector.total_detections self + length d)%nat)
  /\ Detector.model self' = Detector.model self
  /\ Detector.model_loaded self' = Detector.model_loaded self
  /\ Detector.class_names self' = Detector.class_names self.
Proof.
  intros H self'. subst self'.
  destruct (detect_error_count cv frame env self) as (Herr & Hfail & Hinf).
  destruct (detect_step cv frame env self)
    as (f' & d' & c' & h' & self' & evs & E & Hlen & Hfc & _ & Htot & Hexact
        & Hm & Hml & Hcn).
  rewrite E in *. unfold result_of, state_of in *. cbn [fst snd] in *.
  injection H as <- <- <- <-.
  split; [exact Hlen|]. split; [exact Hfc|]. split; [exact Herr|].
  split.
  { intros Ht. destruct (Hfail Ht) as (a & -> & [= -> -> -> ->]). auto. }
  split; [exact Hinf|]. split; [exact Htot|].
  split; [|auto].
  intros Ht. apply Hexact. rewrite Herr, Ht. lia.
Qed.

Lemma detect_counts_what_it_returns_witness :
  Detector.error_count
    (state_of (Detector.detect Detector.plain_cv (PyArray pixel)
                 Detector.failing_inference Detector.loaded_detector)) = 1%nat
  /\ Detector.frame_count
       (state_of (Detector.detect Detector.plain_cv (PyArray pixel)
                    Detector.failing_inference Detector.loaded_detector)) = 1%nat.
Proof.
  destruct (detect_counts_what_it_returns
              Detector.plain_cv (PyArray pixel) Detector.failing_inference
              Detector.loaded_detector pixel [] [] false)
    as (_ & Hf & He & _ & Hinf & _).
  - vm_compute. reflexivity.
  - split.
    + rewrite He.
      rewrite (Hinf (Exception "RuntimeError")) by reflexivity. reflexivity.
    + rewrite Hf. reflexivity.
Defined.

(** ** The detector: a model that did not load *)

(** A detector constructed on a machine where the model did not come up
    (no file, or loading failed) reports nothing, for every frame and every
    later call: [detect] returns no names, no scores and [has_detection =
    False], the frame it was given when that passed the checks, and leaves
    the object, counters included, exactly as it was. *)
Theorem detector_without_model_reports_nothing
    (path : string) (c0 : Q) (lenv : load_env) (self : Detector.WeaponDetector)
    (cv : Detector.cv2_api) (frame : py_frame) (env : Detector.detect_env) :
  new_detector path c0 lenv = Ret self ->
  model_comes_up lenv = None ->
  exists f lvl,
    Detector.detect cv frame env self = (Ret (f, [], [], false), self, [EvLog lvl])
    /\ (forall a, frame = PyArray a -> size a <> 0%nat -> f = a).
Proof.
  intros Hnew Hup.
  destruct (new_detector_spec path c0 lenv) as (self0 & E & _ & _ & Hl & _).
  rewrite E in Hnew. injection Hnew as <-.
  rewrite Hup in Hl.
  destruct (detect_cases cv frame env self0)
    as [(_ & f0 & lvl & Ed & Hf)|(Hr & a & -> & _)].
  - exists f0, lvl. split; assumption.
  - unfold reaches_model in Hr. rewrite Hl in Hr.
    rewrite andb_false_r in Hr. discriminate.
Qed.

Lemma detector_without_model_reports_nothing_witness :
  exists self f,
    new_detector "../models/weights/best.pt" (9 # 10) no_weights = Ret self
    /\ result_of (Detector.detect Detector.plain_cv (PyArray pixel)
                    Detector.one_pistol self) = Ret (f, [], [], false).
Proof.
  destruct (new_detector_spec "../models/weights/best.pt" (9 # 10) no_weights)
    as (self & E & _).
  destruct (detector_without_model_reports_nothing
              "../models/weights/best.pt" (9 # 10) no_weights self
              Detector.plain_cv (PyArray pixel) Detector.one_pistol E eq_refl)
    as (f & lvl & Ed & _).
  exists self, f. split; [exact E|]. rewrite Ed. reflexivity.
Defined.

(** ** The detector: naming a class *)

(** How lines 176-181 name a class id.  A name in the model's own table
    wins.  Otherwise an id from 0 up to the number of default names takes
    the default name at that index, and an id at or beyond that number
    becomes [Object_<id>].  A negative id passes the test of line 178 and
    indexes [class_names] from the end; below minus the number of names the
    index raises, which the handler of the box catches. *)
Theorem class_name_of_by_cases
    (self : Detector.WeaponDetector) (class_id : Z) :
  let n := Z.of_nat (length (Detector.class_names self)) in
  (forall name, Detector.model_name self class_id = Some name ->
     Detector.class_name_of self class_id = Ret name)
  /\ (Detector.model_name self class_id = None ->
      ((n <= class_id)%Z ->
         Detector.class_name_of self class_id
           = Ret (String.append "Object_" (pretty class_id)))
      /\ (forall name, (0 <= class_id < n)%Z ->
            Detector.class_names self !! Z.to_nat class_id = Some name ->
            Detector.class_name_of self class_id = Ret name)
      /\ (forall name, (- n <= class_id < 0)%Z ->
            Detector.class_names self !! Z.to_nat (class_id + n) = Some name ->
            Detector.class_name_of self class_id = Ret name)
      /\ ((class_id < - n)%Z ->
            Detector.class_name_of self class_id
              = Raise (Exception "IndexError"))).
Proof.
  intros n. subst n. unfold Detector.class_name_of. split.
  - intros name ->. reflexivity.
  - intros ->. unfold py_index. repeat split.
    + intros H. destruct (Z.ltb_spec class_id
                            (Z.of_nat (length (Detector.class_names self))));
        [lia|reflexivity].
    + intros name H Hn.
      destruct (Z.ltb_spec class_id
                  (Z.of_nat (length (Detector.class_names self)))); [|lia].
      destruct (Z.ltb_spec class_id 0); [lia|].
      destruct (Z.leb_spec 0 class_id); [|lia]. rewrite Hn. reflexivity.
    + intros name H Hn.
      destruct (Z.ltb_spec class_id
                  (Z.of_nat (length (Detector.class_names self)))); [|lia].
      destruct (Z.ltb_spec class_id 0); [|lia].
      destruct (Z.leb_spec 0 (class_id
                  + Z.of_nat (length (Detector.class_names self)))); [|lia].
      rewrite Hn. reflexivity.
    + intros H.
      destruct (Z.ltb_spec class_id
                  (Z.of_nat (length (Detector.class_names self)))); [|lia].
      destruct (Z.ltb_spec class_id 0); [|lia].
      destruct (Z.leb_spec 0 (class_id
                  + Z.of_nat (length (Detector.class_names self)))); [lia|].
      reflexivity.
Qed.

Lemma class_name_of_by_cases_witness :
  Detector.class_name_of
    (set_model (Some {| Detector.names := None |}) Detector.loaded_detector) (-1)
    = Ret "knife".
Proof.
  refine (proj1 (proj2 (proj2 (proj2 (class_name_of_by_cases
            (set_model (Some {| Detector.names := None |}) Detector.loaded_detector)
            (-1)) eq_refl))) "knife" _ _).
  - simpl. lia.
  - reflexivity.
Defined.

(** ** The detector: statistics over a run *)

(** A run of [detect] calls, from the object before to the object after. *)
Lemma detect_all_run
    (cv : Detector.cv2_api) (inputs : list (py_frame * Detector.detect_env)) :
  forall self : Detector.WeaponDetector,
  exists rs self' evs,
    detect_all cv inputs self = (Ret rs, self', evs)
    /\ length rs = length inputs
    /\ Detector.frame_count self'
       = (Detector.frame_count self + frames_reaching_model self inputs)%nat
    /\ (Detector.error_count self <= Detector.error_count self'
          <= Detector.error_count self + length inputs)%nat
    /\ (Detector.total_detections self + names_reported rs
          <= Detector.total_detections self')%nat
    /\ (Detector.error_count self' = Detector.error_count self ->
        Detector.total_detections self'
          = (Detector.total_detections self + names_reported rs)%nat).
Proof.
  induction inputs as [|[frame env] rest IH]; intros self.
  - exists [], self, []. split; [reflexivity|]. cbn. repeat split; lia.
  - destruct (detect_step cv frame env self)
      as (f & d & c & h & self1 & evs & E & Hlen & Hfc & Herr & Hle & Heq
          & Hm & Hml & Hn).
    destruct (IH self1) as (rs & self2 & evs2 & E2 & Hlrs & Hf' & He' & Hle' & Heq').
    assert (Hreach : frames_reaching_model self1 rest
                     = frames_reaching_model self rest).
    { clear -Hm Hml. induction rest as [|[fr en] rest IHr]; [reflexivity|].
      simpl. rewrite IHr. unfold reaches_model. rewrite Hm, Hml. reflexivity. }
    cbn [detect_all]. unfold bind, ret. rewrite E, E2.
    exists ((f, d, c, h) :: rs), self2, (evs ++ evs2 ++ []).
    split; [reflexivity|]. rewrite Hreach in Hf'. cbn.
    repeat split; lia.
Qed.

(** Over any run of [detect] calls no call raises and there is one result
    per frame.  [get_stats] then reports as frames processed the earlier
    count plus the number of frames that reached the model, and, when no
    error was counted during the run, as total detections the earlier count
    plus the number of names in the results returned.  [error_count] never
    goes down and goes up by at most one per frame. *)
Theorem statistics_follow_the_results
    (cv : Detector.cv2_api) (inputs : list (py_frame * Detector.detect_env))
    (self : Detector.WeaponDetector) :
  exists rs,
    result_of (detect_all cv inputs self) = Ret rs
    /\ length rs = length inputs
    /\ let self' := state_of (detect_all cv inputs self) in
       exists st,
         result_of (get_stats self') = Ret st
         /\ stats_frames_processed st
            = (Detector.frame_count self + frames_reaching_model self inputs)%nat
         /\ (Detector.error_count self <= Detector.error_count self'
               <= Detector.error_count self + length inputs)%nat
         /\ (Detector.total_detections self + names_reported rs
               <= stats_total_detections st)%nat
         /\ (Detector.error_count self' = Detector.error_count self ->
             stats_total_detections st
               = (Detector.total_detections self + names_reported rs)%nat).
Proof.
  destruct (detect_all_run cv inputs self)
    as (rs & self' & evs & E & Hlen & Hf & He & Hle & Heq).
  exists rs. rewrite E. split; [reflexivity|]. split; [exact Hlen|].
  cbn. eexists. split; [reflexivity|]. cbn.
  repeat split; solve [lia | exact Heq].
Qed.

Lemma statistics_follow_the_results_witness :
  exists st,
    result_of (get_stats (state_of (detect_all Detector.plain_cv
                 [(PyArray pixel, Detector.one_pistol); (PyNone, nothing_found);
                  (PyArray pixel, nothing_found)]
                 Detector.loaded_detector))) = Ret st
    /\ stats_frames_processed st = 2%nat.
Proof.
  destruct (statistics_follow_the_results Detector.plain_cv
              [(PyArray pixel, Detector.one_pistol); (PyNone, nothing_found);
               (PyArray pixel, nothing_found)] Detector.loaded_detector)
    as (rs & _ & _ & st & Hst & Hf & _).
  exists st. split; [exact Hst|]. rewrite Hf. reflexivity.
Defined.

(** [reset_stats] sets the two counters that [get_stats] reports to zero
    and nothing else: [error_count] is neither reported nor reset, and the
    model stays loaded.  A run of [detect] calls after a reset is therefore
    reported on its own: frames processed are the frames of that run that
    reached the model, and (when the run counted no error) total detections
    are the names that run returned. *)
Theorem reset_stats_starts_a_new_count
    (cv : Detector.cv2_api) (inputs : list (py_frame * Detector.detect_env))
    (self : Detector.WeaponDetector) :
  let self0 := state_of (reset_stats self) in
  result_of (reset_stats self) = Ret ()
  /\ Detector.error_count self0 = Detector.error_count self
  /\ Detector.model_loaded self0 = Detector.model_loaded self
  /\ Detector.model self0 = Detector.model self
  /\ result_of (get_stats self0)
     = Ret {| stats_total_detections := 0; stats_frames_processed := 0;
              stats_device := Detector.device self |}
  /\ exists rs st,
       result_of (detect_all cv inputs self0) = Ret rs
       /\ result_of (get_stats (state_of (detect_all cv inputs self0))) = Ret st
       /\ stats_frames_processed st = frames_reaching_model self inputs
       /\ (Detector.error_count (state_of (detect_all cv inputs self0))
             = Detector.error_count self ->
           stats_total_detections st = names_reported rs).
Proof.
  intros self0. subst self0.
  change (state_of (reset_stats self))
    with (set_counters 0 0 (Detector.error_count self) self).
  repeat (split; [reflexivity|]).
  destruct (detect_all_run cv inputs
              (set_counters 0 0 (Detector.error_count self) self))
    as (rs & self' & evs & E & Hlen & Hf & He & Hle & Heq).
  exists rs. rewrite E. eexists. split; [reflexivity|]. split; [reflexivity|].
  cbn in *. split.
  - rewrite Hf. clear. induction inputs as [|[fr en] rest IH]; [reflexivity|].
    simpl. rewrite IH. reflexivity.
  - exact Heq.
Qed.

Lemma reset_stats_starts_a_new_count_witness :
  result_of (get_stats (state_of (reset_stats
      (state_of (Detector.detect Detector.plain_cv (PyArray pixel)
                   Detector.one_pistol Detector.loaded_detector)))))
    = Ret {| stats_total_detections := 0; stats_frames_processed := 0;
             stats_device := "cpu" |}.
Proof.
  pose proof (proj1 (proj2 (proj2 (proj2 (proj2
    (reset_stats_starts_a_new_count Detector.plain_cv []
       (state_of (Detector.detect Detector.plain_cv (PyArray pixel)
                    Detector.one_pistol Detector.loaded_detector)))))))) as H.
  cbv zeta in H. rewrite H. vm_compute. reflexivity.
Defined.

(** ** The terminal loop *)

(** The two sub-objects are stepped by their own methods. *)
Lemma keeps_on_detector {A V} (f : Terminal.machine -> V)
    (m : M (S:=Detector.WeaponDetector) A) :
  (forall st d,
     f (Terminal.set_self (Terminal.set_detector d (Terminal.self st)) st) = f st) ->
  keeps f (Terminal.on_detector m).
Proof.
  intros H st. unfold Terminal.on_detector, state_of.
  destruct (m _) as [[r d] evs]. apply H.
Qed.

Lemma keeps_on_alert_system {A V} (f : Terminal.machine -> V)
    (m : M (S:=AlertSystem) A) :
  (forall st a,
     f (Terminal.set_self (Terminal.set_alert_system a (Terminal.self st)) st) = f st) ->
  keeps f (Terminal.on_alert_system m).
Proof.
  intros H st. unfold Terminal.on_alert_system, state_of.
  destruct (m _) as [[r a] evs]. apply H.
Qed.

Ltac tkeeps_step :=
  first
    [ apply keeps_ret | apply keeps_lift | apply keeps_get | apply keeps_emit
    | apply keeps_modify; intros ?; reflexivity
    | apply keeps_on_detector; intros ? ?; reflexivity
    | apply keeps_on_alert_system; intros ? ?; reflexivity
    | apply keeps_for_each; intros ?
    | apply keeps_bind; [|intros ?]
    | match goal with
      | |- keeps _ (let '(_, _) := ?x in _) => destruct x
      | |- keeps _ (if ?b then _ else _) => destruct b
      | |- keeps _ (match ?x with Some _ => _ | None => _ end) => destruct x
      end ].

Ltac tkeeps :=
  unfold Terminal.pass, Terminal.handle_result, Terminal.print;
  repeat tkeeps_step.

Lemma pass_keeps_frame cv it : keeps loop_frame (Terminal.pass cv it).
Proof. tkeeps. Qed.

Lemma loop_keeps_frame cv its : keeps loop_frame (Terminal.loop cv its).
Proof.
  induction its as [|it its IH]; cbn [Terminal.loop].
  - unfold Terminal.print. repeat tkeeps_step.
  - apply keeps_bind; [apply keeps_get|]. intros st.
    destruct (negb _); [apply keeps_ret|].
    apply keeps_bind; [apply pass_keeps_frame|]. intros [|];
      [exact IH|apply keeps_ret].
Qed.

(** The [finally] block: the capture is released and the windows are closed
    before anything can fail, and the only thing that can fail is the
    division of line 136. *)
Lemma summary_run w st :
  Terminal.releases (state_of (Terminal.summary w st))
    = (Terminal.releases st + 1)%nat
  /\ Terminal.windows_closed (state_of (Terminal.summary w st))
     = (Terminal.windows_closed st + 1)%nat
  /\ result_of (Terminal.summary w st)
     = (if Qeq_bool (Terminal.end_clock w - Terminal.start_time st) 0
        then Raise (Exception "ZeroDivisionError") else Ret ())
  /\ Terminal.self (state_of (Terminal.summary w st)) = Terminal.self st
  /\ Terminal.frame_count (state_of (Terminal.summary w st))
     = Terminal.frame_count st
  /\ Terminal.detection_count (state_of (Terminal.summary w st))
     = Terminal.detection_count st
  /\ Terminal.frames_shown (state_of (Terminal.summary w st))
     = Terminal.frames_shown st.
Proof.
  unfold Terminal.summary, Terminal.print, Terminal.on_alert_system,
    get_alert_count, Terminal.py_truediv, with_lock, bind, ret, get, emit,
    lift, modify, result_of, state_of.
  cbn. destruct (Qeq_bool _ 0); cbn; destruct (Terminal.self st); repeat split.
Qed.

Lemma start_not_opened cv w st :
  Terminal.is_opened w = false ->
  Terminal.start cv w st =
    (Ret (),
     Terminal.set_stdout
       (Terminal.stdout st ++
        [Terminal.Text match Terminal.source (Terminal.self st) with
                       | inl _ => "Opening webcam"
                       | inr _ => "Opening RTSP stream"
                       end;
         Terminal.Text "ERROR: Cannot open video source"]) st,
     []).
Proof.
  intros H. unfold Terminal.start, Terminal.print, bind, get, modify.
  rewrite H. destruct (Terminal.source (Terminal.self st)); cbn;
    rewrite <- app_assoc; reflexivity.
Qed.

Lemma start_opened_eq cv w st :
  Terminal.is_opened w = true ->
  Terminal.start cv w st =
    match Terminal.try_except_finally
            (Terminal.loop cv (Terminal.iterations w))
            (Terminal.print (Terminal.Text "Detection interrupted by user (Ctrl+C)"))
            (Terminal.summary w) (armed w st) with
    | (r, s', evs) => (r, s', EvTime (Terminal.start_clock w) :: evs)
    end.
Proof.
  intros H.
  set (X := Terminal.try_except_finally _ _ _ (armed w st)).
  unfold Terminal.start, bind, get. rewrite H. cbn [negb].
  destruct (Terminal.source (Terminal.self st)) eqn:Hs;
    unfold Terminal.print at 1 2 3 4 5 6, modify, emit; cbn;
    rewrite <- !app_assoc; cbn;
    match goal with
    | |- context [Terminal.try_except_finally ?b ?h ?f ?s] =>
        replace (Terminal.try_except_finally b h f s) with X
          by (unfold X, armed; rewrite Hs; reflexivity)
    end;
    destruct X as [[r s'] evs]; reflexivity.
Qed.

Lemma start_opened cv w st :
  Terminal.is_opened w = true ->
  let run := Terminal.try_except_finally
               (Terminal.loop cv (Terminal.iterations w))
               (Terminal.print (Terminal.Text "Detection interrupted by user (Ctrl+C)"))
               (Terminal.summary w) (armed w st) in
  result_of (Terminal.start cv w st) = result_of run
  /\ state_of (Terminal.start cv w st) = state_of run.
Proof.
  intros H run. subst run. rewrite (start_opened_eq cv w st H).
  destruct (Terminal.try_except_finally _ _ _ _) as [[r s'] evs].
  split; reflexivity.
Qed.

(** The state in which the [finally] block starts has the frame of the
    state in which the [try] block started. *)
Lemma try_except_finally_state cv w st0 :
  exists s2,
    loop_frame s2 = loop_frame st0
    /\ pass_view s2
       = pass_view (state_of (Terminal.loop cv (Terminal.iterations w) st0))
    /\ state_of (Terminal.try_except_finally
                   (Terminal.loop cv (Terminal.iterations w))
                   (Terminal.print (Terminal.Text "Detection interrupted by user (Ctrl+C)"))
                   (Terminal.summary w) st0)
       = state_of (Terminal.summary w s2)
    /\ result_of (Terminal.try_except_finally
                    (Terminal.loop cv (Terminal.iterations w))
                    (Terminal.print (Terminal.Text "Detection interrupted by user (Ctrl+C)"))
                    (Terminal.summary w) st0)
       = match result_of (Terminal.summary w s2) with
         | Raise e => Raise e
         | Ret _ =>
             match result_of (Terminal.loop cv (Terminal.iterations w) st0) with
             | Ret _ => Ret ()
             | Raise e =>
                 if Terminal.is_keyboard_interrupt e then Ret () else Raise e
             end
         end.
Proof.
  pose proof (loop_keeps_frame cv (Terminal.iterations w) st0) as Hk.
  unfold Terminal.try_except_finally, result_of, state_of in *.
  destruct (Terminal.loop cv (Terminal.iterations w) st0) as [[[[]|e] s1] evs1];
    cbn [fst snd] in *.
  - exists s1. split; [exact Hk|]. split; [reflexivity|].
    destruct (Terminal.summary w s1) as [[[[]|e'] s3] evs3]; split; reflexivity.
  - destruct (Terminal.is_keyboard_interrupt e).
    + unfold Terminal.print, modify.
      exists (Terminal.set_stdout
                (Terminal.stdout s1 ++
                 [Terminal.Text "Detection interrupted by user (Ctrl+C)"]) s1).
      split; [exact Hk|]. split; [reflexivity|].
      destruct (Terminal.summary w _) as [[[[]|e'] s3] evs3]; split; reflexivity.
    + exists s1. split; [exact Hk|]. split; [reflexivity|].
      destruct (Terminal.summary w s1) as [[[[]|e'] s3] evs3]; split; reflexivity.
Qed.

(** [start] releases the capture and closes the windows exactly once when
    the source opened, on every path: the stream ending, [q], Ctrl+C, or
    any exception out of the loop or out of the summary.  When the source
    did not open it returns at once: nothing is read, shown, counted or
    released. *)
Theorem start_releases_the_capture_once
    (cv : Detector.cv2_api) (w : Terminal.world) (st : Terminal.machine) :
  let st' := state_of (Terminal.start cv w st) in
  Terminal.releases st'
    = (Terminal.releases st + if Terminal.is_opened w then 1 else 0)%nat
  /\ Terminal.windows_closed st'
     = (Terminal.windows_closed st + if Terminal.is_opened w then 1 else 0)%nat
  /\ (Terminal.is_opened w = false ->
      result_of (Terminal.start cv w st) = Ret ()
      /\ events_of (Terminal.start cv w st) = []
      /\ Terminal.self st' = Terminal.self st
      /\ Terminal.frame_count st' = Terminal.frame_count st
      /\ Terminal.frames_shown st' = Terminal.frames_shown st).
Proof.
  intros st'. subst st'.
  destruct (Terminal.is_opened w) eqn:Ho.
  - destruct (start_opened cv w st Ho) as [_ ->].
    destruct (try_except_finally_state cv w (armed w st)) as (s2 & Hf & _ & -> & _).
    destruct (summary_run w s2) as (Hr & Hw & _).
    rewrite Hr, Hw. unfold loop_frame in Hf. injection Hf as -> -> _ _ _.
    repeat split; discriminate.
  - rewrite (start_not_opened cv w st Ho). cbn. repeat split; lia.
Qed.

Lemma start_releases_the_capture_once_witness :
  result_of (Terminal.start Detector.plain_cv
               {| Terminal.is_opened := false; Terminal.start_clock := 0;
                  Terminal.iterations := []; Terminal.end_clock := 1 |}
               {| Terminal.self :=
                    {| Terminal.source := inl 0%Z;
                       Terminal.detector := Detector.loaded_detector;
                       Terminal.alert_system := fresh_system;
                       Terminal.running := false |};
                  Terminal.frame_count := 0; Terminal.detection_count := 0;
                  Terminal.start_time := 0; Terminal.releases := 0;
                  Terminal.windows_closed := 0; Terminal.frames_shown := [];
                  Terminal.files_saved := []; Terminal.stdout := [] |}) = Ret ().
Proof.
  refine (proj1 (proj2 (proj2 (start_releases_the_capture_once _ _ _)) _)).
  reflexivity.
Defined.

(** How [start] ends when the source opened.  If the clock reads the same
    at line 128 as at line 65, the division of line 136 raises
    [ZeroDivisionError], whatever happened in the loop.  Otherwise [start]
    returns normally when the loop ended by itself or by Ctrl+C, and lets
    through any other exception the loop raised (after the summary). *)
Theorem start_ends_as_the_loop_and_the_clock_say
    (cv : Detector.cv2_api) (w : Terminal.world) (st : Terminal.machine) :
  Terminal.is_opened w = true ->
  result_of (Terminal.start cv w st)
    = start_outcome
        (result_of (Terminal.loop cv (Terminal.iterations w) (armed w st)))
        (Terminal.end_clock w - Terminal.start_clock w).
Proof.
  intros Ho. destruct (start_opened cv w st Ho) as [-> _].
  destruct (try_except_finally_state cv w (armed w st)) as (s2 & Hf & _ & _ & ->).
  destruct (summary_run w s2) as (_ & _ & -> & _).
  unfold loop_frame in Hf. injection Hf as _ _ -> _ _.
  unfold start_outcome. cbn [armed Terminal.start_time Terminal.set_start_time].
  destruct (Qeq_bool _ 0); reflexivity.
Qed.

Lemma start_ends_as_the_loop_and_the_clock_say_witness :
  result_of (Terminal.start Detector.plain_cv (empty_stream 7 7) idle_machine)
    = Raise (Exception "ZeroDivisionError").
Proof.
  rewrite (start_ends_as_the_loop_and_the_clock_say
             Detector.plain_cv (empty_stream 7 7) idle_machine eq_refl).
  reflexivity.
Defined.

(** *** One pass of the loop *)

Lemma state_of_bind_ret {S A B} (m : M (S:=S) A) (k : A -> M (S:=S) B) s a s1 evs :
  m s = (Ret a, s1, evs) ->
  state_of (bind m k s) = state_of (k a s1)
  /\ result_of (bind m k s) = result_of (k a s1).
Proof.
  intros E. unfold bind, state_of, result_of. rewrite E.
  destruct (k a s1) as [[r s2] evs2]. split; reflexivity.
Qed.

Lemma state_of_bind_raise {S A B} (m : M (S:=S) A) (k : A -> M (S:=S) B) s e s1 evs :
  m s = (Raise e, s1, evs) ->
  state_of (bind m k s) = s1 /\ result_of (bind m k s) = Raise e.
Proof.
  intros E. unfold bind, state_of, result_of. rewrite E. split; reflexivity.
Qed.

(** Printing the detections never fails and only writes to the terminal. *)
Lemma print_lines_run (l : list (string * Q)) : forall st,
  exists out,
    Detector.for_each l
      (fun dc => Terminal.print (Terminal.DetectionLine (upper dc.1) dc.2)) st
    = (Ret (), Terminal.set_stdout out st, []).
Proof.
  induction l as [|x l IH]; intros st.
  - exists (Terminal.stdout st). destruct st. reflexivity.
  - cbn [Detector.for_each]. unfold bind, Terminal.print at 1, modify.
    destruct (IH (Terminal.set_stdout
                    (Terminal.stdout st ++
                     [Terminal.DetectionLine (upper x.1) x.2]) st)) as [out E].
    rewrite E. exists out. reflexivity.
Qed.

Lemma trigger_alert_returns frame dets scores env s :
  exists r, result_of (trigger_alert frame dets scores env s) = Ret r.
Proof.
  destruct (trigger_alert_cases frame dets scores env s)
    as [(_ & lvl & E)|[(_ & _ & E)|(_ & _ & info & evs & _ & _ & _ & E & _)]];
    rewrite E; eexists; reflexivity.
Qed.

(** Lines 81-96.  The result of [detect] is handed to [trigger_alert]
    exactly when it reports a detection; then the detection is counted, and
    the alert system is what [trigger_alert] leaves.  Otherwise nothing
    changes. *)
Lemma handle_result_step it (d : Detector.detection) st :
  result_of (Terminal.handle_result it d st) = Ret ()
  /\ (if reports_detection d
      then
        pass_view (state_of (Terminal.handle_result it d st))
        = (Terminal.frame_count st, (Terminal.detection_count st + 1)%nat,
           Terminal.detector (Terminal.self st),
           state_of (trigger_alert (PyArray d.1.1.1) d.1.1.2 d.1.2
                       (Terminal.alert_world it)
                       (Terminal.alert_system (Terminal.self st))))
      else state_of (Terminal.handle_result it d st) = st).
Proof.
  destruct d as [[[f ds] cs] h]. unfold reports_detection.
  cbn [fst snd].
  remember (Terminal.handle_result it (f, ds, cs, h) st) as X eqn:EX.
  unfold Terminal.handle_result in EX.
  destruct (h && negb (is_empty ds)); [|subst X; split; reflexivity].
  unfold bind at 1, modify at 1 in EX.
  unfold bind at 1, Terminal.print at 1, modify at 1 in EX.
  unfold bind at 1 in EX.
  match type of EX with
  | context [Detector.for_each ?l ?k ?s] =>
      destruct (print_lines_run l s) as [out E]
  end.
  rewrite E in EX. unfold bind, Terminal.on_alert_system in EX.
  cbn -[trigger_alert] in EX.
  destruct (trigger_alert_returns (PyArray f) ds cs (Terminal.alert_world it)
              (Terminal.alert_system (Terminal.self st))) as [r Hr].
  unfold result_of, state_of, pass_view in *.
  destruct (trigger_alert _ _ _ _ _) as [[o a'] evs]. cbn in Hr. subst o.
  destruct r as [info|]; cbn in EX; subst X; cbn; split; reflexivity.
Qed.

Lemma view_after_bind {S A B V} (f : S -> V) (m : M (S:=S) A)
    (k : A -> M (S:=S) B) (s : S) :
  (forall a, keeps f (k a)) ->
  f (state_of (bind m k s)) = f (state_of (m s)).
Proof.
  intros Hk. unfold bind, state_of.
  destruct (m s) as [[[a|e] s1] evs1]; cbn; [|reflexivity].
  specialize (Hk a s1). unfold state_of in Hk.
  destruct (k a s1) as [[r s2] evs2]. exact Hk.
Qed.

Lemma on_detector_detect_run cv frame env st :
  exists d evs,
    Terminal.on_detector (Detector.detect cv frame env) st
    = (Ret d,
       Terminal.set_self
         (Terminal.set_detector
            (state_of (Detector.detect cv frame env
                         (Terminal.detector (Terminal.self st))))
            (Terminal.self st)) st,
       evs)
    /\ result_of (Detector.detect cv frame env
                    (Terminal.detector (Terminal.self st))) = Ret d.
Proof.
  destruct (detect_step cv frame env (Terminal.detector (Terminal.self st)))
    as (f & d & c & h & self' & evs & E & _).
  unfold Terminal.on_detector. rewrite E. eexists _, _. split; reflexivity.
Qed.

(** One pass of the loop, seen from the counters and the two sub-objects.
    A pass whose read fails or raises changes none of them.  A pass that
    reads a frame counts it, steps the detector by [detect] on that frame,
    and hands the result to [trigger_alert] exactly when it reports a
    detection. *)
Lemma pass_step cv it st :
  match Terminal.read it with
  | Ret (true, frame) =>
      exists d,
        result_of (Detector.detect cv frame (Terminal.model_answer it)
                     (Terminal.detector (Terminal.self st))) = Ret d
        /\ pass_view (state_of (Terminal.pass cv it st))
           = ((Terminal.frame_count st + 1)%nat,
              (Terminal.detection_count st
                 + if reports_detection d then 1 else 0)%nat,
              state_of (Detector.detect cv frame (Terminal.model_answer it)
                          (Terminal.detector (Terminal.self st))),
              if reports_detection d
              then state_of (trigger_alert (PyArray d.1.1.1) d.1.1.2 d.1.2
                               (Terminal.alert_world it)
                               (Terminal.alert_system (Terminal.self st)))
              else Terminal.alert_system (Terminal.self st))
  | _ => pass_view (state_of (Terminal.pass cv it st)) = pass_view st
  end.
Proof.
  unfold Terminal.pass.
  destruct (Terminal.read it) as [[[|] frame]|e].
  - rewrite (proj1 (state_of_bind_ret _ _ st (true, frame) st [] eq_refl)).
    cbn [negb].
    rewrite (proj1 (state_of_bind_ret _ _ st ()
               (Terminal.set_frame_count (Terminal.frame_count st + 1) st) []
               eq_refl)).
    destruct (on_detector_detect_run cv frame (Terminal.model_answer it)
                (Terminal.set_frame_count (Terminal.frame_count st + 1) st))
      as (d & evs & E & Hd).
    rewrite (proj1 (state_of_bind_ret _ _ _ _ _ _ E)).
    exists d. split; [exact Hd|].
    rewrite view_after_bind.
    2:{ intros _. unfold Terminal.print. repeat tkeeps_step. }
    destruct (handle_result_step it d
                (Terminal.set_self
                   (Terminal.set_detector
                      (state_of
                         (Detector.detect cv frame (Terminal.model_answer it)
                            (Terminal.detector
                               (Terminal.self
                                  (Terminal.set_frame_count
                                     (Terminal.frame_count st + 1) st)))))
                      (Terminal.self
                         (Terminal.set_frame_count
                            (Terminal.frame_count st + 1) st)))
                   (Terminal.set_frame_count (Terminal.frame_count st + 1) st)))
      as [_ Hv].
    destruct (reports_detection d).
    + rewrite Hv. reflexivity.
    + rewrite Hv. unfold pass_view. cbn. rewrite Nat.add_0_r. reflexivity.
  - rewrite (proj1 (state_of_bind_ret _ _ st (false, frame) st [] eq_refl)).
    reflexivity.
  - rewrite (proj1 (state_of_bind_raise _ _ st e st [] eq_refl)). reflexivity.
Qed.

(** *** The whole loop *)

Lemma trigger_alert_log_length frame dets scores env s :
  (length (alert_log (state_of (trigger_alert frame dets scores env s)))
     <= length (alert_log s) + 1)%nat.
Proof.
  destruct (trigger_alert_cases frame dets scores env s)
    as [(_ & lvl & E)|[(_ & _ & E)|(_ & _ & info & evs & _ & _ & _ & E & _)]];
    rewrite E; unfold state_of; cbn [fst snd alert_log set_alert_log
                                      set_last_alert_time]; try lia.
  rewrite length_keep_last, length_app. cbn [length]. lia.
Qed.

Lemma counted_refl st : counted st st.
Proof. unfold counted. lia. Qed.

Lemma counted_trans a b c : counted a b -> counted b c -> counted a c.
Proof. unfold counted. lia. Qed.

Lemma pass_counted cv it st :
  counted st (state_of (Terminal.pass cv it st))
  /\ (Terminal.frame_count (state_of (Terminal.pass cv it st))
        <= Terminal.frame_count st + 1)%nat.
Proof.
  pose proof (pass_step cv it st) as H. unfold counted.
  destruct (Terminal.read it) as [[[|] frame]|e].
  - destruct H as (d & _ & Hv).
    pose proof (f_equal (fun v => v.1.1.1) Hv) as Hf.
    pose proof (f_equal (fun v => v.1.1.2) Hv) as Hd.
    pose proof (f_equal snd Hv) as Ha.
    unfold pass_view in Hf, Hd, Ha. cbn [fst snd] in Hf, Hd, Ha.
    rewrite Hf, Hd, Ha.
    destruct (reports_detection d).
    + pose proof (trigger_alert_log_length (PyArray d.1.1.1) d.1.1.2 d.1.2
                    (Terminal.alert_world it)
                    (Terminal.alert_system (Terminal.self st))).
      lia.
    + lia.
  - unfold pass_view in H. injection H as -> -> _ ->. lia.
  - unfold pass_view in H. injection H as -> -> _ ->. lia.
Qed.

Lemma loop_cons cv it its st :
  Terminal.running (Terminal.self st) = true ->
  Terminal.loop cv (it :: its) st =
    (go_on <- Terminal.pass cv it ;;
     if go_on : bool then Terminal.loop cv its else ret ()) st.
Proof.
  intros Hr. cbn [Terminal.loop]. unfold bind at 1, get. rewrite Hr. cbn [negb].
  destruct (bind _ _ st) as [[r s2] evs2]. reflexivity.
Qed.

Lemma loop_state cv it its st :
  Terminal.running (Terminal.self st) = true ->
  state_of (Terminal.loop cv (it :: its) st) = state_of (Terminal.pass cv it st)
  \/ state_of (Terminal.loop cv (it :: its) st)
     = state_of (Terminal.loop cv its (state_of (Terminal.pass cv it st))).
Proof.
  intros Hr. rewrite loop_cons by exact Hr.
  unfold bind, state_of.
  destruct (Terminal.pass cv it st) as [[[[|]|e] s1] evs1]; cbn [fst snd].
  - right. destruct (Terminal.loop cv its s1) as [[r s2] evs2]. reflexivity.
  - left. reflexivity.
  - left. reflexivity.
Qed.

Lemma loop_stopped cv its st :
  Terminal.running (Terminal.self st) = false ->
  state_of (Terminal.loop cv its st) = st.
Proof.
  intros Hr. destruct its; cbn [Terminal.loop]; unfold bind, get;
    rewrite Hr; reflexivity.
Qed.

(** The loop takes at most one pass per answer of the source, and one more
    in which it finds that the source has ended. *)
Lemma passes_taken_bound cv its : forall st,
  (passes_taken cv its st <= length its + 1)%nat.
Proof.
  induction its as [|it its IH]; intros st; cbn [passes_taken length].
  - destruct (negb _); lia.
  - destruct (negb _); [lia|].
    destruct (Terminal.pass cv it st) as [[[[|]|e] s1] evs1]; try lia.
    specialize (IH s1). lia.
Qed.

Lemma loop_counted cv its : forall st,
  counted st (state_of (Terminal.loop cv its st))
  /\ (Terminal.frame_count (state_of (Terminal.loop cv its st))
        <= Terminal.frame_count st + passes_taken cv its st)%nat.
Proof.
  induction its as [|it its IH]; intros st.
  - destruct (Terminal.running (Terminal.self st)) eqn:Hr.
    + cbn [Terminal.loop]. unfold bind, get, Terminal.print, modify, state_of.
      rewrite Hr. cbn. unfold counted. cbn. lia.
    + rewrite loop_stopped by exact Hr. split; [apply counted_refl|lia].
  - destruct (Terminal.running (Terminal.self st)) eqn:Hr.
    + destruct (pass_counted cv it st) as [Hc Hf].
      cbn [passes_taken]. rewrite Hr. cbn [negb].
      rewrite loop_cons by exact Hr.
      unfold bind, state_of in *.
      destruct (Terminal.pass cv it st) as [[[[|]|e] s1] evs1];
        cbn [fst snd] in *.
      * destruct (IH s1) as [Hc' Hf']. unfold state_of in Hc', Hf'.
        destruct (Terminal.loop cv its s1) as [[r s2] evs2]. cbn [fst snd] in *.
        split; [eapply counted_trans; eassumption|].
        set (p := passes_taken cv its s1) in *. lia.
      * unfold ret. cbn [fst snd]. split; [exact Hc|]. lia.
      * split; [exact Hc|]. lia.
    + rewrite loop_stopped by exact Hr. split; [apply counted_refl|lia].
Qed.

(** After [start] on a source that opened: at most one frame is counted per
    pass of the loop that was taken (and the loop takes at most one pass per
    answer of the source, and a last one when the source has ended), a
    detection is counted at most once per frame, and the alert log has
    grown by at most one record per detection counted:
    [alerts <= detections <= frames <= passes], on every path out of the
    loop. *)
Theorem start_counts_in_order
    (cv : Detector.cv2_api) (w : Terminal.world) (st : Terminal.machine) :
  Terminal.is_opened w = true ->
  let st' := state_of (Terminal.start cv w st) in
  (Terminal.frame_count st'
     <= passes_taken cv (Terminal.iterations w) (armed w st))%nat
  /\ (passes_taken cv (Terminal.iterations w) (armed w st)
        <= length (Terminal.iterations w) + 1)%nat
  /\ (Terminal.detection_count st' <= Terminal.frame_count st')%nat
  /\ (length (alert_log (Terminal.alert_system (Terminal.self st')))
        <= length (alert_log (Terminal.alert_system (Terminal.self st)))
           + Terminal.detection_count st')%nat.
Proof.
  intros Ho st'. subst st'.
  destruct (start_opened cv w st Ho) as [_ ->].
  destruct (try_except_finally_state cv w (armed w st))
    as (s2 & _ & Hv & -> & _).
  destruct (summary_run w s2) as (_ & _ & _ & Hs & Hfc & Hdc & _).
  rewrite Hs, Hfc, Hdc.
  destruct (loop_counted cv (Terminal.iterations w) (armed w st)) as [Hc Hf].
  pose proof (passes_taken_bound cv (Terminal.iterations w) (armed w st)) as Hp.
  unfold pass_view in Hv. injection Hv as -> -> _ ->.
  unfold counted in Hc.
  set (n := passes_taken cv (Terminal.iterations w) (armed w st)) in *.
  clearbody n.
  destruct (Terminal.source (Terminal.self st)); cbn in *; lia.
Qed.

(** Three frames with a pistol, two seconds and four seconds apart, and
    then the source ends: four passes, at most four frames counted, and no
    more alerts logged than detections counted. *)
Lemma start_counts_in_order_witness :
  let st' := state_of (Terminal.start Detector.plain_cv three_pistol_frames
                         idle_machine) in
  passes_taken Detector.plain_cv (Terminal.iterations three_pistol_frames)
               (armed three_pistol_frames idle_machine) = 4%nat
  /\ (Terminal.frame_count st' <= 4)%nat
  /\ (Terminal.detection_count st' <= Terminal.frame_count st')%nat
  /\ (length (alert_log (Terminal.alert_system (Terminal.self st')))
        <= 0 + Terminal.detection_count st')%nat.
Proof.
  pose proof (start_counts_in_order Detector.plain_cv three_pistol_frames
                idle_machine eq_refl) as (Hf & _ & Hd & Ha).
  assert (Hp : passes_taken Detector.plain_cv
                 (Terminal.iterations three_pistol_frames)
                 (armed three_pistol_frames idle_machine) = 4%nat)
    by (vm_compute; reflexivity).
  rewrite Hp in Hf.
  split; [exact Hp|]. split; [exact Hf|]. split; [exact Hd|exact Ha].
Defined.

(** *** A terminal run without a model *)

Lemma pass_without_model cv it st :
  Detector.model_loaded (Terminal.detector (Terminal.self st)) = false ->
  let s1 := state_of (Terminal.pass cv it st) in
  Terminal.detector (Terminal.self s1) = Terminal.detector (Terminal.self st)
  /\ Terminal.alert_system (Terminal.self s1)
     = Terminal.alert_system (Terminal.self st)
  /\ Terminal.detection_count s1 = Terminal.detection_count st.
Proof.
  intros Hl s1. subst s1.
  pose proof (pass_step cv it st) as H.
  destruct (Terminal.read it) as [[[|] frame]|e].
  - destruct H as (d & Hd & Hv).
    destruct (detect_cases cv frame (Terminal.model_answer it)
                (Terminal.detector (Terminal.self st)))
      as [(_ & f0 & lvl & E & _)|(Hr & a & -> & _)].
    + rewrite E in Hd, Hv. unfold result_of in Hd. cbn in Hd.
      injection Hd as <-.
      pose proof (f_equal (fun v => v.1.1.2) Hv) as H2.
      pose proof (f_equal (fun v => v.1.2) Hv) as H3.
      pose proof (f_equal snd Hv) as H4.
      unfold pass_view, reports_detection in H2, H3, H4.
      cbn -[Terminal.pass] in H2, H3, H4. rewrite H2, H3, H4. repeat split. lia.
    + unfold reaches_model in Hr. rewrite Hl, andb_false_r in Hr. discriminate.
  - pose proof (f_equal (fun v => v.1.1.2) H) as H2.
    pose proof (f_equal (fun v => v.1.2) H) as H3.
    pose proof (f_equal snd H) as H4.
    unfold pass_view in H2, H3, H4. cbn -[Terminal.pass] in H2, H3, H4. auto.
  - pose proof (f_equal (fun v => v.1.1.2) H) as H2.
    pose proof (f_equal (fun v => v.1.2) H) as H3.
    pose proof (f_equal snd H) as H4.
    unfold pass_view in H2, H3, H4. cbn -[Terminal.pass] in H2, H3, H4. auto.
Qed.

Lemma loop_without_model cv its : forall st,
  Detector.model_loaded (Terminal.detector (Terminal.self st)) = false ->
  let s1 := state_of (Terminal.loop cv its st) in
  Terminal.detector (Terminal.self s1) = Terminal.detector (Terminal.self st)
  /\ Terminal.alert_system (Terminal.self s1)
     = Terminal.alert_system (Terminal.self st)
  /\ Terminal.detection_count s1 = Terminal.detection_count st.
Proof.
  induction its as [|it its IH]; intros st Hl s1; subst s1.
  - destruct (Terminal.running (Terminal.self st)) eqn:Hr.
    + cbn [Terminal.loop]. unfold bind, get, Terminal.print, modify, state_of.
      rewrite Hr. cbn. auto.
    + rewrite loop_stopped by exact Hr. auto.
  - destruct (Terminal.running (Terminal.self st)) eqn:Hr.
    + destruct (pass_without_model cv it st Hl) as (Hd & Ha & Hc).
      destruct (loop_state cv it its st Hr) as [->| ->]; [auto|].
      destruct (IH (state_of (Terminal.pass cv it st))) as (Hd' & Ha' & Hc').
      { rewrite Hd. exact Hl. }
      rewrite Hd', Ha', Hc'. auto.
    + rewrite loop_stopped by exact Hr. auto.
Qed.

(** When the detector holds no model, [start] still reads, counts and
    shows frames, but whatever the stream, the keys and the clock do it
    never counts a detection and never calls the alert system's
    [trigger_alert]: the alert system and the detector come out exactly as
    they went in. *)
Theorem without_a_model_start_never_alerts
    (cv : Detector.cv2_api) (w : Terminal.world) (st : Terminal.machine) :
  Detector.model_loaded (Terminal.detector (Terminal.self st)) = false ->
  let st' := state_of (Terminal.start cv w st) in
  Terminal.alert_system (Terminal.self st')
    = Terminal.alert_system (Terminal.self st)
  /\ Terminal.detector (Terminal.self st') = Terminal.detector (Terminal.self st)
  /\ (Terminal.is_opened w = true -> Terminal.detection_count st' = 0%nat).
Proof.
  intros Hl st'. subst st'.
  destruct (Terminal.is_opened w) eqn:Ho.
  - destruct (start_opened cv w st Ho) as [_ ->].
    destruct (try_except_finally_state cv w (armed w st))
      as (s2 & _ & Hv & -> & _).
    destruct (summary_run w s2) as (_ & _ & _ & Hs & _ & Hdc & _).
    rewrite Hs, Hdc.
    pose proof (f_equal (fun v => v.1.1.2) Hv) as H2.
    pose proof (f_equal (fun v => v.1.2) Hv) as H3.
    pose proof (f_equal snd Hv) as H4.
    unfold pass_view in H2, H3, H4. cbn [fst snd] in H2, H3, H4.
    rewrite H2, H3, H4.
    destruct (loop_without_model cv (Terminal.iterations w) (armed w st))
      as (Hd & Ha & Hc).
    { unfold armed. cbn. exact Hl. }
    rewrite Hd, Ha, Hc. unfold armed. cbn. auto.
  - rewrite (start_not_opened cv w st Ho). cbn.
    repeat split. discriminate.
Qed.

Lemma without_a_model_start_never_alerts_witness :
  exists st,
    Terminal.new_terminal (inl 0%Z) (9 # 10) no_weights quiet_world = Ret st
    /\ Terminal.alert_system
         (Terminal.self (state_of (Terminal.start Detector.plain_cv
                                     three_pistol_frames st)))
       = Terminal.alert_system (Terminal.self st).
Proof.
  eexists. split; [reflexivity|].
  refine (proj1 (without_a_model_start_never_alerts Detector.plain_cv
                   three_pistol_frames _ _)).
  reflexivity.
Defined.

(** The same three frames with the model loaded: three frames and three
    detections are counted, and the cooldown of five seconds lets the
    first and the third become alerts. *)
Example three_pistol_frames_two_alerts :
  let st' := state_of (Terminal.start Detector.plain_cv three_pistol_frames
                         idle_machine) in
  (Terminal.frame_count st', Terminal.detection_count st',
   length (alert_log (Terminal.alert_system (Terminal.self st'))),
   Terminal.releases st')
  = (3, 3, 2, 1)%nat.
Proof. vm_compute. reflexivity. Qed.

(** *** Constructing the terminal front end *)

(** [TerminalDetection(source, confidence)] always constructs, with or
    without the weights file and the sound system.  Its alert system has
    the default cooldown of 5 seconds and an empty log, its detector has a
    threshold between 0 and 1 and a model exactly when one came up, and
    [running] is false. *)
Theorem terminal_always_constructs
    (src : Z + string) (confidence : Q) (lenv : load_env) (ienv : init_env) :
  exists st,
    Terminal.new_terminal src confidence lenv ienv = Ret st
    /\ Terminal.source (Terminal.self st) = src
    /\ Terminal.running (Terminal.self st) = false
    /\ cooldown (Terminal.alert_system (Terminal.self st)) = 5%Q
    /\ alert_log (Terminal.alert_system (Terminal.self st)) = []
    /\ (0 <= Detector.confidence_threshold (Terminal.detector (Terminal.self st))
          <= 1)%Q
    /\ Detector.model (Terminal.detector (Terminal.self st)) = model_comes_up lenv
    /\ Detector.model_loaded (Terminal.detector (Terminal.self st))
       = bool_decide (is_Some (model_comes_up lenv)).
Proof.
  unfold Terminal.new_terminal.
  destruct (new_detector_spec "../models/weights/best.pt" confidence lenv)
    as (d & Ed & Hc & Hm & Hl & _).
  destruct (new_spec "alerts" "assets/alert.wav" default_cooldown ienv)
    as (a & Ea & Hcd & _ & Hlog).
  rewrite Ed, Ea. eexists. split; [reflexivity|]. cbn.
  repeat split; try assumption.
  - rewrite Hc. unfold out_of_unit_range.
    destruct (Qle_bool 0 confidence) eqn:H0; cbn; [|lra].
    destruct (Qle_bool confidence 1) eqn:H1; cbn; [|lra].
    apply Qle_bool_iff in H0. exact H0.
  - rewrite Hc. unfold out_of_unit_range.
    destruct (Qle_bool 0 confidence) eqn:H0; cbn; [|lra].
    destruct (Qle_bool confidence 1) eqn:H1; cbn; [|lra].
    apply Qle_bool_iff in H1. exact H1.
Qed.
